(** * Remote inference engine: request translation, online dispatch and
    batch-job result retrieval.

    A shallow embedding of [oumi/inference/remote_inference_engine.py].
    Python values that travel through JSON are kept dynamic ([pyval]);
    raised exceptions are values of [exn] carried by [result]; network,
    sleeping, printing and scratch files are events of a trace threaded by
    the [io] monad. *)

From Stdlib Require Import String Ascii List ZArith QArith Lia Bool Arith.
From Stdlib Require Import DecimalString.
Import ListNotations.
Open Scope string_scope.
Open Scope list_scope.

Set Implicit Arguments.
Set Warnings "-register-all".

(* ================================================================== *)
(** ** Python values and exceptions *)
(* ================================================================== *)

(** JSON-like Python objects.  A [dict] keeps insertion order, so it is an
    association list; a set literal is kept apart from a dict. *)
Inductive pyval : Type :=
| PyNone
| PyBool (b : bool)
| PyInt (z : Z)
| PyFloat (q : Q)
| PyStr (s : string)
| PyList (l : list pyval)
| PyDict (d : list (string * pyval))
| PySet (l : list pyval).

Definition dict := list (string * pyval).

Inductive exn : Type :=
| ValueError (msg : string)
| RuntimeError (msg : string)
| AssertionError (msg : string)
| KeyError (key : string)
| IndexError
| TypeError
| AttributeError
| JSONDecodeError
| ClientError (msg : string).

Inductive result (A : Type) : Type :=
| Ok (a : A)
| Raise (e : exn).
Arguments Ok {A} a.
Arguments Raise {A} e.

Definition bind {A B} (r : result A) (k : A -> result B) : result B :=
  match r with
  | Ok a => k a
  | Raise e => Raise e
  end.

Declare Scope result_scope.
Delimit Scope result_scope with result.
Notation "x <- e ;; k" := (bind e (fun x => k))
  (at level 61, e at next level, right associativity) : result_scope.
Open Scope result_scope.

Fixpoint mapM {A B} (f : A -> result B) (xs : list A) : result (list B) :=
  match xs with
  | [] => Ok []
  | x :: xs' => y <- f x ;; ys <- mapM f xs' ;; Ok (y :: ys)
  end.

(** A [for] statement over a list, threading the loop-carried variables. *)
Fixpoint for_loop {A S} (body : S -> A -> result S) (xs : list A) (s : S)
  : result S :=
  match xs with
  | [] => Ok s
  | x :: xs' => s' <- body s x ;; for_loop body xs' s'
  end.

(** [enumerate(xs)] *)
Definition enumerate {A} (xs : list A) : list (nat * A) :=
  combine (seq 0 (List.length xs)) xs.

(** [xs[i]] on a list, for a non-negative index. *)
Definition list_getitem {A} (xs : list A) (i : nat) : result A :=
  match nth_error xs i with
  | Some x => Ok x
  | None => Raise IndexError
  end.

Fixpoint dict_lookup (k : string) (d : dict) : option pyval :=
  match d with
  | [] => None
  | (k', v) :: d' => if String.eqb k k' then Some v else dict_lookup k d'
  end.

(** [d[k] = v] *)
Fixpoint dict_set (k : string) (v : pyval) (d : dict) : dict :=
  match d with
  | [] => [(k, v)]
  | (k', v') :: d' =>
      if String.eqb k k' then (k', v) :: d' else (k', v') :: dict_set k v d'
  end.

(** [obj[key]] for a string key. *)
Definition py_getitem (obj : pyval) (key : string) : result pyval :=
  match obj with
  | PyDict d =>
      match dict_lookup key d with
      | Some v => Ok v
      | None => Raise (KeyError key)
      end
  | _ => Raise TypeError
  end.

(** [obj[0]] *)
Definition py_getitem0 (obj : pyval) : result pyval :=
  match obj with
  | PyList (x :: _) => Ok x
  | PyList [] => Raise IndexError
  | PyStr (String c _) => Ok (PyStr (String c EmptyString))
  | PyStr EmptyString => Raise IndexError
  | PyDict _ => Raise (KeyError "0")
  | _ => Raise TypeError
  end.

(** [obj.get(key)] *)
Definition py_get (obj : pyval) (key : string) : result pyval :=
  match obj with
  | PyDict d =>
      match dict_lookup key d with
      | Some v => Ok v
      | None => Ok PyNone
      end
  | _ => Raise AttributeError
  end.

(** Truth value of an object in a condition. *)
Definition truthy (v : pyval) : bool :=
  match v with
  | PyNone => false
  | PyBool b => b
  | PyInt z => negb (z =? 0)%Z
  | PyFloat q => negb (Qeq_bool q 0)
  | PyStr s => negb (String.eqb s "")
  | PyList l => match l with [] => false | _ => true end
  | PyDict d => match d with [] => false | _ => true end
  | PySet l => match l with [] => false | _ => true end
  end.

(** [v > 0] *)
Definition py_gt_zero (v : pyval) : result bool :=
  match v with
  | PyInt z => Ok (0 <? z)%Z
  | PyBool b => Ok b
  | PyFloat q => Ok (negb (Qle_bool q 0))
  | _ => Raise TypeError
  end.

Definition str_of_Z (z : Z) : string := NilZero.string_of_int (Z.to_int z).
Definition str_of_nat (n : nat) : string := NilEmpty.string_of_uint (Nat.to_uint n).

Definition opt_truthy (o : option string) : bool :=
  match o with
  | Some s => negb (String.eqb s "")
  | None => false
  end.

(** [o or ""] *)
Definition or_empty (o : option string) : string :=
  match o with
  | Some s => s
  | None => ""
  end.

Definition pyval_of_opt_str (o : option string) : pyval :=
  match o with
  | Some s => PyStr s
  | None => PyNone
  end.

(** An optional string inside an f-string. *)
Definition fmt_opt_str (o : option string) : string :=
  match o with
  | Some s => s
  | None => "None"
  end.

(** [type(v)] inside an f-string. *)
Definition fmt_type_of (v : pyval) : string :=
  match v with
  | PyNone => "<class 'NoneType'>"
  | PyBool _ => "<class 'bool'>"
  | PyInt _ => "<class 'int'>"
  | PyFloat _ => "<class 'float'>"
  | PyStr _ => "<class 'str'>"
  | PyList _ => "<class 'list'>"
  | PyDict _ => "<class 'dict'>"
  | PySet _ => "<class 'set'>"
  end.

(* ================================================================== *)
(** ** Conversations *)
(* ================================================================== *)

(** Modelled from the spec: the [Role] enumeration of
    [oumi.core.types.conversation] (system / user / assistant); its wire
    values are the lower-case names. *)
Inductive Role : Type := SYSTEM | USER | ASSISTANT.

Definition Role_value (r : Role) : string :=
  match r with
  | SYSTEM => "system"
  | USER => "user"
  | ASSISTANT => "assistant"
  end.

Definition Role_eqb (a b : Role) : bool :=
  match a, b with
  | SYSTEM, SYSTEM | USER, USER | ASSISTANT, ASSISTANT => true
  | _, _ => false
  end.

(** [Role(v)]: the member whose value is [v]. *)
Definition Role_of (v : pyval) : result Role :=
  match v with
  | PyStr s =>
      if String.eqb s "system" then Ok SYSTEM
      else if String.eqb s "user" then Ok USER
      else if String.eqb s "assistant" then Ok ASSISTANT
      else Raise (ValueError (s ++ " is not a valid Role")%string)
  | _ => Raise (ValueError "not a valid Role")
  end.

(** Modelled from the spec: the content [Type] enumeration of
    [oumi.core.types.conversation] (text, image-by-bytes, image-by-url);
    [OTHER] stands for any further member, which the engine does not
    support. *)
Inductive MsgType : Type :=
| TEXT
| IMAGE_BINARY
| IMAGE_URL
| OTHER (value : string).

Definition MsgType_value (t : MsgType) : string :=
  match t with
  | TEXT => "text"
  | IMAGE_BINARY => "image_binary"
  | IMAGE_URL => "image_url"
  | OTHER v => v
  end.

Definition MsgType_eqb (a b : MsgType) : bool :=
  match a, b with
  | TEXT, TEXT | IMAGE_BINARY, IMAGE_BINARY | IMAGE_URL, IMAGE_URL => true
  | OTHER x, OTHER y => String.eqb x y
  | _, _ => false
  end.

Record Message : Type := mkMessage {
  content : option string;
  binary : option (list Byte.byte);
  role : Role;
  type : MsgType
}.

(** Modelled from the spec: [Message.is_text] and [Message.is_image] of
    [oumi.core.types.conversation]. *)
Definition is_text (m : Message) : bool := MsgType_eqb (type m) TEXT.

Definition is_image (m : Message) : bool :=
  match type m with
  | IMAGE_BINARY | IMAGE_URL => true
  | _ => false
  end.

(** [if message.binary] *)
Definition has_binary (m : Message) : bool :=
  match binary m with
  | Some (_ :: _) => true
  | _ => false
  end.

Record Conversation : Type := mkConversation {
  messages : list Message;
  metadata : dict;
  conversation_id : option string
}.

(** Modelled from the spec: [GenerationParams] and its optional
    structured-output request of [oumi.core.configs].  The schema of a
    request is a pydantic model class (known by its [__name__] and by
    what [model_json_schema()] exports) or any other object. *)
Inductive schema_obj : Type :=
| ModelClass (cls_name : string) (model_json_schema : pyval)
| Plain (v : pyval).

Record GuidedDecodingParams : Type := mkGuided {
  json : option schema_obj
}.

Record GenerationParams : Type := mkGeneration {
  max_new_tokens : Z;
  temperature : Q;
  top_p : Q;
  frequency_penalty : Q;
  presence_penalty : Q;
  seed : option Z;
  logit_bias : dict;
  stop_strings : option (list string);
  guided_decoding : option GuidedDecodingParams
}.

(** Modelled from the spec: [RemoteParams] of [oumi.core.configs] (base
    URL, credential, worker limit, connection timeout, retry count,
    politeness interval, batch completion window). *)
Record RemoteParams : Type := mkRemote {
  api_url : option string;
  api_key : option string;
  api_key_env_varname : option string;
  num_workers : Z;
  connection_timeout : Q;
  max_retries : Z;
  politeness_policy : Q;
  completion_window : string
}.

Record InferenceConfig : Type := mkInference {
  generation : GenerationParams;
  remote_params : option RemoteParams;
  output_path : option string
}.

Record RemoteInferenceEngine : Type := mkEngine {
  _model : string;
  _remote_params : RemoteParams
}.

Definition _CONTENT_KEY := "content".
Definition _MESSAGE_KEY := "message".
Definition _ROLE_KEY := "role".
Definition _TYPE_KEY := "type".
Definition _TEXT_KEY := "text".
Definition _IMAGE_URL_KEY := "image_url".
Definition _AUTHORIZATION_KEY := "Authorization".
Definition _URL_KEY := "url".
Definition _BATCH_PURPOSE := "batch".
Definition _BATCH_ENDPOINT := "/v1/chat/completions".

Inductive BatchStatus : Type :=
| VALIDATING | IN_PROGRESS | COMPLETED | FAILED | EXPIRED | CANCELLED.

Definition BatchStatus_eqb (a b : BatchStatus) : bool :=
  match a, b with
  | VALIDATING, VALIDATING | IN_PROGRESS, IN_PROGRESS
  | COMPLETED, COMPLETED | FAILED, FAILED
  | EXPIRED, EXPIRED | CANCELLED, CANCELLED => true
  | _, _ => false
  end.

(** [BatchStatus(v)] *)
Definition BatchStatus_of (v : pyval) : result BatchStatus :=
  match v with
  | PyStr s =>
      if String.eqb s "validating" then Ok VALIDATING
      else if String.eqb s "in_progress" then Ok IN_PROGRESS
      else if String.eqb s "completed" then Ok COMPLETED
      else if String.eqb s "failed" then Ok FAILED
      else if String.eqb s "expired" then Ok EXPIRED
      else if String.eqb s "cancelled" then Ok CANCELLED
      else Raise (ValueError (s ++ " is not a valid BatchStatus")%string)
  | _ => Raise (ValueError "not a valid BatchStatus")
  end.

(** A member inside an f-string. *)
Definition BatchStatus_str (s : BatchStatus) : string :=
  match s with
  | VALIDATING => "BatchStatus.VALIDATING"
  | IN_PROGRESS => "BatchStatus.IN_PROGRESS"
  | COMPLETED => "BatchStatus.COMPLETED"
  | FAILED => "BatchStatus.FAILED"
  | EXPIRED => "BatchStatus.EXPIRED"
  | CANCELLED => "BatchStatus.CANCELLED"
  end.

(** The dataclass does not check its fields: what the status payload
    carries for the counts and the file references is stored as it is. *)
Record BatchStatusResponse : Type := mkBatchStatus {
  batch_id : string;
  status : BatchStatus;
  total_requests : pyval;
  completed_requests : pyval;
  failed_requests : pyval;
  error : pyval;
  output_file_id : pyval;
  error_file_id : pyval
}.

(* ================================================================== *)
(** ** The world outside the engine *)
(* ================================================================== *)

Inductive http_request : Type :=
| POST_json (url : string) (body : pyval) (headers : list (string * string))
    (timeout : option Q)
| POST_form (url : string) (file : list pyval) (filename purpose : string)
    (headers : list (string * string))
| GET (url : string) (headers : list (string * string))
    (params : list (string * string))
| DELETE (url : string) (headers : list (string * string)).

(** What a request gives back: the status line, the body as text, and
    what [response.json()] makes of the body. *)
Record http_response : Type := mkResponse {
  resp_status : Z;
  resp_text : string;
  resp_json : result pyval
}.

Inductive event : Type :=
| EvHttp (req : http_request)
| EvSleep (seconds : Q)
| EvPrint (v : pyval)
| EvSaveScratch (c : Conversation) (output_path : string)
| EvTempFile (lines : list pyval)
| EvUnlink.

(** Library functions and collaborators that are not part of the engine:
    the JSON parser, [str.splitlines], [str()] of a container, the format
    of a content-type member, the image helpers of
    [oumi.utils.image_utils], the process environment and the remote
    service, which answers a request knowing what happened before it. *)
Record Platform : Type := mkPlatform {
  json_loads : string -> result pyval;
  splitlines : string -> list string;
  py_str : pyval -> string;
  fmt_msg_type : MsgType -> string;
  load_image_bytes_to_message : Message -> result Message;
  base64encode_image_bytes : Message -> bool -> result string;
  environ_get : string -> option string;
  transport : list event -> http_request -> result http_response
}.

(** An object inside an f-string. *)
Definition fmt_value (P : Platform) (v : pyval) : string :=
  match v with
  | PyStr s => s
  | PyNone => "None"
  | PyBool true => "True"
  | PyBool false => "False"
  | PyInt z => str_of_Z z
  | _ => py_str P v
  end.

(* ================================================================== *)
(** ** The io monad: exceptions over a trace of events *)
(* ================================================================== *)

Definition io (A : Type) : Type := list event -> result A * list event.

Definition io_ret {A} (a : A) : io A := fun tr => (Ok a, tr).

Definition io_raise {A} (e : exn) : io A := fun tr => (Raise e, tr).

Definition io_bind {A B} (m : io A) (k : A -> io B) : io B :=
  fun tr =>
    match m tr with
    | (Ok a, tr') => k a tr'
    | (Raise e, tr') => (Raise e, tr')
    end.

(** A pure step that may raise. *)
Definition lift {A} (r : result A) : io A := fun tr => (r, tr).

Definition emit (e : event) : io unit := fun tr => (Ok tt, tr ++ [e]).

(** [try: m finally: cleanup] *)
Definition io_finally {A} (m : io A) (cleanup : io unit) : io A :=
  fun tr =>
    match m tr with
    | (r, tr') =>
        match cleanup tr' with
        | (Ok _, tr'') => (r, tr'')
        | (Raise e, tr'') => (Raise e, tr'')
        end
    end.

Declare Scope io_scope.
Delimit Scope io_scope with io.
Notation "x <~ e ;; k" := (io_bind e (fun x => k))
  (at level 61, e at next level, right associativity) : io_scope.
Notation "e ;;; k" := (io_bind e (fun _ => k))
  (at level 61, right associativity) : io_scope.
Open Scope io_scope.

(* ================================================================== *)
(** ** Message encoder *)
(* ================================================================== *)

Section Encoder.

Variable P : Platform.

(** [RemoteInferenceEngine._get_content_for_message] *)
Definition _get_content_for_message (message : Message) : result pyval :=
  if MsgType_eqb (type message) TEXT then
    Ok (PyDict [(_TYPE_KEY, PyStr (MsgType_value TEXT));
                (_TEXT_KEY, PyStr (or_empty (content message)))])
  else if negb (is_image message) then
    Raise (ValueError ("Unsupported message type: "
                         ++ fmt_msg_type P (type message))%string)
  else
    message <- (if negb (has_binary message)
                   && negb (MsgType_eqb (type message) IMAGE_URL)
                then load_image_bytes_to_message P message
                else Ok message) ;;
    if has_binary message then
      b64_image <- base64encode_image_bytes P message true ;;
      Ok (PyDict [(_TYPE_KEY, PyStr (MsgType_value IMAGE_URL));
                  (_IMAGE_URL_KEY, PyDict [(_URL_KEY, PyStr b64_image)])])
    else if MsgType_eqb (type message) IMAGE_URL then
      Ok (PyDict [(_TYPE_KEY, PyStr (MsgType_value IMAGE_URL));
                  (_IMAGE_URL_KEY, PySet [PyStr (or_empty (content message))])])
    else
      Raise (AssertionError ("Unexpected message type: "
                               ++ fmt_msg_type P (type message)
                               ++ ". Must be a code bug.")%string).

(** The three [while] loops of [_get_list_of_message_json_dicts].  Each
    takes the number of iterations it may still run; [None] says that the
    number was used up before the loop condition turned false. *)

(** [while end_idx < num_messages and
           messages[idx].role == messages[end_idx].role: end_idx += 1] *)
Fixpoint scan_same_role (fuel : nat) (messages : list Message)
    (idx end_idx : nat) : option (result nat) :=
  if (end_idx <? List.length messages)%nat then
    match list_getitem messages idx with
    | Raise e => Some (Raise e)
    | Ok mi =>
        match list_getitem messages end_idx with
        | Raise e => Some (Raise e)
        | Ok me =>
            if Role_eqb (role mi) (role me) then
              match fuel with
              | O => None
              | S fuel' => scan_same_role fuel' messages idx (S end_idx)
              end
            else Some (Ok end_idx)
        end
    end
  else Some (Ok end_idx).

(** [while idx < end_idx:
       content_list.append(_get_content_for_message(messages[idx]));
       idx += 1] *)
Fixpoint collect_content (fuel : nat) (messages : list Message)
    (idx end_idx : nat) (content_list : list pyval)
  : option (result (list pyval)) :=
  if (idx <? end_idx)%nat then
    match fuel with
    | O => None
    | S fuel' =>
        match list_getitem messages idx with
        | Raise e => Some (Raise e)
        | Ok m =>
            match _get_content_for_message m with
            | Raise e => Some (Raise e)
            | Ok c =>
                collect_content fuel' messages (S idx) end_idx
                  (content_list ++ [c])
            end
        end
    end
  else Some (Ok content_list).

(** The outer [while idx < num_messages] loop. *)
Fixpoint group_loop (fuel : nat) (messages : list Message)
    (group_adjacent_same_role_turns : bool) (idx : nat)
    (result_ : list pyval) : option (result (list pyval)) :=
  if (idx <? List.length messages)%nat then
    match fuel with
    | O => None
    | S fuel' =>
        let end_idx := S idx in
        match (if group_adjacent_same_role_turns
               then scan_same_role (List.length messages) messages idx end_idx
               else Some (Ok end_idx)) with
        | None => None
        | Some (Raise e) => Some (Raise e)
        | Some (Ok end_idx) =>
            match list_getitem messages idx with
            | Raise e => Some (Raise e)
            | Ok m =>
                let item := [(_ROLE_KEY, PyStr (Role_value (role m)))] in
                let group_size := (end_idx - idx)%nat in
                match (if (group_size =? 1)%nat && is_text m
                       then Some (Ok (pyval_of_opt_str (content m)))
                       else
                         match collect_content (List.length messages) messages
                                 idx end_idx [] with
                         | None => None
                         | Some (Raise e) => Some (Raise e)
                         | Some (Ok content_list) =>
                             Some (Ok (PyList content_list))
                         end) with
                | None => None
                | Some (Raise e) => Some (Raise e)
                | Some (Ok c) =>
                    let item := dict_set _CONTENT_KEY c item in
                    group_loop fuel' messages
                      group_adjacent_same_role_turns end_idx
                      (result_ ++ [PyDict item])
                end
            end
        end
    end
  else Some (Ok result_).

(** [RemoteInferenceEngine._get_list_of_message_json_dicts] *)
Definition _get_list_of_message_json_dicts (messages : list Message)
    (group_adjacent_same_role_turns : bool) : option (result (list pyval)) :=
  group_loop (List.length messages) messages group_adjacent_same_role_turns 0 [].

(** The structured-output block of [_convert_conversation_to_api_input]
    (the body of [if generation_params.guided_decoding:]). *)
Definition resolve_guided_decoding (g : GuidedDecodingParams)
    (api_input : dict) : result dict :=
  match json g with
  | Some json_schema =>
      named <-
        match json_schema with
        | ModelClass cls_name exported => Ok (cls_name, exported)
        | Plain (PyDict d) => Ok ("Response", PyDict d)
        | Plain (PyStr s) =>
            schema_value <- json_loads P s ;; Ok ("Response", schema_value)
        | Plain v =>
            Raise (ValueError
                     ("Got unsupported JSON schema type: " ++ fmt_type_of v
                        ++ "Please provide a Pydantic model or a JSON schema as a "
                        ++ "string or dict.")%string)
        end ;;
      Ok (dict_set "response_format"
            (PyDict [("type", PyStr "json_schema");
                     ("json_schema",
                       PyDict [("name", PyStr (fst named));
                               ("schema", snd named)])])
            api_input)
  | None =>
      Raise (ValueError
               "Only JSON schema guided decoding is supported, got '%s'")
  end.

Definition pyval_of_opt_Z (o : option Z) : pyval :=
  match o with
  | Some z => PyInt z
  | None => PyNone
  end.

(** [RemoteInferenceEngine._convert_conversation_to_api_input] *)
Definition _convert_conversation_to_api_input (self : RemoteInferenceEngine)
    (conversation : Conversation) (generation_params : GenerationParams)
  : result dict :=
  msgs <- mapM (fun message =>
                  c <- _get_content_for_message message ;;
                  Ok (PyDict [(_CONTENT_KEY, PyList [c]);
                              (_ROLE_KEY, PyStr (Role_value (role message)))]))
               (messages conversation) ;;
  let api_input : dict :=
    [("model", PyStr (_model self));
     ("messages", PyList msgs);
     ("max_completion_tokens", PyInt (max_new_tokens generation_params));
     ("temperature", PyFloat (temperature generation_params));
     ("top_p", PyFloat (top_p generation_params));
     ("frequency_penalty", PyFloat (frequency_penalty generation_params));
     ("presence_penalty", PyFloat (presence_penalty generation_params));
     ("n", PyInt 1);
     ("seed", pyval_of_opt_Z (seed generation_params));
     ("logit_bias", PyDict (logit_bias generation_params))] in
  let api_input :=
    match stop_strings generation_params with
    | Some (s :: ss) => dict_set "stop" (PyList (map PyStr (s :: ss))) api_input
    | _ => api_input
    end in
  match guided_decoding generation_params with
  | Some g => resolve_guided_decoding g api_input
  | None => Ok api_input
  end.

(** Modelled from the spec: construction of a text [Message] from what a
    completion carries (the pydantic model of
    [oumi.core.types.conversation]); the content of a message is a text
    string. *)
Definition Message_text (content_ : pyval) (role_ : Role) : result Message :=
  match content_ with
  | PyStr s => Ok (mkMessage (Some s) None role_ TEXT)
  | _ => Raise (ValueError "validation error for Message")
  end.

(** [RemoteInferenceEngine._convert_api_output_to_conversation] *)
Definition _convert_api_output_to_conversation (response : pyval)
    (original_conversation : Conversation) : result Conversation :=
  choices <- py_getitem response "choices" ;;
  first <- py_getitem0 choices ;;
  message <- py_getitem first _MESSAGE_KEY ;;
  c <- py_getitem message _CONTENT_KEY ;;
  r <- py_getitem message _ROLE_KEY ;;
  role_ <- Role_of r ;;
  m <- Message_text c role_ ;;
  Ok (mkConversation (messages original_conversation ++ [m])
        (metadata original_conversation)
        (conversation_id original_conversation)).

End Encoder.

(** Whether [json.dumps] accepts an object: a set is not JSON
    serialisable, inside a list or a mapping either. *)
Fixpoint json_serializable (v : pyval) : bool :=
  match v with
  | PySet _ => false
  | PyList l =>
      (fix all (l : list pyval) : bool :=
         match l with
         | [] => true
         | x :: l' => json_serializable x && all l'
         end) l
  | PyDict d =>
      (fix all (d : list (string * pyval)) : bool :=
         match d with
         | [] => true
         | (_, x) :: d' => json_serializable x && all d'
         end) d
  | _ => true
  end.

(** [obj.get(key, default)] *)
Definition py_get_default (obj : pyval) (key : string) (default : pyval)
  : result pyval :=
  match obj with
  | PyDict d =>
      match dict_lookup key d with
      | Some v => Ok v
      | None => Ok default
      end
  | _ => Raise AttributeError
  end.

Fixpoint chars_of (s : string) : list pyval :=
  match s with
  | EmptyString => []
  | String c s' => PyStr (String c EmptyString) :: chars_of s'
  end.

(** The items that [for x in obj] visits. *)
Definition py_iter (obj : pyval) : result (list pyval) :=
  match obj with
  | PyList l => Ok l
  | PySet l => Ok l
  | PyDict d => Ok (map (fun kv => PyStr (fst kv)) d)
  | PyStr s => Ok (chars_of s)
  | _ => Raise TypeError
  end.

(** [if limit] for an optional integer. *)
Definition opt_Z_truthy (o : option Z) : bool :=
  match o with
  | Some z => negb (z =? 0)%Z
  | None => false
  end.

(** The dataclasses of the listing calls; like [BatchStatusResponse] they
    store what the payload carries. *)
Module BatchInfo.
Record t : Type := mk {
  id : pyval;
  endpoint : pyval;
  status : pyval;
  input_file_id : pyval;
  completion_window : pyval;
  output_file_id : pyval;
  error_file_id : pyval;
  created_at : pyval;
  in_progress_at : pyval;
  expires_at : pyval;
  finalizing_at : pyval;
  completed_at : pyval;
  failed_at : pyval;
  expired_at : pyval;
  cancelling_at : pyval;
  cancelled_at : pyval;
  total_requests : pyval;
  completed_requests : pyval;
  failed_requests : pyval;
  metadata : pyval
}.
End BatchInfo.

Module BatchListResponse.
Record t : Type := mk {
  batches : list BatchInfo.t;
  first_id : pyval;
  last_id : pyval;
  has_more : pyval
}.
End BatchListResponse.

Module FileInfo.
Record t : Type := mk {
  id : pyval;
  filename : pyval;
  bytes : pyval;
  created_at : pyval;
  purpose : pyval
}.
End FileInfo.

Module FileListResponse.
Record t : Type := mk {
  files : list FileInfo.t;
  has_more : bool
}.
End FileListResponse.

(* ================================================================== *)
(** ** Dispatch and batch jobs *)
(* ================================================================== *)

Section Engine.

Variable P : Platform.

(** One HTTP exchange: the remote service answers (or the call raises),
    and the request is recorded. *)
Definition http (req : http_request) : io http_response :=
  fun tr => (transport P tr req, tr ++ [EvHttp req]).

Definition sleep (seconds : Q) : io unit := emit (EvSleep seconds).

Definition print (v : pyval) : io unit := emit (EvPrint v).

(** [RemoteInferenceEngine._get_api_key] *)
Definition _get_api_key (rparams : option RemoteParams)
  : option string :=
  match rparams with
  | None => None
  | Some rp =>
      if opt_truthy (api_key rp) then api_key rp
      else
        match api_key_env_varname rp with
        | Some name =>
            if negb (String.eqb name "") then environ_get P name else None
        | None => None
        end
  end.

(** [RemoteInferenceEngine._get_request_headers] *)
Definition _get_request_headers (rparams : option RemoteParams)
  : list (string * string) :=
  match rparams with
  | None => []
  | Some _ =>
      [(_AUTHORIZATION_KEY,
         ("Bearer " ++ fmt_opt_str (_get_api_key rparams))%string)]
  end.

(** The [for _ in range(remote_params.max_retries + 1)] loop of
    [_query_api], by the number of iterations left, followed by the
    [raise] after it. *)
Fixpoint query_loop (attempts_left : nat) (conversation : Conversation)
    (inference_config : InferenceConfig) (rparams : RemoteParams)
    (url : string) (api_input : dict) (headers : list (string * string))
  : io Conversation :=
  match attempts_left with
  | O =>
      io_raise (RuntimeError
                  ("Failed to query API after "
                     ++ str_of_Z (max_retries rparams)
                     ++ " retries.")%string)
  | S attempts_left' =>
      response <~ http (POST_json url (PyDict api_input) headers
                          (Some (connection_timeout rparams))) ;;
      response_json <~ lift (resp_json response) ;;
      if (resp_status response =? 200)%Z then
        result_ <~ lift (_convert_api_output_to_conversation
                           response_json conversation) ;;
        (if opt_truthy (output_path inference_config)
         then emit (EvSaveScratch result_
                      (or_empty (output_path inference_config)))
         else io_ret tt) ;;;
        sleep (politeness_policy rparams) ;;;
        io_ret result_
      else
        print response_json ;;;
        sleep (politeness_policy rparams) ;;;
        query_loop attempts_left' conversation inference_config
          rparams url api_input headers
  end.

(** [RemoteInferenceEngine._query_api], the work of one admitted unit. *)
Definition _query_api (self : RemoteInferenceEngine)
    (conversation : Conversation) (inference_config : InferenceConfig)
    (rparams : RemoteParams) : io Conversation :=
  if negb (opt_truthy (api_url rparams)) then
    io_raise (AssertionError "")
  else
    api_input <~ lift (_convert_conversation_to_api_input P self
                         conversation (generation inference_config)) ;;
    let headers := _get_request_headers (remote_params inference_config) in
    query_loop (Z.to_nat (max_retries rparams + 1)) conversation
      inference_config rparams (or_empty (api_url rparams))
      api_input headers.

(** [RemoteInferenceEngine._upload_batch_file].  The temporary file is
    created and the requests are handed to the jsonlines writer before the
    [try]: [EvTempFile] records that.  The writer raises a type error on a
    request that JSON cannot represent; nothing is sent then and the file
    is not removed.  Only after the write does the [finally] clause guard
    the upload. *)
Definition _upload_batch_file (batch_requests : list pyval)
    (rparams : RemoteParams) : io pyval :=
  emit (EvTempFile batch_requests) ;;;
  if forallb json_serializable batch_requests then
    io_finally
      (let headers := _get_request_headers (Some rparams) in
       response <~ http (POST_form
                           (fmt_opt_str (api_url rparams) ++ "/files")%string
                           batch_requests "batch_requests.jsonl"
                           _BATCH_PURPOSE headers) ;;
       if negb (resp_status response =? 200)%Z then
         io_raise (RuntimeError
                     ("Failed to upload batch file: "
                        ++ resp_text response)%string)
       else
         data <~ lift (resp_json response) ;;
         lift (py_getitem data "id"))
      (emit EvUnlink)
  else io_raise TypeError.

(** The request objects that [_create_batch] prepares. *)
Definition prepare_batch_requests (self : RemoteInferenceEngine)
    (conversations : list Conversation) (inference_config : InferenceConfig)
  : result (list pyval) :=
  for_loop
    (fun batch_requests '(i, conv) =>
       api_input <- _convert_conversation_to_api_input P self conv
                      (generation inference_config) ;;
       Ok (batch_requests ++
             [PyDict [("custom_id", PyStr ("request-" ++ str_of_nat i)%string);
                      ("method", PyStr "POST");
                      ("url", PyStr _BATCH_ENDPOINT);
                      ("body", PyDict api_input)]]))
    (enumerate conversations) [].

(** [RemoteInferenceEngine._create_batch] *)
Definition _create_batch (self : RemoteInferenceEngine)
    (conversations : list Conversation) (inference_config : InferenceConfig)
    (rparams : RemoteParams) : io pyval :=
  batch_requests <~ lift (prepare_batch_requests self conversations
                            inference_config) ;;
  file_id <~ _upload_batch_file batch_requests rparams ;;
  let headers := _get_request_headers (Some rparams) in
  response <~ http (POST_json
                      (fmt_opt_str (api_url rparams) ++ "/batches")%string
                      (PyDict [("input_file_id", file_id);
                               ("endpoint", PyStr _BATCH_ENDPOINT);
                               ("completion_window",
                                 PyStr (completion_window rparams))])
                      headers None) ;;
  if negb (resp_status response =? 200)%Z then
    io_raise (RuntimeError
                ("Failed to create batch: " ++ resp_text response)%string)
  else
    data <~ lift (resp_json response) ;;
    lift (py_getitem data "id").

(** [RemoteInferenceEngine._get_batch_status] *)
Definition _get_batch_status (batch_id_ : string)
    (rparams : RemoteParams) : io BatchStatusResponse :=
  let headers := _get_request_headers (Some rparams) in
  response <~ http (GET (fmt_opt_str (api_url rparams)
                           ++ "/batches/" ++ batch_id_)%string headers []) ;;
  if negb (resp_status response =? 200)%Z then
    io_raise (RuntimeError
                ("Failed to get batch status: " ++ resp_text response)%string)
  else
    data <~ lift (resp_json response) ;;
    lift (s <- py_getitem data "status" ;;
          status_ <- BatchStatus_of s ;;
          counts <- py_getitem data "request_counts" ;;
          total <- py_getitem counts "total" ;;
          counts <- py_getitem data "request_counts" ;;
          completed <- py_getitem counts "completed" ;;
          counts <- py_getitem data "request_counts" ;;
          failed <- py_getitem counts "failed" ;;
          error_ <- py_get data "error" ;;
          output_file_id_ <- py_get data "output_file_id" ;;
          error_file_id_ <- py_get data "error_file_id" ;;
          Ok (mkBatchStatus batch_id_ status_ total completed failed
                error_ output_file_id_ error_file_id_)).

(** [RemoteInferenceEngine._download_file] *)
Definition _download_file (file_id : pyval) (rparams : RemoteParams)
  : io string :=
  let headers := _get_request_headers (Some rparams) in
  response <~ http (GET (fmt_opt_str (api_url rparams)
                           ++ "/files/" ++ fmt_value P file_id
                           ++ "/content")%string headers []) ;;
  if negb (resp_status response =? 200)%Z then
    io_raise (RuntimeError
                ("Failed to download file: " ++ resp_text response)%string)
  else io_ret (resp_text response).

(** The body of the [for line, conv in zip(...)] loop of
    [_get_batch_results_with_mapping]. *)
Definition process_line (processed_conversations : list Conversation)
    (line_conv : string * Conversation) : result (list Conversation) :=
  let (line, conv) := line_conv in
  result_ <- json_loads P line ;;
  err <- py_get result_ "error" ;;
  if truthy err then
    e <- py_getitem result_ "error" ;;
    Raise (RuntimeError ("Batch request failed: " ++ fmt_value P e)%string)
  else
    response <- py_getitem result_ "response" ;;
    body <- py_getitem response "body" ;;
    processed_conv <- _convert_api_output_to_conversation body conv ;;
    Ok (processed_conversations ++ [processed_conv]).

(** The part of [_get_batch_results_with_mapping] after the download. *)
Definition parse_results (results_content : string)
    (conversations : list Conversation) : result (list Conversation) :=
  for_loop process_line
    (combine (splitlines P results_content) conversations) [].

(** The part of [_get_batch_results_with_mapping] after the status
    fetch. *)
Definition results_for_status (status_ : BatchStatusResponse)
    (conversations : list Conversation) (rparams : RemoteParams)
  : io (list Conversation) :=
  if negb (BatchStatus_eqb (status status_) COMPLETED) then
    io_raise (RuntimeError
                ("Batch is not completed. Status: "
                   ++ BatchStatus_str (status status_))%string)
  else
    failed <~ lift (py_gt_zero (failed_requests status_)) ;;
    if failed && truthy (error_file_id status_) then
      error_content <~ _download_file (error_file_id status_) rparams ;;
      io_raise (RuntimeError
                  ("Batch has failed requests: " ++ error_content)%string)
    else if negb (truthy (output_file_id status_)) then
      io_raise (RuntimeError "No output file available")
    else
      results_content <~ _download_file (output_file_id status_) rparams ;;
      lift (parse_results results_content conversations).

(** [RemoteInferenceEngine._get_batch_results_with_mapping] *)
Definition _get_batch_results_with_mapping (batch_id_ : string)
    (conversations : list Conversation) (rparams : RemoteParams)
  : io (list Conversation) :=
  status_ <~ _get_batch_status batch_id_ rparams ;;
  results_for_status status_ conversations rparams.

(** The [BatchInfo] that [_list_batches] builds from one entry. *)
Definition batch_info_of (batch_data : pyval) : result BatchInfo.t :=
  request_counts <- py_get_default batch_data "request_counts" (PyDict []) ;;
  id_ <- py_getitem batch_data "id" ;;
  endpoint_ <- py_getitem batch_data "endpoint" ;;
  status_ <- py_getitem batch_data "status" ;;
  input_file_id_ <- py_getitem batch_data "input_file_id" ;;
  completion_window_ <- py_getitem batch_data "completion_window" ;;
  output_file_id_ <- py_get batch_data "output_file_id" ;;
  error_file_id_ <- py_get batch_data "error_file_id" ;;
  created_at_ <- py_get batch_data "created_at" ;;
  in_progress_at_ <- py_get batch_data "in_progress_at" ;;
  expires_at_ <- py_get batch_data "expires_at" ;;
  finalizing_at_ <- py_get batch_data "finalizing_at" ;;
  completed_at_ <- py_get batch_data "completed_at" ;;
  failed_at_ <- py_get batch_data "failed_at" ;;
  expired_at_ <- py_get batch_data "expired_at" ;;
  cancelling_at_ <- py_get batch_data "cancelling_at" ;;
  cancelled_at_ <- py_get batch_data "cancelled_at" ;;
  total_ <- py_get_default request_counts "total" (PyInt 0) ;;
  completed_ <- py_get_default request_counts "completed" (PyInt 0) ;;
  failed_ <- py_get_default request_counts "failed" (PyInt 0) ;;
  metadata_ <- py_get batch_data "metadata" ;;
  Ok (BatchInfo.mk id_ endpoint_ status_ input_file_id_ completion_window_
        output_file_id_ error_file_id_ created_at_ in_progress_at_
        expires_at_ finalizing_at_ completed_at_ failed_at_ expired_at_
        cancelling_at_ cancelled_at_ total_ completed_ failed_ metadata_).

(** The query parameters of [_list_batches]. *)
Definition list_batches_params (after : option string) (limit : option Z)
  : list (string * string) :=
  let params : list (string * string) := [] in
  let params :=
    if opt_truthy after then params ++ [("after", or_empty after)]
    else params in
  if opt_Z_truthy limit
  then params ++ [("limit", str_of_Z (match limit with
                                      | Some z => z
                                      | None => 0%Z
                                      end))]
  else params.

(** [RemoteInferenceEngine._list_batches] *)
Definition _list_batches (rparams : RemoteParams) (after : option string)
    (limit : option Z) : io BatchListResponse.t :=
  let headers := _get_request_headers (Some rparams) in
  let params := list_batches_params after limit in
  response <~ http (GET (fmt_opt_str (api_url rparams) ++ "/batches")%string
                      headers params) ;;
  if negb (resp_status response =? 200)%Z then
    io_raise (RuntimeError
                ("Failed to list batches: " ++ resp_text response)%string)
  else
    data <~ lift (resp_json response) ;;
    lift (entries <- py_getitem data "data" ;;
          entries <- py_iter entries ;;
          batches_ <- for_loop
                        (fun batches_ batch_data =>
                           info <- batch_info_of batch_data ;;
                           Ok (batches_ ++ [info]))
                        entries [] ;;
          first_id_ <- py_get data "first_id" ;;
          last_id_ <- py_get data "last_id" ;;
          has_more_ <- py_get_default data "has_more" (PyBool false) ;;
          Ok (BatchListResponse.mk batches_ first_id_ last_id_ has_more_)).

(** The [FileInfo] built from one entry or from the answer of a [get]. *)
Definition file_info_of (file : pyval) : result FileInfo.t :=
  id_ <- py_getitem file "id" ;;
  filename_ <- py_getitem file "filename" ;;
  bytes_ <- py_getitem file "bytes" ;;
  created_at_ <- py_getitem file "created_at" ;;
  purpose_ <- py_getitem file "purpose" ;;
  Ok (FileInfo.mk id_ filename_ bytes_ created_at_ purpose_).

(** The query parameters of [_list_files]. *)
Definition list_files_params (purpose : option string) (limit : option Z)
    (order : string) (after : option string) : list (string * string) :=
  let params : list (string * string) := [("order", order)] in
  let params :=
    if opt_truthy purpose then params ++ [("purpose", or_empty purpose)]
    else params in
  let params :=
    if opt_Z_truthy limit
    then params ++ [("limit", str_of_Z (match limit with
                                        | Some z => z
                                        | None => 0%Z
                                        end))]
    else params in
  if opt_truthy after then params ++ [("after", or_empty after)]
  else params.

(** [RemoteInferenceEngine._list_files] *)
Definition _list_files (rparams : RemoteParams) (purpose : option string)
    (limit : option Z) (order : string) (after : option string)
  : io FileListResponse.t :=
  let headers := _get_request_headers (Some rparams) in
  let params := list_files_params purpose limit order after in
  response <~ http (GET (fmt_opt_str (api_url rparams) ++ "/files")%string
                      headers params) ;;
  if negb (resp_status response =? 200)%Z then
    io_raise (RuntimeError
                ("Failed to list files: " ++ resp_text response)%string)
  else
    data <~ lift (resp_json response) ;;
    lift (entries <- py_getitem data "data" ;;
          entries <- py_iter entries ;;
          files_ <- mapM file_info_of entries ;;
          Ok (FileListResponse.mk files_
                (match limit with
                 | Some l =>
                     if negb (l =? 0)%Z
                     then (Z.of_nat (List.length files_) =? l)%Z
                     else false
                 | None => false
                 end))).

(** [RemoteInferenceEngine._get_file] *)
Definition _get_file (file_id : string) (rparams : RemoteParams)
  : io FileInfo.t :=
  let headers := _get_request_headers (Some rparams) in
  response <~ http (GET (fmt_opt_str (api_url rparams)
                           ++ "/files/" ++ file_id)%string headers []) ;;
  if negb (resp_status response =? 200)%Z then
    io_raise (RuntimeError
                ("Failed to get file: " ++ resp_text response)%string)
  else
    data <~ lift (resp_json response) ;;
    lift (file_info_of data).

(** [RemoteInferenceEngine._delete_file] *)
Definition _delete_file (file_id : string) (rparams : RemoteParams)
  : io pyval :=
  let headers := _get_request_headers (Some rparams) in
  response <~ http (DELETE (fmt_opt_str (api_url rparams)
                              ++ "/files/" ++ file_id)%string headers) ;;
  if negb (resp_status response =? 200)%Z then
    io_raise (RuntimeError
                ("Failed to delete file: " ++ resp_text response)%string)
  else
    data <~ lift (resp_json response) ;;
    lift (py_get_default data "deleted" (PyBool false)).

(** The synchronous entry points: each checks that the configuration
    carries remote parameters and then runs its coroutine. *)

(** [RemoteInferenceEngine.infer_batch] *)
Definition infer_batch (self : RemoteInferenceEngine)
    (conversations : list Conversation) (inference_config : InferenceConfig)
  : io pyval :=
  match remote_params inference_config with
  | None =>
      io_raise (ValueError
                  "Remote params must be provided in generation_params.")
  | Some rp => _create_batch self conversations inference_config rp
  end.

(** [RemoteInferenceEngine.get_batch_status] *)
Definition get_batch_status (batch_id_ : string)
    (inference_config : InferenceConfig) : io BatchStatusResponse :=
  match remote_params inference_config with
  | None =>
      io_raise (ValueError
                  "Remote params must be provided in generation_params.")
  | Some rp => _get_batch_status batch_id_ rp
  end.

(** [RemoteInferenceEngine.list_batches] *)
Definition list_batches (inference_config : InferenceConfig)
    (after : option string) (limit : option Z) : io BatchListResponse.t :=
  match remote_params inference_config with
  | None =>
      io_raise (ValueError
                  "Remote params must be provided in inference_config")
  | Some rp => _list_batches rp after limit
  end.

(** [RemoteInferenceEngine.get_batch_results] *)
Definition get_batch_results (batch_id_ : string)
    (conversations : list Conversation) (inference_config : InferenceConfig)
  : io (list Conversation) :=
  match remote_params inference_config with
  | None =>
      io_raise (ValueError
                  "Remote params must be provided in generation_params.")
  | Some rp => _get_batch_results_with_mapping batch_id_ conversations rp
  end.

(** [RemoteInferenceEngine.list_files] *)
Definition list_files (inference_config : InferenceConfig)
    (purpose : option string) (limit : option Z) (order : string)
    (after : option string) : io FileListResponse.t :=
  match remote_params inference_config with
  | None =>
      io_raise (ValueError
                  "Remote params must be provided in inference_config")
  | Some rp => _list_files rp purpose limit order after
  end.

(** [RemoteInferenceEngine.get_file] *)
Definition get_file (file_id : string) (inference_config : InferenceConfig)
  : io FileInfo.t :=
  match remote_params inference_config with
  | None =>
      io_raise (ValueError
                  "Remote params must be provided in inference_config")
  | Some rp => _get_file file_id rp
  end.

(** [RemoteInferenceEngine.delete_file] *)
Definition delete_file (file_id : string)
    (inference_config : InferenceConfig) : io pyval :=
  match remote_params inference_config with
  | None =>
      io_raise (ValueError
                  "Remote params must be provided in inference_config")
  | Some rp => _delete_file file_id rp
  end.

(** [RemoteInferenceEngine.get_file_content] *)
Definition get_file_content (file_id : string)
    (inference_config : InferenceConfig) : io string :=
  match remote_params inference_config with
  | None =>
      io_raise (ValueError
                  "Remote params must be provided in inference_config")
  | Some rp => _download_file (PyStr file_id) rp
  end.

End Engine.

(* ================================================================== *)
(** ** A stub platform for closed examples *)
(* ================================================================== *)

Module Stub.

(** Lines of a text whose only line boundary is the line feed. *)
Fixpoint splitlines_lf (s : string) : list string :=
  match s with
  | EmptyString => []
  | String c s' =>
      if Ascii.eqb c "010"%char then EmptyString :: splitlines_lf s'
      else
        match splitlines_lf s' with
        | [] => [String c EmptyString]
        | l :: ls => String c l :: ls
        end
  end.

(** A parser that knows the documents of a table. *)
Fixpoint loads_from (table : list (string * pyval)) (s : string)
  : result pyval :=
  match table with
  | [] => Raise JSONDecodeError
  | (text, v) :: table' =>
      if String.eqb s text then Ok v else loads_from table' s
  end.

Definition platform (table : list (string * pyval))
    (remote : list event -> http_request -> result http_response)
  : Platform :=
  {| json_loads := loads_from table;
     splitlines := splitlines_lf;
     py_str := fun _ => "<object>";
     fmt_msg_type := MsgType_value;
     load_image_bytes_to_message := fun m => Ok m;
     base64encode_image_bytes := fun _ _ => Ok "data:image/png;base64,AAAA";
     environ_get := fun _ => None;
     transport := remote |}.

Definition offline : list event -> http_request -> result http_response :=
  fun _ _ => Raise (ClientError "offline").

Definition engine : RemoteInferenceEngine :=
  {| _model := "stub-model";
     _remote_params :=
       mkRemote (Some "http://host/v1") (Some "k") None 2 20 1 0 "24h" |}.

Definition text_message (r : Role) (s : string) : Message :=
  mkMessage (Some s) None r TEXT.

Definition generation_defaults : GenerationParams :=
  mkGeneration 16 1 1 0 0 None [] None None.

End Stub.

(* ================================================================== *)
(** ** Specification-side definitions *)
(* ================================================================== *)

Unset Implicit Arguments.
Open Scope nat_scope.

(** The wire turn that the per-conversation request gives one message. *)
Definition single_turn (P : Platform) (message : Message) : result pyval :=
  c <- _get_content_for_message P message ;;
  Ok (PyDict [(_CONTENT_KEY, PyList [c]);
              (_ROLE_KEY, PyStr (Role_value (role message)))]).

(** What the request looks like before the structured-output block. *)
Definition plain_input (self : RemoteInferenceEngine) (turns : list pyval)
    (g : GenerationParams) : dict :=
  let api_input : dict :=
    [("model", PyStr (_model self));
     ("messages", PyList turns);
     ("max_completion_tokens", PyInt (max_new_tokens g));
     ("temperature", PyFloat (temperature g));
     ("top_p", PyFloat (top_p g));
     ("frequency_penalty", PyFloat (frequency_penalty g));
     ("presence_penalty", PyFloat (presence_penalty g));
     ("n", PyInt 1);
     ("seed", pyval_of_opt_Z (seed g));
     ("logit_bias", PyDict (logit_bias g))] in
  match stop_strings g with
  | Some (s :: ss) => dict_set "stop" (PyList (map PyStr (s :: ss))) api_input
  | _ => api_input
  end.

(** The structured-output constraint of a request. *)
Definition response_format (name : string) (schema : pyval) : pyval :=
  PyDict [("type", PyStr "json_schema");
          ("json_schema", PyDict [("name", PyStr name); ("schema", schema)])].

(** Every step of the engine only adds events to the trace. *)
Definition extends {A} (m : io A) : Prop :=
  forall tr, exists rest, snd (m tr) = tr ++ rest.

(** A line of the batch input document. *)
Definition batch_request (i : nat) (api_input : dict) : pyval :=
  PyDict [("custom_id", PyStr ("request-" ++ str_of_nat i)%string);
          ("method", PyStr "POST");
          ("url", PyStr "/v1/chat/completions");
          ("body", PyDict api_input)].

(** The spec's words: the maximal runs of adjacent same-role messages. *)
Fixpoint runs (ms : list Message) : list (list Message) :=
  match ms with
  | [] => []
  | m :: ms' =>
      match runs ms' with
      | (m' :: g) :: gs =>
          if Role_eqb (role m) (role m') then (m :: m' :: g) :: gs
          else [m] :: (m' :: g) :: gs
      | _ => [[m]]
      end
  end.

(** The spec's words: one wire turn per run; a run of exactly one
    plain-text message carries its content as a bare string, every other
    run the list of its members' content units. *)
Definition content_units (P : Platform) (run : list Message)
  : result pyval :=
  cl <- mapM (_get_content_for_message P) run ;; Ok (PyList cl).

Definition run_content (P : Platform) (m : Message) (others : list Message)
  : result pyval :=
  match others with
  | [] => if is_text m then Ok (pyval_of_opt_str (content m))
          else content_units P [m]
  | _ :: _ => content_units P (m :: others)
  end.

Definition encode_run (P : Platform) (run : list Message) : result pyval :=
  match run with
  | [] => Raise IndexError
  | m :: others =>
      c <- run_content P m others ;;
      Ok (PyDict [("role", PyStr (Role_value (role m))); ("content", c)])
  end.

Definition grouped_turns (P : Platform) (ms : list Message)
  : result (list pyval) :=
  mapM (encode_run P) (runs ms).

(** Number of leading messages of [ms] whose role is [r]. *)
Fixpoint same_role_prefix (r : Role) (ms : list Message) : nat :=
  match ms with
  | m :: ms' => if Role_eqb r (role m) then S (same_role_prefix r ms') else 0
  | [] => 0
  end.

(** Two neighbouring runs start with different roles. *)
Fixpoint neighbours_differ (gs : list (list Message)) : Prop :=
  match gs with
  | (m1 :: _) :: (((m2 :: _) :: _) as rest) =>
      role m1 <> role m2 /\ neighbours_differ rest
  | _ => True
  end.

(** A run is not empty and its members share one role. *)
Definition uniform (g : list Message) : Prop :=
  g <> [] /\ forall a b, In a g -> In b g -> role a = role b.

(** What one failed attempt leaves on the trace: the request, the printed
    failure body and the politeness sleep. *)
Definition failed_attempt (req : http_request) (politeness : Q)
    (body : pyval) : list event :=
  [EvHttp req; EvPrint body; EvSleep politeness].

Definition is_http (e : event) : bool :=
  match e with
  | EvHttp _ => true
  | _ => false
  end.

Definition http_count (tr : list event) : nat :=
  List.length (filter is_http tr).

(** The request that downloads the content of a file. *)
Definition download_request (P : Platform) (file_id : pyval)
    (rp : RemoteParams) : http_request :=
  GET (fmt_opt_str (api_url rp) ++ "/files/" ++ fmt_value P file_id
         ++ "/content")%string
      (_get_request_headers P (Some rp)) [].

(** The status as it would be had no request failed. *)
Definition without_failures (st : BatchStatusResponse)
  : BatchStatusResponse :=
  mkBatchStatus (batch_id st) (status st) (total_requests st)
    (completed_requests st) (PyInt 0) (error st) (output_file_id st)
    (error_file_id st).

(** A line of the output document that decodes against a conversation:
    it parses to a JSON object with no (or a null, empty) error field,
    and its response body decodes against the conversation to [r]. *)
Definition line_decodes_to (P : Platform) (line : string)
    (conv r : Conversation) : Prop :=
  exists obj response body,
    json_loads P line = Ok (PyDict obj)
    /\ (forall err, dict_lookup "error" obj = Some err -> truthy err = false)
    /\ dict_lookup "response" obj = Some response
    /\ py_getitem response "body" = Ok body
    /\ _convert_api_output_to_conversation body conv = Ok r.

(* ================================================================== *)
(** ** Closed inputs for the examples *)
(* ================================================================== *)

Definition two_user_turns : Conversation :=
  mkConversation [Stub.text_message USER "a"; Stub.text_message USER "b"]
    [] None.

Definition stub_config : InferenceConfig :=
  mkInference Stub.generation_defaults (Some (_remote_params Stub.engine))
    None.

Definition always_500 : list event -> http_request -> result http_response :=
  fun _ _ =>
    Ok (mkResponse 500 "{'error': 'overloaded'}"
          (Ok (PyDict [("error", PyStr "overloaded")]))).

Definition one_retry : RemoteParams :=
  mkRemote (Some "http://host/v1") (Some "k") None 2 20 1 0 "24h".

(** A remote service that answers [GET] requests by URL. *)
Fixpoint route (routes : list (string * http_response)) (url : string)
  : result http_response :=
  match routes with
  | [] => Raise (ClientError "no route")
  | (u, resp) :: routes' =>
      if String.eqb url u then Ok resp else route routes' url
  end.

Definition serve (routes : list (string * http_response))
  : list event -> http_request -> result http_response :=
  fun _ req =>
    match req with
    | GET url _ _ => route routes url
    | _ => Raise (ClientError "unexpected request")
    end.

Definition status_payload (state : string) (failed : Z)
    (output_file error_file : pyval) : http_response :=
  mkResponse 200 "status"
    (Ok (PyDict [("status", PyStr state);
                 ("request_counts",
                   PyDict [("total", PyInt 3); ("completed", PyInt 3);
                           ("failed", PyInt failed)]);
                 ("output_file_id", output_file);
                 ("error_file_id", error_file)])).

Definition failed_batch_remote :=
  serve [("http://host/v1/batches/b1",
           status_payload "completed" 1 PyNone (PyStr "file-err"));
         ("http://host/v1/files/file-err/content",
           mkResponse 200 "request-1 failed" (Raise JSONDecodeError))].

Definition nl : string := String "010"%char EmptyString.

Definition completion_line (custom_id answer : string) : pyval :=
  PyDict [("custom_id", PyStr custom_id);
          ("response",
            PyDict [("status_code", PyInt 200);
                    ("body",
                      PyDict [("choices",
                                PyList [PyDict
                                  [("message",
                                     PyDict [("role", PyStr "assistant");
                                             ("content", PyStr answer)])]])])]);
          ("error", PyNone)].

Definition output_table : list (string * pyval) :=
  [("line-0", completion_line "request-0" "zero");
   ("line-1", completion_line "request-1" "one");
   ("line-2", completion_line "request-2" "two")].

Definition three_lines : string :=
  ("line-0" ++ nl ++ "line-1" ++ nl ++ "line-2")%string.

Definition two_lines_and_noise : string :=
  ("line-0" ++ nl ++ "line-1" ++ nl ++ "not json")%string.

Definition completed_remote (failed : Z) (document : string) :=
  serve [("http://host/v1/batches/b1",
           status_payload "completed" failed (PyStr "file-out") PyNone);
         ("http://host/v1/files/file-out/content",
           mkResponse 200 document (Raise JSONDecodeError))].

Definition ask (question : string) : Conversation :=
  mkConversation [Stub.text_message USER question] [] None.

(* ================================================================== *)
(** ** Further specification-side definitions *)
(* ================================================================== *)

(** No two adjacent messages share a role. *)
Fixpoint roles_alternate (ms : list Message) : Prop :=
  match ms with
  | m1 :: ((m2 :: _) as rest) => role m1 <> role m2 /\ roles_alternate rest
  | _ => True
  end.

(** Every message is plain text. *)
Definition text_only (ms : list Message) : Prop :=
  Forall (fun m => is_text m = true) ms.

(** The wire turn of a text reply in a per-conversation request. *)
Definition reply_turn (r : Role) (c : string) : pyval :=
  PyDict [("content", PyList [PyDict [("type", PyStr "text");
                                      ("text", PyStr c)]]);
          ("role", PyStr (Role_value r))].

(** A conversation extended by one text message. *)
Definition with_reply (conv : Conversation) (r : Role) (c : string)
  : Conversation :=
  mkConversation (messages conv ++ [mkMessage (Some c) None r TEXT])
    (metadata conv) (conversation_id conv).

(** What a successful attempt leaves on the trace: the request, the
    scratch save when an output path is configured, and the politeness
    sleep. *)
Definition successful_attempt (req : http_request) (cfg : InferenceConfig)
    (politeness : Q) (r : Conversation) : list event :=
  [EvHttp req]
    ++ (if opt_truthy (output_path cfg)
        then [EvSaveScratch r (or_empty (output_path cfg))]
        else [])
    ++ [EvSleep politeness].

(** The request that the online path posts for an encoded conversation. *)
Definition online_request (P : Platform) (cfg : InferenceConfig)
    (rp : RemoteParams) (url : string) (api : dict) : http_request :=
  POST_json url (PyDict api) (_get_request_headers P (remote_params cfg))
    (Some (connection_timeout rp)).

(** The requests of the batch and file operations. *)
Definition upload_request (P : Platform) (batch_requests : list pyval)
    (rp : RemoteParams) : http_request :=
  POST_form (fmt_opt_str (api_url rp) ++ "/files")%string batch_requests
    "batch_requests.jsonl" "batch" (_get_request_headers P (Some rp)).

Definition create_request (P : Platform) (file_id : pyval)
    (rp : RemoteParams) : http_request :=
  POST_json (fmt_opt_str (api_url rp) ++ "/batches")%string
    (PyDict [("input_file_id", file_id);
             ("endpoint", PyStr "/v1/chat/completions");
             ("completion_window", PyStr (completion_window rp))])
    (_get_request_headers P (Some rp)) None.

Definition status_request (P : Platform) (batch_id_ : string)
    (rp : RemoteParams) : http_request :=
  GET (fmt_opt_str (api_url rp) ++ "/batches/" ++ batch_id_)%string
    (_get_request_headers P (Some rp)) [].

Definition list_batches_request (P : Platform) (rp : RemoteParams)
    (after : option string) (limit : option Z) : http_request :=
  GET (fmt_opt_str (api_url rp) ++ "/batches")%string
    (_get_request_headers P (Some rp)) (list_batches_params after limit).

Definition list_files_request (P : Platform) (rp : RemoteParams)
    (purpose : option string) (limit : option Z) (order : string)
    (after : option string) : http_request :=
  GET (fmt_opt_str (api_url rp) ++ "/files")%string
    (_get_request_headers P (Some rp))
    (list_files_params purpose limit order after).

Definition get_file_request (P : Platform) (file_id : string)
    (rp : RemoteParams) : http_request :=
  GET (fmt_opt_str (api_url rp) ++ "/files/" ++ file_id)%string
    (_get_request_headers P (Some rp)) [].

Definition delete_file_request (P : Platform) (file_id : string)
    (rp : RemoteParams) : http_request :=
  DELETE (fmt_opt_str (api_url rp) ++ "/files/" ++ file_id)%string
    (_get_request_headers P (Some rp)).

(** [d.get(key)] on the entries of a mapping. *)
Definition lookup_or_none (key : string) (d : dict) : pyval :=
  match dict_lookup key d with
  | Some v => v
  | None => PyNone
  end.

(** The second attempt of a conversation is answered with 200. *)
Definition fails_once : list event -> http_request -> result http_response :=
  fun tr _ =>
    match tr with
    | [] => Ok (mkResponse 500 "busy" (Ok (PyStr "busy")))
    | _ =>
        Ok (mkResponse 200 "ok"
              (Ok (PyDict [("choices",
                             PyList [PyDict
                               [("message",
                                  PyDict [("role", PyStr "assistant");
                                          ("content", PyStr "zero")])]])])))
    end.

(** A gateway that answers every request with an HTML error page. *)
Definition html_502 : list event -> http_request -> result http_response :=
  fun _ _ =>
    Ok (mkResponse 502 "<html>Bad Gateway</html>" (Raise JSONDecodeError)).

(** The [has_more] flag that a file listing computes from the number of
    files it got. *)
Definition has_more_heuristic (limit : option Z) (count : nat) : bool :=
  match limit with
  | Some l => if negb (l =? 0)%Z then (Z.of_nat count =? l)%Z else false
  | None => false
  end.

(** A remote service that knows nothing. *)
Definition gone : list event -> http_request -> result http_response :=
  fun _ _ => Ok (mkResponse 404 "no such file" (Raise JSONDecodeError)).

(** A remote service that accepts an upload and a job creation. *)
Definition accepting_remote
  : list event -> http_request -> result http_response :=
  fun _ req =>
    match req with
    | POST_form _ _ _ _ _ =>
        Ok (mkResponse 200 "file" (Ok (PyDict [("id", PyStr "file-1")])))
    | POST_json _ _ _ _ =>
        Ok (mkResponse 200 "batch" (Ok (PyDict [("id", PyStr "batch-1")])))
    | _ => Raise (ClientError "unexpected request")
    end.

(** A remote service that answers a deletion with an empty object. *)
Definition deleting_remote
  : list event -> http_request -> result http_response :=
  fun _ req =>
    match req with
    | DELETE _ _ => Ok (mkResponse 200 "{}" (Ok (PyDict [])))
    | _ => Raise (ClientError "unexpected request")
    end.

(** A remote service that lists two files. *)
Definition two_files_remote
  : list event -> http_request -> result http_response :=
  fun _ _ =>
    Ok (mkResponse 200 "files"
          (Ok (PyDict
                 [("data",
                    PyList
                      [PyDict [("id", PyStr "f1"); ("filename", PyStr "a");
                               ("bytes", PyInt 1); ("created_at", PyInt 10);
                               ("purpose", PyStr "batch")];
                       PyDict [("id", PyStr "f2"); ("filename", PyStr "b");
                               ("bytes", PyInt 2); ("created_at", PyInt 11);
                               ("purpose", PyStr "batch")]])]))).

(** A remote service that lists one batch without request counts. *)
Definition one_batch_remote
  : list event -> http_request -> result http_response :=
  fun _ _ =>
    Ok (mkResponse 200 "batches"
          (Ok (PyDict
                 [("data",
                    PyList
                      [PyDict [("id", PyStr "b1");
                               ("endpoint", PyStr "/v1/chat/completions");
                               ("status", PyStr "validating");
                               ("input_file_id", PyStr "f1");
                               ("completion_window", PyStr "24h")]])]))).

(** A conversation with an image given by its URL. *)
Definition image_by_url : Conversation :=
  mkConversation
    [mkMessage (Some "https://example.com/cat.png") None USER IMAGE_URL]
    [] None.

(* ================================================================== *)
(** ** Properties of the message encoder *)
(* ================================================================== *)

Lemma dict_lookup_set_same (k : string) (v : pyval) (d : dict) :
  dict_lookup k (dict_set k v d) = Some v.
Proof.
  induction d as [|[k' v'] d IH]; simpl.
  - now rewrite String.eqb_refl.
  - destruct (String.eqb k k') eqn:E; simpl; rewrite E; auto.
Qed.

Lemma dict_lookup_set_other (k k' : string) (v : pyval) (d : dict) :
  k <> k' -> dict_lookup k (dict_set k' v d) = dict_lookup k d.
Proof.
  intros Hne. induction d as [|[k0 v0] d IH]; simpl.
  - destruct (String.eqb_spec k k'); congruence.
  - destruct (String.eqb_spec k' k0) as [->|Hk]; simpl.
    + destruct (String.eqb_spec k k0); congruence.
    + destruct (String.eqb_spec k k0); auto.
Qed.

Section EncoderFacts.

Variable P : Platform.

Lemma mapM_length {A B} (f : A -> result B) (xs : list A) (ys : list B) :
  mapM f xs = Ok ys -> List.length ys = List.length xs.
Proof.
  revert ys. induction xs as [|x xs IH]; simpl; intros ys H.
  - now inversion H.
  - destruct (f x); simpl in H; try discriminate.
    destruct (mapM f xs); simpl in H; try discriminate.
    inversion H; subst; simpl. f_equal. now apply IH.
Qed.

Lemma convert_unfold self conv g turns :
  mapM (single_turn P) (messages conv) = Ok turns ->
  _convert_conversation_to_api_input P self conv g =
    match guided_decoding g with
    | Some gd => resolve_guided_decoding P gd (plain_input self turns g)
    | None => Ok (plain_input self turns g)
    end.
Proof.
  intros H. unfold _convert_conversation_to_api_input.
  change (mapM _ (messages conv)) with (mapM (single_turn P) (messages conv)).
  rewrite H. reflexivity.
Qed.

Lemma convert_raises_with_turns self conv g e :
  mapM (single_turn P) (messages conv) = Raise e ->
  _convert_conversation_to_api_input P self conv g = Raise e.
Proof.
  intros H. unfold _convert_conversation_to_api_input.
  change (mapM _ (messages conv)) with (mapM (single_turn P) (messages conv)).
  rewrite H. reflexivity.
Qed.

Lemma plain_input_messages self turns g :
  dict_lookup "messages" (plain_input self turns g) = Some (PyList turns).
Proof.
  unfold plain_input. destruct (stop_strings g) as [[|s ss]|]; reflexivity.
Qed.

End EncoderFacts.

(** C8. Decoding a response whose first completion message has role [r]
    and content [c] against a conversation returns the conversation with
    exactly one more message, of type text, role [r] and content [c]; the
    original messages, the metadata and the conversation identifier are
    kept.  A response without a ["choices"] entry, or with an empty one,
    is a decode error. *)
Theorem decode_appends_first_completion :
  forall (conv : Conversation) (response first msg : pyval)
         (rest : list pyval) (r : Role) (c : string),
    py_getitem response "choices" = Ok (PyList (first :: rest)) ->
    py_getitem first "message" = Ok msg ->
    py_getitem msg "role" = Ok (PyStr (Role_value r)) ->
    py_getitem msg "content" = Ok (PyStr c) ->
    _convert_api_output_to_conversation response conv =
      Ok {| messages := messages conv ++ [mkMessage (Some c) None r TEXT];
            metadata := metadata conv;
            conversation_id := conversation_id conv |}
    /\ (forall d : dict,
          dict_lookup "choices" d = None \/
          dict_lookup "choices" d = Some (PyList []) ->
          exists e, _convert_api_output_to_conversation (PyDict d) conv
                    = Raise e).
Proof.
  intros conv response first msg rest r c Hch Hmsg Hrole Hcontent. split.
  - unfold _convert_api_output_to_conversation.
    rewrite Hch. cbn [bind py_getitem0].
    unfold _MESSAGE_KEY, _CONTENT_KEY, _ROLE_KEY.
    rewrite Hmsg. cbn [bind]. rewrite Hcontent, Hrole. cbn [bind].
    destruct r; reflexivity.
  - intros d [H|H]; unfold _convert_api_output_to_conversation, py_getitem;
      rewrite H; cbn; eauto.
Qed.

Lemma decode_appends_first_completion_witness :
  _convert_api_output_to_conversation
    (PyDict [("choices",
               PyList [PyDict [("message",
                                 PyDict [("role", PyStr "assistant");
                                         ("content", PyStr "Hi!")])]])])
    (mkConversation [Stub.text_message USER "Hello"]
       [("k", PyInt 7)] (Some "conv-1"))
  = Ok (mkConversation
          [Stub.text_message USER "Hello";
           mkMessage (Some "Hi!") None ASSISTANT TEXT]
          [("k", PyInt 7)] (Some "conv-1")).
Proof.
  apply (decode_appends_first_completion
           (mkConversation [Stub.text_message USER "Hello"]
              [("k", PyInt 7)] (Some "conv-1"))
           (PyDict [("choices",
                      PyList [PyDict [("message",
                                        PyDict [("role", PyStr "assistant");
                                                ("content", PyStr "Hi!")])]])])
           (PyDict [("message",
                      PyDict [("role", PyStr "assistant");
                              ("content", PyStr "Hi!")])])
           (PyDict [("role", PyStr "assistant"); ("content", PyStr "Hi!")])
           [] ASSISTANT "Hi!");
    reflexivity.
Defined.

(** C7. Structured-output resolution when a request is encoded, for a
    conversation whose messages encode to [turns]: a schema class gives
    the response format its declared name and exported schema; a mapping
    gives the name ["Response"] and itself; a string gives the name
    ["Response"] and what the JSON parser makes of it; any other object
    raises; and a structured-output request without a schema raises. *)
Theorem structured_output_resolution :
  forall (P : Platform) (self : RemoteInferenceEngine) (conv : Conversation)
         (g : GenerationParams) (gd : GuidedDecodingParams)
         (turns : list pyval),
    guided_decoding g = Some gd ->
    mapM (single_turn P) (messages conv) = Ok turns ->
    let encode := _convert_conversation_to_api_input P self conv g in
    (forall name exported,
        json gd = Some (ModelClass name exported) ->
        exists api_input,
          encode = Ok api_input /\
          dict_lookup "response_format" api_input
          = Some (response_format name exported))
    /\ (forall d,
           json gd = Some (Plain (PyDict d)) ->
           exists api_input,
             encode = Ok api_input /\
             dict_lookup "response_format" api_input
             = Some (response_format "Response" (PyDict d)))
    /\ (forall s parsed,
           json gd = Some (Plain (PyStr s)) ->
           json_loads P s = Ok parsed ->
           exists api_input,
             encode = Ok api_input /\
             dict_lookup "response_format" api_input
             = Some (response_format "Response" parsed))
    /\ (forall v,
           json gd = Some (Plain v) ->
           (forall d, v <> PyDict d) -> (forall s, v <> PyStr s) ->
           exists msg, encode = Raise (ValueError msg))
    /\ (json gd = None -> exists msg, encode = Raise (ValueError msg)).
Proof.
  intros P self conv g gd turns Hg Hturns encode. subst encode.
  rewrite (convert_unfold P self conv g turns Hturns), Hg.
  unfold resolve_guided_decoding, response_format.
  repeat split.
  - intros name exported ->. eexists. split; [reflexivity|].
    apply dict_lookup_set_same.
  - intros d ->. eexists. split; [reflexivity|]. apply dict_lookup_set_same.
  - intros s parsed -> Hp. rewrite Hp. eexists. split; [reflexivity|].
    apply dict_lookup_set_same.
  - intros v -> Hd Hs.
    destruct v; cbn; eauto; [exfalso; eapply Hs | exfalso; eapply Hd];
      reflexivity.
  - intros ->. eauto.
Qed.

Lemma structured_output_resolution_witness :
  exists api_input,
    _convert_conversation_to_api_input (Stub.platform [] Stub.offline)
      Stub.engine
      (mkConversation [Stub.text_message USER "Hello"] [] None)
      (mkGeneration 16 1 1 0 0 None [] None
         (Some (mkGuided (Some (Plain (PyDict [("type", PyStr "object")]))))))
    = Ok api_input /\
    dict_lookup "response_format" api_input
    = Some (response_format "Response" (PyDict [("type", PyStr "object")])).
Proof.
  refine (proj1 (proj2 (structured_output_resolution
           (Stub.platform [] Stub.offline) Stub.engine
           (mkConversation [Stub.text_message USER "Hello"] [] None)
           (mkGeneration 16 1 1 0 0 None [] None
              (Some (mkGuided
                       (Some (Plain (PyDict [("type", PyStr "object")]))))))
           (mkGuided (Some (Plain (PyDict [("type", PyStr "object")]))))
           [PyDict [("content",
                      PyList [PyDict [("type", PyStr "text");
                                      ("text", PyStr "Hello")]]);
                    ("role", PyStr "user")]]
           eq_refl eq_refl)) _ eq_refl).
Defined.

(** C6 (image by URL). For a message of type image-by-url that carries no
    bytes, the content unit binds the key [image_url] to a set holding the
    content, not to a mapping with a [url] key: looking [url] up in it
    fails, and the unit differs from the one the claim describes. *)
Theorem image_url_unit_is_a_set :
  forall (P : Platform) (r : Role) (url : string),
    let unit_ := PyDict [("type", PyStr "image_url");
                         ("image_url", PySet [PyStr url])] in
    _get_content_for_message P (mkMessage (Some url) None r IMAGE_URL)
    = Ok unit_
    /\ (image_url <- py_getitem unit_ "image_url" ;;
        py_getitem image_url "url") = Raise TypeError
    /\ unit_ <> PyDict [("type", PyStr "image_url");
                        ("image_url", PyDict [("url", PyStr url)])].
Proof.
  intros P r url unit_. repeat split; try reflexivity.
  subst unit_. discriminate.
Qed.

(** The other two branches of C6 do what the claim says: bytes give a
    mapping with the encoded data under [url], and a content type that is
    neither text nor image raises. *)
Lemma image_bytes_unit :
  forall (P : Platform) (m : Message) (b64 : string),
    is_image m = true -> has_binary m = true ->
    base64encode_image_bytes P m true = Ok b64 ->
    _get_content_for_message P m
    = Ok (PyDict [("type", PyStr "image_url");
                  ("image_url", PyDict [("url", PyStr b64)])]).
Proof.
  intros P m b64 Hi Hb H64. unfold _get_content_for_message.
  assert (Ht : MsgType_eqb (type m) TEXT = false).
  { unfold is_image in Hi. destruct (type m); try discriminate; reflexivity. }
  rewrite Ht, Hi, Hb. cbn. rewrite Hb, H64. reflexivity.
Qed.

Lemma unsupported_type_raises :
  forall (P : Platform) (m : Message),
    is_text m = false -> is_image m = false ->
    exists msg, _get_content_for_message P m = Raise (ValueError msg).
Proof.
  intros P m Ht Hi. unfold _get_content_for_message.
  unfold is_text in Ht. rewrite Ht, Hi. cbn. eauto.
Qed.

(* ================================================================== *)
(** ** Batch-job creation *)
(* ================================================================== *)

Lemma extends_ret {A} (a : A) : extends (io_ret a).
Proof. intros tr. exists []. cbn. now rewrite app_nil_r. Qed.

Lemma extends_raise {A} (e : exn) : extends (@io_raise A e).
Proof. intros tr. exists []. cbn. now rewrite app_nil_r. Qed.

Lemma extends_lift {A} (r : result A) : extends (lift r).
Proof. intros tr. exists []. cbn. now rewrite app_nil_r. Qed.

Lemma extends_emit (e : event) : extends (emit e).
Proof. intros tr. exists [e]. reflexivity. Qed.

Lemma extends_http (P : Platform) (req : http_request) : extends (http P req).
Proof. intros tr. exists [EvHttp req]. reflexivity. Qed.

Lemma extends_bind {A B} (m : io A) (k : A -> io B) :
  extends m -> (forall a, extends (k a)) -> extends (io_bind m k).
Proof.
  intros Hm Hk tr. unfold io_bind. destruct (Hm tr) as [rest Hrest].
  destruct (m tr) as [[a|e] tr']; cbn in Hrest; subst.
  - destruct (Hk a (tr ++ rest)) as [rest' H']. exists (rest ++ rest').
    now rewrite H', app_assoc.
  - now exists rest.
Qed.

Lemma extends_finally {A} (m : io A) (cleanup : io unit) :
  extends m -> extends cleanup -> extends (io_finally m cleanup).
Proof.
  intros Hm Hc tr. unfold io_finally. destruct (Hm tr) as [rest Hrest].
  destruct (m tr) as [r tr']; cbn in Hrest; subst.
  destruct (Hc (tr ++ rest)) as [rest' H'].
  destruct (cleanup (tr ++ rest)) as [[u|e] tr']; cbn in H'; subst;
    exists (rest ++ rest'); now rewrite app_assoc.
Qed.

Lemma extends_if {A} (b : bool) (m1 m2 : io A) :
  extends m1 -> extends m2 -> extends (if b then m1 else m2).
Proof. now destruct b. Qed.

Create HintDb io_ext.
#[export] Hint Resolve extends_ret extends_raise extends_lift extends_emit
  extends_http extends_bind extends_finally extends_if : io_ext.

(** Once a computation has put [pre] on the trace, whatever follows it
    leaves [pre] in place. *)
Lemma bind_after_prefix {A B} (pre : list event) (m : io A) (k : A -> io B)
    (tr : list event) :
  (exists r rest, m tr = (r, tr ++ pre ++ rest)) ->
  (forall a, extends (k a)) ->
  exists r rest, io_bind m k tr = (r, tr ++ pre ++ rest).
Proof.
  intros (r & rest & Hm) Hk. unfold io_bind. rewrite Hm.
  destruct r as [a|e].
  - destruct (Hk a (tr ++ pre ++ rest)) as [rest' H'].
    exists (fst (k a (tr ++ pre ++ rest))), (rest ++ rest').
    rewrite (surjective_pairing (k a _)) at 1. rewrite H'.
    now rewrite <- !app_assoc.
  - eauto.
Qed.

Lemma bind_emit_prefix {A} (e : event) (k : unit -> io A)
    (tr : list event) :
  extends (k tt) ->
  exists r rest, io_bind (emit e) k tr = (r, tr ++ [e] ++ rest).
Proof.
  intros Hk. unfold io_bind, emit.
  destruct (Hk (tr ++ [e])) as [rest Hrest].
  exists (fst (k tt (tr ++ [e]))), rest.
  rewrite (surjective_pairing (k tt _)) at 1.
  now rewrite Hrest, <- app_assoc.
Qed.

Lemma bind_lift_ok {A B} (a : A) (k : A -> io B) (tr : list event) :
  io_bind (lift (Ok a)) k tr = k a tr.
Proof. reflexivity. Qed.

Section BatchCreation.

Variable P : Platform.
Variable self : RemoteInferenceEngine.
Variable inference_config : InferenceConfig.

Let encode (conv : Conversation) : result dict :=
  _convert_conversation_to_api_input P self conv (generation inference_config).

Let body (batch_requests : list pyval) (ic : nat * Conversation)
  : result (list pyval) :=
  let '(i, conv) := ic in
  api_input <- encode conv ;;
  Ok (batch_requests ++ [batch_request i api_input]).

Lemma prepare_loop (conversations : list Conversation) :
  (forall conv, In conv conversations -> exists api, encode conv = Ok api) ->
  forall (k : nat) (acc : list pyval),
  exists reqs,
    for_loop body
      (combine (seq k (List.length conversations)) conversations) acc
    = Ok (acc ++ reqs)
    /\ List.length reqs = List.length conversations
    /\ forall i conv,
        nth_error conversations i = Some conv ->
        exists api,
          encode conv = Ok api /\
          nth_error reqs i = Some (batch_request (k + i) api).
Proof.
  induction conversations as [|c cs IH]; intros Hall k acc.
  - exists []. cbn. rewrite app_nil_r. repeat split; auto.
    intros [|i] conv H; discriminate.
  - destruct (Hall c (or_introl eq_refl)) as [api Hc].
    destruct (IH (fun conv H => Hall conv (or_intror H)) (S k)
                (acc ++ [batch_request k api])) as (reqs & Hloop & Hlen & Hnth).
    exists (batch_request k api :: reqs). cbn [List.length seq combine for_loop].
    unfold body at 1. rewrite Hc. cbn [bind]. rewrite Hloop, <- app_assoc.
    repeat split; cbn; auto.
    intros [|i] conv H; cbn in *.
    + inversion H; subst. exists api. now rewrite Nat.add_0_r.
    + destruct (Hnth i conv H) as (api' & He & Hn). exists api'.
      now rewrite Nat.add_succ_r.
Qed.

End BatchCreation.

(** C2, as the code has it. For conversations that all encode, batch-job
    creation writes one request object per conversation, in order; the
    object at position [i] has the custom identifier ["request-<i>"], the
    url ["/v1/chat/completions"] and, as its body, the same request that
    the online path sends: one wire turn per message, each with a
    single-element content list (adjacent same-role messages are not
    merged).  That document is what creation writes out for upload. *)
Theorem batch_requests_tagged_by_position :
  forall (P : Platform) (self : RemoteInferenceEngine)
         (conversations : list Conversation)
         (inference_config : InferenceConfig) (rparams : RemoteParams)
         (tr : list event),
    (forall conv, In conv conversations ->
       exists api,
         _convert_conversation_to_api_input P self conv
           (generation inference_config) = Ok api) ->
    exists reqs,
      prepare_batch_requests P self conversations inference_config = Ok reqs
      /\ List.length reqs = List.length conversations
      /\ (forall i conv,
            nth_error conversations i = Some conv ->
            exists api turns,
              _convert_conversation_to_api_input P self conv
                (generation inference_config) = Ok api
              /\ nth_error reqs i = Some (batch_request i api)
              /\ mapM (single_turn P) (messages conv) = Ok turns
              /\ dict_lookup "messages" api = Some (PyList turns)
              /\ List.length turns = List.length (messages conv))
      /\ (exists r rest,
            _create_batch P self conversations inference_config rparams tr
            = (r, tr ++ EvTempFile reqs :: rest)).
Proof.
  intros P self conversations cfg rparams tr Hall.
  destruct (prepare_loop P self cfg conversations Hall 0 [])
    as (reqs & Hloop & Hlen & Hnth).
  assert (Hprep : prepare_batch_requests P self conversations cfg = Ok reqs).
  { unfold prepare_batch_requests, enumerate. exact Hloop. }
  exists reqs. repeat split; auto.
  - intros i conv Hi. destruct (Hnth i conv Hi) as (api & He & Hn).
    destruct (mapM (single_turn P) (messages conv)) as [turns|e] eqn:Hturns.
    + exists api, turns. repeat split; auto.
      * rewrite (convert_unfold P self conv _ turns Hturns) in He.
        destruct (guided_decoding (generation cfg)) as [gd|].
        -- unfold resolve_guided_decoding in He.
           destruct (json gd) as [sch|]; try discriminate.
           match type of He with
           | bind ?x _ = _ => destruct x as [named|]; try discriminate
           end.
           cbn [bind] in He. inversion He; subst.
           rewrite dict_lookup_set_other by discriminate.
           apply plain_input_messages.
        -- inversion He; subst. apply plain_input_messages.
      * eapply mapM_length; eauto.
    + rewrite (convert_raises_with_turns P self conv _ e Hturns) in He.
      discriminate.
  - unfold _create_batch. rewrite Hprep, bind_lift_ok.
    apply (bind_after_prefix [EvTempFile reqs]).
    + unfold _upload_batch_file. apply bind_emit_prefix.
      auto 10 with io_ext.
    + intros file_id. auto 10 with io_ext.
Qed.

Lemma batch_requests_tagged_by_position_witness :
  exists reqs,
    prepare_batch_requests (Stub.platform [] Stub.offline) Stub.engine
      [two_user_turns; two_user_turns] stub_config = Ok reqs
    /\ List.length reqs = 2%nat.
Proof.
  destruct (batch_requests_tagged_by_position
              (Stub.platform [] Stub.offline) Stub.engine
              [two_user_turns; two_user_turns] stub_config
              (_remote_params Stub.engine) [])
    as (reqs & Hprep & Hlen & _).
  - intros conv [<-|[<-|[]]]; eexists; reflexivity.
  - exists reqs. split; assumption.
Defined.

(** C2, as stated, fails: for a conversation of two adjacent user
    messages the body written by batch-job creation has two wire turns,
    each with a one-element content list, while grouped encoding of the
    same messages is a single turn. *)
Lemma batch_requests_are_not_grouped :
  exists api turns grouped,
    prepare_batch_requests (Stub.platform [] Stub.offline) Stub.engine
      [two_user_turns] stub_config = Ok [batch_request 0 api]
    /\ dict_lookup "messages" api = Some (PyList turns)
    /\ _get_list_of_message_json_dicts (Stub.platform [] Stub.offline)
         (messages two_user_turns) true = Some (Ok grouped)
    /\ List.length turns = 2%nat
    /\ List.length grouped = 1%nat
    /\ turns <> grouped.
Proof.
  do 3 eexists. repeat split; try (vm_compute; reflexivity).
  vm_compute. discriminate.
Qed.

(* ================================================================== *)
(** ** Grouped encoding *)
(* ================================================================== *)

Lemma Role_eqb_eq (a b : Role) : Role_eqb a b = true <-> a = b.
Proof. destruct a, b; cbn; split; congruence. Qed.

Lemma encode_run_cons (P : Platform) (m : Message) (others : list Message) :
  encode_run P (m :: others) =
    (c <- run_content P m others ;;
     Ok (PyDict [("role", PyStr (Role_value (role m))); ("content", c)])).
Proof. reflexivity. Qed.

Lemma same_role_prefix_le r ms : same_role_prefix r ms <= List.length ms.
Proof.
  induction ms as [|m ms IH]; cbn; [lia|].
  destruct (Role_eqb r (role m)); lia.
Qed.

Lemma runs_cons (m : Message) (rest : list Message) :
  runs (m :: rest) =
    (m :: firstn (same_role_prefix (role m) rest) rest)
      :: runs (skipn (same_role_prefix (role m) rest) rest).
Proof.
  revert m. induction rest as [|m' rest' IH]; intros m.
  - reflexivity.
  - change (runs (m :: m' :: rest')) with
      (match runs (m' :: rest') with
       | (x :: g) :: gs =>
           if Role_eqb (role m) (role x) then (m :: x :: g) :: gs
           else [m] :: (x :: g) :: gs
       | _ => [[m]]
       end).
    rewrite (IH m'). cbn [same_role_prefix].
    destruct (Role_eqb (role m) (role m')) eqn:E.
    + apply Role_eqb_eq in E. rewrite E. reflexivity.
    + cbn [firstn skipn]. now rewrite (IH m').
Qed.

(** The runs are what the words say: together they are the message list,
    none is empty, the members of a run share a role, and two neighbouring
    runs differ in role (so no run can be extended). *)
Lemma runs_are_maximal (ms : list Message) :
  concat (runs ms) = ms
  /\ Forall uniform (runs ms)
  /\ neighbours_differ (runs ms).
Proof.
  induction ms as [|m ms (Hc & Hu & Hn)].
  - cbn. auto.
  - cbn [runs]. destruct (runs ms) as [|[|m' g] gs] eqn:Er.
    + cbn in *. subst. repeat split; auto.
      constructor; [|constructor]. split; [discriminate|].
      intros a b [<-|[]] [<-|[]]; reflexivity.
    + inversion Hu as [|? ? [Hne _] _]. now contradiction Hne.
    + destruct (Role_eqb (role m) (role m')) eqn:E.
      * apply Role_eqb_eq in E. cbn in Hc |- *. subst ms.
        repeat split; auto.
        -- inversion Hu as [|? ? [_ Hsame] Hrest]; subst.
           constructor; auto. split; [discriminate|].
           assert (Hm : forall a, In a (m :: m' :: g) -> role a = role m').
           { intros a [<-|Ha]; auto. apply Hsame; cbn; auto. }
           intros a b Ha Hb. now rewrite (Hm a Ha), (Hm b Hb).
        -- destruct gs as [|[|m2 g2] gs']; cbn in *; auto.
           destruct Hn as [Hd Hn]. split; auto. congruence.
      * cbn in Hc |- *. subst ms. repeat split; auto.
        -- constructor; auto. split; [discriminate|].
           intros a b [<-|[]] [<-|[]]; reflexivity.
        -- intros Heq. apply Role_eqb_eq in Heq. congruence.
Qed.

Section GroupedLoop.

Variable P : Platform.
Variable ms : list Message.

Lemma skipn_nth_error {A} (l : list A) (i : nat) (x : A) :
  nth_error l i = Some x -> skipn i l = x :: skipn (S i) l.
Proof.
  revert i. induction l as [|y l IH]; intros [|i] H; try discriminate.
  - now inversion H.
  - cbn in H. cbn [skipn]. rewrite (IH i H). reflexivity.
Qed.

Lemma nth_error_in_range {A} (l : list A) (i : nat) :
  i < List.length l -> exists x, nth_error l i = Some x.
Proof.
  intros H. destruct (nth_error l i) eqn:E; eauto.
  apply nth_error_None in E. lia.
Qed.

Lemma scan_same_role_eq fuel idx end_idx :
  scan_same_role fuel ms idx end_idx =
    if (end_idx <? List.length ms)%nat then
      match list_getitem ms idx with
      | Raise e => Some (Raise e)
      | Ok mi =>
          match list_getitem ms end_idx with
          | Raise e => Some (Raise e)
          | Ok me =>
              if Role_eqb (role mi) (role me) then
                match fuel with
                | O => None
                | S fuel' => scan_same_role fuel' ms idx (S end_idx)
                end
              else Some (Ok end_idx)
          end
      end
    else Some (Ok end_idx).
Proof. destruct fuel; reflexivity. Qed.

(** The inner scan stops at the end of the run that starts at [idx]. *)
Lemma scan_same_role_spec idx mi :
  nth_error ms idx = Some mi ->
  forall fuel end_idx,
    List.length ms - end_idx <= fuel ->
    scan_same_role fuel ms idx end_idx
    = Some (Ok (end_idx + same_role_prefix (role mi) (skipn end_idx ms))).
Proof.
  intros Hidx. induction fuel as [|fuel IH]; intros end_idx Hf;
    rewrite scan_same_role_eq; unfold list_getitem; rewrite Hidx;
    destruct (Nat.ltb_spec end_idx (List.length ms)) as [Hlt|Hge];
    try lia.
  - rewrite skipn_all2 by lia. cbn. now rewrite Nat.add_0_r.
  - destruct (nth_error_in_range ms end_idx Hlt) as [me Hme].
    rewrite Hme, (skipn_nth_error ms end_idx _ Hme). cbn [same_role_prefix].
    destruct (Role_eqb (role mi) (role me)).
    + rewrite IH by lia. now rewrite Nat.add_succ_r.
    + now rewrite Nat.add_0_r.
  - rewrite skipn_all2 by lia. cbn. now rewrite Nat.add_0_r.
Qed.

(** The content loop collects the units of the messages from [idx] up to
    [end_idx]. *)
Lemma collect_content_spec :
  forall fuel idx end_idx acc,
    end_idx <= List.length ms -> end_idx - idx <= fuel ->
    collect_content P fuel ms idx end_idx acc
    = Some (cl <- mapM (_get_content_for_message P)
                    (firstn (end_idx - idx) (skipn idx ms)) ;;
            Ok (acc ++ cl)).
Proof.
  induction fuel as [|fuel IH]; intros idx end_idx acc Hle Hf;
    cbn [collect_content];
    destruct (Nat.ltb_spec idx end_idx) as [Hlt|Hge]; try lia.
  - replace (end_idx - idx) with 0 by lia. cbn. now rewrite app_nil_r.
  - assert (Hr : idx < List.length ms) by lia.
    destruct (nth_error_in_range ms idx Hr) as [m Hm].
    unfold list_getitem. rewrite Hm, (skipn_nth_error ms idx _ Hm).
    replace (end_idx - idx) with (S (end_idx - S idx)) by lia.
    cbn [firstn mapM].
    destruct (_get_content_for_message P m) as [c|e]; cbn [bind]; auto.
    rewrite IH by lia.
    destruct (mapM _ _) as [cl|e]; cbn [bind]; auto.
    now rewrite <- app_assoc.
  - replace (end_idx - idx) with 0 by lia. cbn. now rewrite app_nil_r.
Qed.

(** The outer loop, started at [idx], appends the turns of the runs of the
    messages from [idx] on. *)
Lemma group_loop_spec :
  forall fuel idx acc,
    idx <= List.length ms -> List.length ms - idx <= fuel ->
    group_loop P fuel ms true idx acc
    = Some (ts <- grouped_turns P (skipn idx ms) ;; Ok (acc ++ ts)).
Proof.
  induction fuel as [|fuel IH]; intros idx acc Hle Hf;
    cbn [group_loop];
    destruct (Nat.ltb_spec idx (List.length ms)) as [Hlt|Hge]; try lia.
  - rewrite skipn_all2 by lia. cbn. now rewrite app_nil_r.
  - destruct (nth_error_in_range ms idx Hlt) as [m Hm].
    rewrite (scan_same_role_spec idx m Hm) by lia.
    unfold list_getitem. rewrite Hm.
    rewrite (skipn_nth_error ms idx _ Hm).
    set (rest := skipn (S idx) ms).
    set (p := same_role_prefix (role m) rest).
    assert (Hp : p <= List.length rest) by apply same_role_prefix_le.
    assert (Hrest : List.length rest = List.length ms - S idx)
      by (unfold rest; apply length_skipn).
    unfold grouped_turns. rewrite runs_cons. fold rest p.
    cbn [mapM].
    replace (S idx + p - idx) with (S p) by lia.
    assert (Hrun : firstn (S idx + p - idx) (skipn idx ms)
                   = m :: firstn p rest).
    { replace (S idx + p - idx) with (S p) by lia.
      rewrite (skipn_nth_error ms idx _ Hm). reflexivity. }
    assert (Hnext : skipn (S idx + p) ms = skipn p rest).
    { unfold rest. rewrite skipn_skipn. f_equal. lia. }
    assert (Hcollect :
      match collect_content P (List.length ms) ms idx (S idx + p) [] with
      | None => None
      | Some (Raise e) => Some (Raise e)
      | Some (Ok content_list) => Some (Ok (PyList content_list))
      end = Some (content_units P (m :: firstn p rest))).
    { rewrite collect_content_spec by lia. rewrite Hrun.
      unfold content_units. destruct (mapM _ _); reflexivity. }
    assert (Hcontent :
      (if (S p =? 1) && is_text m
       then Some (Ok (pyval_of_opt_str (content m)))
       else
         match collect_content P (List.length ms) ms idx (S idx + p) [] with
         | None => None
         | Some (Raise e) => Some (Raise e)
         | Some (Ok content_list) => Some (Ok (PyList content_list))
         end)
      = Some (run_content P m (firstn p rest))).
    { rewrite Hcollect. unfold run_content. destruct p as [|p'].
      - cbn. destruct (is_text m); reflexivity.
      - destruct rest as [|x rest']; [cbn in Hp; lia|].
        cbn [firstn]. reflexivity. }
    rewrite Hcontent, encode_run_cons.
    destruct (run_content P m (firstn p rest)) as [c|e]; cbn [bind]; auto.
    rewrite IH by lia. rewrite Hnext. unfold grouped_turns.
    destruct (mapM (encode_run P) (runs (skipn p rest))) as [ts|e];
      cbn [bind]; auto.
    now rewrite <- app_assoc.
  - rewrite skipn_all2 by lia. cbn. now rewrite app_nil_r.
Qed.

End GroupedLoop.

(** C5. With grouping on, the encoder returns (its loops never run out of
    iterations) one wire turn per maximal run of adjacent same-role
    messages, scanned left to right: the runs concatenate to the message
    list, each is non-empty and of one role, neighbouring runs differ in
    role.  Messages with roles user, user, assistant give exactly two
    turns; a run of exactly one plain-text message carries its content as
    a bare string; every other run carries the list of its members'
    content units. *)
Theorem grouped_encoding_merges_runs :
  forall (P : Platform) (ms : list Message),
    _get_list_of_message_json_dicts P ms true = Some (grouped_turns P ms)
    /\ (concat (runs ms) = ms
        /\ Forall uniform (runs ms)
        /\ neighbours_differ (runs ms))
    /\ (forall m1 m2 m3 c1 c2 c3,
          ms = [m1; m2; m3] ->
          role m1 = USER -> role m2 = USER -> role m3 = ASSISTANT ->
          _get_content_for_message P m1 = Ok c1 ->
          _get_content_for_message P m2 = Ok c2 ->
          _get_content_for_message P m3 = Ok c3 ->
          exists t1 t2,
            _get_list_of_message_json_dicts P ms true = Some (Ok [t1; t2]))
    /\ (forall m,
          ms = [m] -> is_text m = true ->
          _get_list_of_message_json_dicts P ms true
          = Some (Ok [PyDict [("role", PyStr (Role_value (role m)));
                              ("content", pyval_of_opt_str (content m))]]))
    /\ (forall m others,
          In (m :: others) (runs ms) ->
          others <> [] \/ is_text m = false ->
          encode_run P (m :: others)
          = (cl <- mapM (_get_content_for_message P) (m :: others) ;;
             Ok (PyDict [("role", PyStr (Role_value (role m)));
                         ("content", PyList cl)]))).
Proof.
  intros P ms.
  assert (Hmain : _get_list_of_message_json_dicts P ms true
                  = Some (grouped_turns P ms)).
  { unfold _get_list_of_message_json_dicts.
    rewrite group_loop_spec by lia. cbn [skipn].
    destruct (grouped_turns P ms); reflexivity. }
  split; [exact Hmain|]. split; [apply runs_are_maximal|]. repeat split.
  - intros m1 m2 m3 c1 c2 c3 -> H1 H2 H3 E1 E2 E3. rewrite Hmain.
    assert (Hruns : runs [m1; m2; m3] = [[m1; m2]; [m3]]).
    { cbn [runs]. rewrite H2, H3. cbn [Role_eqb]. rewrite H1, H2.
      reflexivity. }
    unfold grouped_turns. rewrite Hruns.
    cbn [mapM]. rewrite !encode_run_cons. unfold run_content, content_units.
    cbn [mapM]. rewrite E1, E2, E3. cbn [bind].
    destruct (is_text m3); cbn [bind]; eauto.
  - intros m -> Ht. rewrite Hmain. unfold grouped_turns. cbn [runs mapM].
    rewrite encode_run_cons. unfold run_content. rewrite Ht. reflexivity.
  - intros m others _ Hother. rewrite encode_run_cons.
    unfold run_content, content_units.
    destruct others as [|x others].
    + destruct Hother as [H|H]; [congruence|]. rewrite H.
      destruct (mapM _ _); reflexivity.
    + destruct (mapM _ _); reflexivity.
Qed.

Lemma grouped_encoding_merges_runs_witness :
  exists t1 t2,
    _get_list_of_message_json_dicts (Stub.platform [] Stub.offline)
      [Stub.text_message USER "a"; Stub.text_message USER "b";
       Stub.text_message ASSISTANT "c"] true
    = Some (Ok [t1; t2]).
Proof.
  refine (proj1 (proj2 (proj2 (grouped_encoding_merges_runs
            (Stub.platform [] Stub.offline)
            [Stub.text_message USER "a"; Stub.text_message USER "b";
             Stub.text_message ASSISTANT "c"])))
          (Stub.text_message USER "a") (Stub.text_message USER "b")
          (Stub.text_message ASSISTANT "c")
          (PyDict [("type", PyStr "text"); ("text", PyStr "a")])
          (PyDict [("type", PyStr "text"); ("text", PyStr "b")])
          (PyDict [("type", PyStr "text"); ("text", PyStr "c")])
          eq_refl eq_refl eq_refl eq_refl eq_refl eq_refl eq_refl).
Defined.

(* ================================================================== *)
(** ** Online dispatch: the retry loop *)
(* ================================================================== *)

Section Retry.

Variable P : Platform.
Variable conv : Conversation.
Variable cfg : InferenceConfig.
Variable rp : RemoteParams.
Variable url : string.
Variable api : dict.
Variable headers : list (string * string).

Let req : http_request :=
  POST_json url (PyDict api) headers (Some (connection_timeout rp)).

Hypothesis always_fails :
  forall tr, exists resp body,
    transport P tr req = Ok resp
    /\ resp_status resp <> 200%Z
    /\ resp_json resp = Ok body.


End Retry.




(* ================================================================== *)
(** ** Batch results *)
(* ================================================================== *)

Lemma io_bind_ok {A B} (m : io A) (k : A -> io B) (tr tr' : list event)
    (a : A) :
  m tr = (Ok a, tr') -> io_bind m k tr = k a tr'.
Proof. intros H. unfold io_bind. now rewrite H. Qed.

Lemma BatchStatus_eqb_eq (a b : BatchStatus) :
  BatchStatus_eqb a b = true <-> a = b.
Proof. destruct a, b; cbn; split; congruence. Qed.

Lemma download_trace (P : Platform) (file_id : pyval) (rp : RemoteParams)
    (tr : list event) :
  snd (_download_file P file_id rp tr)
  = tr ++ [EvHttp (download_request P file_id rp)].
Proof.
  unfold _download_file, io_bind, http. fold (download_request P file_id rp).
  destruct (transport P tr _) as [resp|e]; [|reflexivity].
  destruct (negb _); reflexivity.
Qed.

(** C4. Once the status has been fetched: a status other than
    [completed] raises (job not ready); a completed job that reports
    [failed_requests > 0] and carries an error-file id makes the engine
    download that file and raise, with the file's content in the error
    when the download succeeds, so no results are returned; a completed
    job without an output-file id raises (no output file available, when
    the failure gate has not raised first).  Hence results are returned
    only for a completed job that passes the failure gate and carries an
    output-file id. *)
Theorem results_only_for_ready_successful_batch :
  forall (P : Platform) (batch_id_ : string)
         (conversations : list Conversation) (rp : RemoteParams)
         (tr tr1 : list event) (st : BatchStatusResponse),
    _get_batch_status P batch_id_ rp tr = (Ok st, tr1) ->
    let run := _get_batch_results_with_mapping P batch_id_ conversations rp tr in
    (status st <> COMPLETED ->
       run = (Raise (RuntimeError
                       ("Batch is not completed. Status: "
                          ++ BatchStatus_str (status st))%string), tr1))
    /\ (forall n fid,
          status st = COMPLETED ->
          failed_requests st = PyInt n -> (0 < n)%Z ->
          error_file_id st = PyStr fid -> fid <> "" ->
          (exists e,
              run = (Raise e,
                     tr1 ++ [EvHttp (download_request P (PyStr fid) rp)]))
          /\ (forall content tr2,
                _download_file P (PyStr fid) rp tr1 = (Ok content, tr2) ->
                run = (Raise (RuntimeError
                                ("Batch has failed requests: "
                                   ++ content)%string), tr2)))
    /\ (status st = COMPLETED ->
        output_file_id st = PyNone ->
        (exists e tr2, run = (Raise e, tr2))
        /\ (forall n,
              failed_requests st = PyInt n ->
              (n <= 0)%Z \/ truthy (error_file_id st) = false ->
              run = (Raise (RuntimeError "No output file available"), tr1)))
    /\ (forall rs tr2,
          run = (Ok rs, tr2) ->
          status st = COMPLETED
          /\ truthy (output_file_id st) = true
          /\ ~ (py_gt_zero (failed_requests st) = Ok true
                /\ truthy (error_file_id st) = true)).
Proof.
  intros P bid convs rp tr tr1 st Hst run.
  assert (Hrun : run = results_for_status P st convs rp tr1).
  { subst run. unfold _get_batch_results_with_mapping.
    now rewrite (io_bind_ok _ _ _ _ _ Hst). }
  rewrite Hrun. clear Hrun run. unfold results_for_status.
  split; [|split; [|split]].
  - intros Hne. destruct (BatchStatus_eqb (status st) COMPLETED) eqn:E.
    + apply BatchStatus_eqb_eq in E. contradiction.
    + reflexivity.
  - intros n fid Hc Hn Hpos Hfid Hne.
    rewrite Hc, Hn, Hfid. cbn [BatchStatus_eqb negb py_gt_zero truthy].
    rewrite bind_lift_ok.
    apply Z.ltb_lt in Hpos. rewrite Hpos.
    apply String.eqb_neq in Hne. rewrite Hne. cbn [negb andb].
    split.
    + pose proof (download_trace P (PyStr fid) rp tr1) as Htr.
      unfold io_bind.
      destruct (_download_file P (PyStr fid) rp tr1) as [[c|e] tr2];
        cbn in Htr; subst tr2; unfold io_raise; eauto.
    + intros content tr2 Hd. now rewrite (io_bind_ok _ _ _ _ _ Hd).
  - intros Hc Hout. rewrite Hc, Hout. cbn [BatchStatus_eqb negb truthy].
    split.
    + unfold io_bind at 1. unfold lift at 1.
      destruct (py_gt_zero (failed_requests st)) as [failed|e]; [|eauto].
      destruct (failed && truthy (error_file_id st)).
      * unfold io_bind.
        destruct (_download_file P (error_file_id st) rp tr1)
          as [[c|e] tr2]; unfold io_raise; eauto.
      * unfold io_raise; eauto.
    + intros n Hn Hgate. rewrite Hn. cbn [py_gt_zero].
      rewrite bind_lift_ok.
      destruct Hgate as [Hle|Hno].
      * apply Z.ltb_ge in Hle. rewrite Hle. reflexivity.
      * rewrite Hno, andb_false_r. reflexivity.
  - intros rs tr2 H.
    destruct (BatchStatus_eqb (status st) COMPLETED) eqn:E; [|discriminate].
    apply BatchStatus_eqb_eq in E. cbn [negb] in H.
    split; [exact E|].
    unfold io_bind at 1 in H. unfold lift at 1 in H.
    destruct (py_gt_zero (failed_requests st)) as [failed|e];
      [|discriminate].
    destruct (failed && truthy (error_file_id st)) eqn:G.
    + unfold io_bind in H.
      destruct (_download_file P (error_file_id st) rp tr1) as [[c|e] tr3];
        discriminate.
    + split.
      * destruct (truthy (output_file_id st)); [reflexivity|discriminate].
      * intros [Hf Ht]. inversion Hf; subst. rewrite Ht in G. discriminate.
Qed.

Lemma results_only_for_ready_successful_batch_witness :
  exists tr2,
    _get_batch_results_with_mapping (Stub.platform [] failed_batch_remote)
      "b1" [two_user_turns] one_retry []
    = (Raise (RuntimeError "Batch has failed requests: request-1 failed"),
       tr2).
Proof.
  eexists.
  refine (proj2 (proj1 (proj2 (results_only_for_ready_successful_batch
            (Stub.platform [] failed_batch_remote) "b1" [two_user_turns]
            one_retry [] _ _ eq_refl)) 1%Z "file-err" eq_refl eq_refl _
            eq_refl _) "request-1 failed" _ eq_refl).
  - reflexivity.
  - discriminate.
Defined.

(** C10. A completed job that reports [failed_requests > 0] but carries
    no error-file id (none, or an empty one) does not make result
    retrieval raise for those failures: retrieval goes on exactly as for
    the same status with no failed request, that is, it downloads the
    output file and decodes it. *)
Theorem failures_without_error_file_are_ignored :
  forall (P : Platform) (batch_id_ : string)
         (conversations : list Conversation) (rp : RemoteParams)
         (tr tr1 : list event) (st : BatchStatusResponse) (n : Z),
    _get_batch_status P batch_id_ rp tr = (Ok st, tr1) ->
    status st = COMPLETED ->
    failed_requests st = PyInt n -> (0 < n)%Z ->
    truthy (error_file_id st) = false ->
    let run := _get_batch_results_with_mapping P batch_id_ conversations rp tr in
    run = results_for_status P (without_failures st) conversations rp tr1
    /\ (forall oid,
          output_file_id st = PyStr oid -> oid <> "" ->
          run = (results_content <~ _download_file P (PyStr oid) rp ;;
                 lift (parse_results P results_content conversations)) tr1)
    /\ (forall oid content tr2 rs,
          output_file_id st = PyStr oid -> oid <> "" ->
          _download_file P (PyStr oid) rp tr1 = (Ok content, tr2) ->
          parse_results P content conversations = Ok rs ->
          run = (Ok rs, tr2)).
Proof.
  intros P bid convs rp tr tr1 st n Hst Hc Hn Hpos Hno run.
  assert (Hrun : run = results_for_status P st convs rp tr1).
  { subst run. unfold _get_batch_results_with_mapping.
    now rewrite (io_bind_ok _ _ _ _ _ Hst). }
  assert (Hdl : forall oid,
             output_file_id st = PyStr oid -> oid <> "" ->
             run = (results_content <~ _download_file P (PyStr oid) rp ;;
                    lift (parse_results P results_content convs)) tr1).
  { intros oid Hout Hne. rewrite Hrun. unfold results_for_status.
    rewrite Hc, Hn, Hno, Hout.
    cbn [BatchStatus_eqb negb py_gt_zero truthy].
    rewrite bind_lift_ok, andb_false_r.
    apply String.eqb_neq in Hne. rewrite Hne. reflexivity. }
  split; [|split].
  - rewrite Hrun. unfold results_for_status, without_failures.
    cbn [status failed_requests error_file_id output_file_id].
    rewrite Hc, Hn, Hno. cbn [BatchStatus_eqb negb py_gt_zero].
    rewrite !bind_lift_ok, andb_false_r. reflexivity.
  - exact Hdl.
  - intros oid content tr2 rs Hout Hne Hd Hparse.
    rewrite (Hdl oid Hout Hne), (io_bind_ok _ _ _ _ _ Hd).
    unfold lift. now rewrite Hparse.
Qed.

Section Remap.

Variable P : Platform.

Lemma process_line_ok (acc : list Conversation) (line : string)
    (conv r : Conversation) :
  line_decodes_to P line conv r ->
  process_line P acc (line, conv) = Ok (acc ++ [r]).
Proof.
  intros (obj & response & body & Hload & Herr & Hresp & Hbody & Hdec).
  unfold process_line. rewrite Hload. cbn [bind py_get py_getitem].
  rewrite Hresp.
  destruct (dict_lookup "error" obj) as [err|] eqn:E; cbn [bind].
  - rewrite (Herr err eq_refl). cbn [bind]. rewrite Hbody. cbn [bind].
    now rewrite Hdec.
  - cbn [truthy bind]. rewrite Hbody. cbn [bind]. now rewrite Hdec.
Qed.

(** The positional zip: the loop yields one result for each position that
    has both a line and a conversation, in order. *)
Lemma parse_zip :
  forall (lines : list string) (convs acc : list Conversation),
    (forall i line conv,
        nth_error lines i = Some line -> nth_error convs i = Some conv ->
        exists r, line_decodes_to P line conv r) ->
    exists rs,
      for_loop (process_line P) (combine lines convs) acc = Ok (acc ++ rs)
      /\ List.length rs = Nat.min (List.length lines) (List.length convs)
      /\ forall i line conv,
          nth_error lines i = Some line -> nth_error convs i = Some conv ->
          exists r, nth_error rs i = Some r /\ line_decodes_to P line conv r.
Proof.
  induction lines as [|l ls IH]; intros convs acc H.
  - exists []. cbn. rewrite app_nil_r. repeat split; auto.
    intros [|i] line conv Hl; discriminate.
  - destruct convs as [|c cs].
    + exists []. cbn. rewrite app_nil_r. repeat split; auto.
      intros [|i] line conv _ Hc; discriminate.
    + destruct (H 0 l c eq_refl eq_refl) as [r Hr].
      destruct (IH cs (acc ++ [r])
                  (fun i line conv Hl Hc => H (S i) line conv Hl Hc))
        as (rs & Hloop & Hlen & Hnth).
      exists (r :: rs). cbn [combine for_loop].
      rewrite (process_line_ok acc l c r Hr). cbn [bind].
      rewrite Hloop, <- app_assoc. repeat split; auto.
      * cbn. now rewrite Hlen.
      * intros [|i] line conv Hl Hc; cbn in Hl, Hc.
        -- inversion Hl; inversion Hc; subst. exists r. auto.
        -- exact (Hnth i line conv Hl Hc).
Qed.

(** Retrieval up to the parsing of the downloaded document. *)
Lemma results_after_download (batch_id_ : string)
    (convs : list Conversation) (rp : RemoteParams)
    (tr tr1 tr2 : list event) (st : BatchStatusResponse) (failed : bool)
    (results_content : string) :
  _get_batch_status P batch_id_ rp tr = (Ok st, tr1) ->
  status st = COMPLETED ->
  py_gt_zero (failed_requests st) = Ok failed ->
  failed && truthy (error_file_id st) = false ->
  truthy (output_file_id st) = true ->
  _download_file P (output_file_id st) rp tr1 = (Ok results_content, tr2) ->
  _get_batch_results_with_mapping P batch_id_ convs rp tr
  = (parse_results P results_content convs, tr2).
Proof.
  intros Hst Hc Hf Hgate Hout Hd.
  unfold _get_batch_results_with_mapping.
  rewrite (io_bind_ok _ _ _ _ _ Hst). unfold results_for_status.
  rewrite Hc. cbn [BatchStatus_eqb negb].
  rewrite Hf, bind_lift_ok, Hgate, Hout. cbn [negb].
  now rewrite (io_bind_ok _ _ _ _ _ Hd).
Qed.

End Remap.

(** C1. For a completed job that passes the failure gate and whose output
    file downloads to a document with as many lines as there are original
    conversations, each line a JSON object without an error whose response
    body decodes against the conversation at the same position, result
    retrieval returns as many conversations as the originals, and the
    result at position [i] is the response body of line [i] decoded
    against original conversation [i]. *)
Theorem batch_results_are_positional :
  forall (P : Platform) (batch_id_ : string)
         (conversations : list Conversation) (rp : RemoteParams)
         (tr tr1 tr2 : list event) (st : BatchStatusResponse)
         (failed : bool) (results_content : string),
    _get_batch_status P batch_id_ rp tr = (Ok st, tr1) ->
    status st = COMPLETED ->
    py_gt_zero (failed_requests st) = Ok failed ->
    failed && truthy (error_file_id st) = false ->
    truthy (output_file_id st) = true ->
    _download_file P (output_file_id st) rp tr1 = (Ok results_content, tr2) ->
    List.length (splitlines P results_content) = List.length conversations ->
    (forall i line conv,
        nth_error (splitlines P results_content) i = Some line ->
        nth_error conversations i = Some conv ->
        exists r, line_decodes_to P line conv r) ->
    exists rs,
      _get_batch_results_with_mapping P batch_id_ conversations rp tr
      = (Ok rs, tr2)
      /\ List.length rs = List.length conversations
      /\ forall i conv,
          nth_error conversations i = Some conv ->
          exists line r,
            nth_error (splitlines P results_content) i = Some line
            /\ nth_error rs i = Some r
            /\ line_decodes_to P line conv r.
Proof.
  intros P bid convs rp tr tr1 tr2 st failed content
         Hst Hc Hf Hgate Hout Hd Hlen Hlines.
  destruct (parse_zip P (splitlines P content) convs [] Hlines)
    as (rs & Hloop & Hlen' & Hnth).
  exists rs. split; [|split].
  - rewrite (results_after_download P bid convs rp tr tr1 tr2 st failed
               content Hst Hc Hf Hgate Hout Hd).
    unfold parse_results. now rewrite Hloop.
  - rewrite Hlen', Hlen. apply Nat.min_id.
  - intros i conv Hconv.
    assert (Hi : i < List.length (splitlines P content)).
    { rewrite Hlen. apply nth_error_Some. congruence. }
    destruct (nth_error_in_range _ i Hi) as [line Hline].
    destruct (Hnth i line conv Hline Hconv) as (r & Hr & Hdec).
    exists line, r. auto.
Qed.

(** C9. When the number of lines of the downloaded document differs from
    the number of original conversations, result retrieval raises no
    error for that: if the lines and conversations that share a position
    decode, it returns exactly as many results as the shorter of the two;
    lines or conversations beyond it are dropped unread. *)
Theorem surplus_lines_or_conversations_are_dropped :
  forall (P : Platform) (batch_id_ : string)
         (conversations : list Conversation) (rp : RemoteParams)
         (tr tr1 tr2 : list event) (st : BatchStatusResponse)
         (failed : bool) (results_content : string),
    _get_batch_status P batch_id_ rp tr = (Ok st, tr1) ->
    status st = COMPLETED ->
    py_gt_zero (failed_requests st) = Ok failed ->
    failed && truthy (error_file_id st) = false ->
    truthy (output_file_id st) = true ->
    _download_file P (output_file_id st) rp tr1 = (Ok results_content, tr2) ->
    (forall i line conv,
        nth_error (splitlines P results_content) i = Some line ->
        nth_error conversations i = Some conv ->
        exists r, line_decodes_to P line conv r) ->
    exists rs,
      _get_batch_results_with_mapping P batch_id_ conversations rp tr
      = (Ok rs, tr2)
      /\ List.length rs
         = Nat.min (List.length (splitlines P results_content))
             (List.length conversations).
Proof.
  intros P bid convs rp tr tr1 tr2 st failed content
         Hst Hc Hf Hgate Hout Hd Hlines.
  destruct (parse_zip P (splitlines P content) convs [] Hlines)
    as (rs & Hloop & Hlen & _).
  exists rs. split; [|exact Hlen].
  rewrite (results_after_download P bid convs rp tr tr1 tr2 st failed
             content Hst Hc Hf Hgate Hout Hd).
  unfold parse_results. now rewrite Hloop.
Qed.

(* ================================================================== *)
(** ** Closed runs of result retrieval *)
(* ================================================================== *)

Ltac decode_line :=
  eexists; unfold line_decodes_to; do 3 eexists;
  repeat split; try reflexivity; intros err Herr; inversion Herr;
  reflexivity.

Lemma batch_results_are_positional_witness :
  exists rs tr2,
    _get_batch_results_with_mapping
      (Stub.platform output_table (completed_remote 0 three_lines))
      "b1" [ask "q0"; ask "q1"; ask "q2"] one_retry []
    = (Ok rs, tr2)
    /\ List.length rs = 3.
Proof.
  edestruct (batch_results_are_positional
               (Stub.platform output_table (completed_remote 0 three_lines))
               "b1" [ask "q0"; ask "q1"; ask "q2"] one_retry [])
    as (rs & Hrun & Hlen & _).
  - reflexivity.
  - reflexivity.
  - reflexivity.
  - reflexivity.
  - reflexivity.
  - reflexivity.
  - reflexivity.
  - intros [|[|[|i]]] line conv Hl Hc; cbn in Hc;
      try discriminate Hc; try (destruct i; discriminate Hc);
      vm_compute in Hl; inversion Hl; inversion Hc; subst; decode_line.
  - exists rs. eexists. split; [exact Hrun|exact Hlen].
Defined.

Lemma surplus_lines_or_conversations_are_dropped_witness :
  exists rs tr2,
    _get_batch_results_with_mapping
      (Stub.platform output_table (completed_remote 0 two_lines_and_noise))
      "b1" [ask "q0"; ask "q1"] one_retry []
    = (Ok rs, tr2)
    /\ List.length rs = 2.
Proof.
  edestruct (surplus_lines_or_conversations_are_dropped
               (Stub.platform output_table
                  (completed_remote 0 two_lines_and_noise))
               "b1" [ask "q0"; ask "q1"] one_retry [])
    as (rs & Hrun & Hlen).
  - reflexivity.
  - reflexivity.
  - reflexivity.
  - reflexivity.
  - reflexivity.
  - reflexivity.
  - intros [|[|[|i]]] line conv Hl Hc; cbn in Hc;
      try discriminate Hc; try (destruct i; discriminate Hc);
      vm_compute in Hl; inversion Hl; inversion Hc; subst; decode_line.
  - exists rs. eexists. split; [exact Hrun|exact Hlen].
Defined.

Lemma failures_without_error_file_are_ignored_witness :
  exists rs tr2,
    _get_batch_results_with_mapping
      (Stub.platform output_table (completed_remote 2 three_lines))
      "b1" [ask "q0"; ask "q1"; ask "q2"] one_retry []
    = (Ok rs, tr2).
Proof.
  do 2 eexists.
  refine (proj2 (proj2 (failures_without_error_file_are_ignored
            (Stub.platform output_table (completed_remote 2 three_lines))
            "b1" [ask "q0"; ask "q1"; ask "q2"] one_retry [] _ _ 2%Z
            eq_refl eq_refl eq_refl _ eq_refl))
          "file-out" three_lines _ _ eq_refl _ eq_refl eq_refl).
  - reflexivity.
  - discriminate.
Defined.

(* ================================================================== *)
(** ** More on the message encoder *)
(* ================================================================== *)

Lemma mapM_app {A B} (f : A -> result B) (xs ys : list A) :
  mapM f (xs ++ ys)
  = (a <- mapM f xs ;; b <- mapM f ys ;; Ok (a ++ b)).
Proof.
  induction xs as [|x xs IH]; cbn [app mapM bind].
  - destruct (mapM f ys); reflexivity.
  - destruct (f x); cbn [bind]; auto. rewrite IH.
    destruct (mapM f xs); cbn [bind]; auto.
    destruct (mapM f ys); reflexivity.
Qed.

Lemma mapM_map {A B C} (g : A -> B) (f : B -> result C) (xs : list A) :
  mapM f (map g xs) = mapM (fun x => f (g x)) xs.
Proof.
  induction xs as [|x xs IH]; cbn; auto. now rewrite IH.
Qed.

Lemma mapM_all_ok {A B} (f : A -> result B) (xs : list A) :
  (forall x, In x xs -> exists y, f x = Ok y) ->
  exists ys, mapM f xs = Ok ys.
Proof.
  induction xs as [|x xs IH]; intros H; cbn.
  - eauto.
  - destruct (H x (or_introl eq_refl)) as [y ->].
    destruct (IH (fun z Hz => H z (or_intror Hz))) as [ys ->].
    cbn. eauto.
Qed.

Lemma mapM_some_raise {A B} (f : A -> result B) (xs : list A) (x : A) :
  In x xs -> (exists e, f x = Raise e) -> exists e, mapM f xs = Raise e.
Proof.
  induction xs as [|y xs IH]; intros Hin Hx; [contradiction|].
  cbn. destruct (f y) as [b|e] eqn:Ey; cbn; [|eauto].
  destruct Hin as [->|Hin].
  - destruct Hx as [e He]. congruence.
  - destruct (IH Hin Hx) as [e ->]. cbn. eauto.
Qed.

Lemma text_unit_ok (P : Platform) (m : Message) :
  is_text m = true ->
  _get_content_for_message P m
  = Ok (PyDict [("type", PyStr "text");
                ("text", PyStr (or_empty (content m)))]).
Proof.
  intros H. unfold _get_content_for_message. unfold is_text in H.
  now rewrite H.
Qed.

Section UngroupedLoop.

Variable P : Platform.
Variable ms : list Message.

(** Without grouping the outer loop gives every message a turn of its
    own. *)
Lemma group_loop_ungrouped :
  forall fuel idx acc,
    idx <= List.length ms -> List.length ms - idx <= fuel ->
    group_loop P fuel ms false idx acc
    = Some (ts <- mapM (fun m => encode_run P [m]) (skipn idx ms) ;;
            Ok (acc ++ ts)).
Proof.
  induction fuel as [|fuel IH]; intros idx acc Hle Hf;
    cbn [group_loop];
    destruct (Nat.ltb_spec idx (List.length ms)) as [Hlt|Hge]; try lia.
  - rewrite skipn_all2 by lia. cbn. now rewrite app_nil_r.
  - destruct (nth_error_in_range ms idx Hlt) as [m Hm].
    unfold list_getitem. rewrite Hm.
    rewrite (skipn_nth_error ms idx _ Hm). cbn [mapM].
    replace (S idx - idx) with 1 by lia. cbn [Nat.eqb andb].
    assert (Hcollect :
      match collect_content P (List.length ms) ms idx (S idx) [] with
      | None => None
      | Some (Raise e) => Some (Raise e)
      | Some (Ok content_list) => Some (Ok (PyList content_list))
      end = Some (content_units P [m])).
    { rewrite collect_content_spec by lia.
      replace (S idx - idx) with 1 by lia.
      rewrite (skipn_nth_error ms idx _ Hm). cbn [firstn].
      unfold content_units. destruct (mapM _ _); reflexivity. }
    rewrite Hcollect, encode_run_cons. unfold run_content.
    destruct (is_text m).
    + cbn [bind]. rewrite IH by lia.
      destruct (mapM _ (skipn (S idx) ms)); cbn [bind]; auto.
      now rewrite <- app_assoc.
    + destruct (content_units P [m]) as [c|e]; cbn [bind]; auto.
      rewrite IH by lia.
      destruct (mapM _ (skipn (S idx) ms)); cbn [bind]; auto.
      now rewrite <- app_assoc.
  - rewrite skipn_all2 by lia. cbn. now rewrite app_nil_r.
Qed.

End UngroupedLoop.

Lemma ungrouped_encoding_returns (P : Platform) (ms : list Message) :
  _get_list_of_message_json_dicts P ms false
  = Some (mapM (fun m => encode_run P [m]) ms).
Proof.
  unfold _get_list_of_message_json_dicts.
  rewrite group_loop_ungrouped by lia. cbn [skipn].
  destruct (mapM _ ms); reflexivity.
Qed.

(** X1. Without grouping, [_get_list_of_message_json_dicts] returns one
    wire turn per message, in order: a text message becomes a turn with
    its content as a bare string, any other message a turn with a
    one-element list holding its content unit; so a successful encoding
    has as many turns as there are messages. *)
Theorem ungrouped_encoding_is_per_message :
  forall (P : Platform) (ms : list Message),
    _get_list_of_message_json_dicts P ms false
    = Some (mapM (fun m => encode_run P [m]) ms)
    /\ forall turns,
        _get_list_of_message_json_dicts P ms false = Some (Ok turns) ->
        List.length turns = List.length ms.
Proof.
  intros P ms.
  assert (H : _get_list_of_message_json_dicts P ms false
              = Some (mapM (fun m => encode_run P [m]) ms)).
  { unfold _get_list_of_message_json_dicts.
    rewrite group_loop_ungrouped by lia. cbn [skipn].
    destruct (mapM _ ms); reflexivity. }
  split; [exact H|]. intros turns Ht. rewrite H in Ht.
  inversion Ht as [Hm]. eapply mapM_length; eauto.
Qed.

Lemma ungrouped_encoding_is_per_message_witness :
  List.length
    [PyDict [("role", PyStr "user"); ("content", PyStr "a")];
     PyDict [("role", PyStr "user"); ("content", PyStr "b")]]
  = List.length (messages two_user_turns).
Proof.
  apply (proj2 (ungrouped_encoding_is_per_message
                  (Stub.platform [] Stub.offline)
                  (messages two_user_turns))).
  reflexivity.
Defined.

Lemma grouped_encoding_returns (P : Platform) (ms : list Message) :
  _get_list_of_message_json_dicts P ms true = Some (grouped_turns P ms).
Proof.
  unfold _get_list_of_message_json_dicts.
  rewrite group_loop_spec by lia. cbn [skipn].
  destruct (grouped_turns P ms); reflexivity.
Qed.

Lemma runs_length (ms : list Message) :
  List.length (runs ms) <= List.length ms
  /\ (ms <> [] -> 1 <= List.length (runs ms)).
Proof.
  induction ms as [|m ms [IH _]].
  - split; [cbn; lia|congruence].
  - cbn [runs]. destruct (runs ms) as [|[|m' g] gs]; cbn in *.
    + split; lia.
    + split; lia.
    + destruct (Role_eqb (role m) (role m')); cbn; split; lia.
Qed.

(** X2. With grouping the encoder always comes back, and a successful
    encoding has exactly one turn per run: never more turns than
    messages, at least one turn for a non-empty message list, and none
    for an empty one. *)
Theorem grouped_encoding_turn_count :
  forall (P : Platform) (ms : list Message),
    exists r,
      _get_list_of_message_json_dicts P ms true = Some r
      /\ (ms = [] -> r = Ok [])
      /\ forall turns,
          r = Ok turns ->
          List.length turns = List.length (runs ms)
          /\ List.length turns <= List.length ms
          /\ (ms <> [] -> 1 <= List.length turns).
Proof.
  intros P ms. exists (grouped_turns P ms).
  split; [apply grouped_encoding_returns|]. split.
  - intros ->. reflexivity.
  - intros turns Ht. unfold grouped_turns in Ht.
    apply mapM_length in Ht. rewrite Ht.
    destruct (runs_length ms) as [Hle Hge]. auto.
Qed.

Lemma grouped_encoding_turn_count_witness :
  exists r,
    _get_list_of_message_json_dicts (Stub.platform [] Stub.offline) [] true
    = Some r /\ r = Ok [].
Proof.
  destruct (grouped_encoding_turn_count (Stub.platform [] Stub.offline) [])
    as (r & Hr & Hnil & _).
  exists r. split; [exact Hr|]. apply Hnil. reflexivity.
Defined.

Lemma runs_of_alternating (ms : list Message) :
  roles_alternate ms -> runs ms = map (fun m => [m]) ms.
Proof.
  induction ms as [|m1 ms IH]; intros H; [reflexivity|].
  cbn [runs map]. destruct ms as [|m2 ms'].
  - reflexivity.
  - destruct H as [Hne Hrest]. rewrite (IH Hrest). cbn [map].
    destruct (Role_eqb (role m1) (role m2)) eqn:E; [|reflexivity].
    apply Role_eqb_eq in E. contradiction.
Qed.

(** X3. When no two adjacent messages share a role, grouping changes
    nothing: the grouped and the ungrouped encodings of the message list
    are the same. *)
Theorem grouping_is_noop_on_alternating_roles :
  forall (P : Platform) (ms : list Message),
    roles_alternate ms ->
    _get_list_of_message_json_dicts P ms true
    = _get_list_of_message_json_dicts P ms false.
Proof.
  intros P ms H.
  rewrite grouped_encoding_returns.
  rewrite ungrouped_encoding_returns.
  unfold grouped_turns. rewrite (runs_of_alternating ms H).
  now rewrite mapM_map.
Qed.

Lemma grouping_is_noop_on_alternating_roles_witness :
  _get_list_of_message_json_dicts (Stub.platform [] Stub.offline)
    [Stub.text_message USER "a"; Stub.text_message ASSISTANT "b";
     Stub.text_message USER "c"] true
  = _get_list_of_message_json_dicts (Stub.platform [] Stub.offline)
      [Stub.text_message USER "a"; Stub.text_message ASSISTANT "b";
       Stub.text_message USER "c"] false.
Proof.
  apply grouping_is_noop_on_alternating_roles.
  cbn. repeat split; discriminate.
Defined.

Lemma encode_run_all_ok (P : Platform) (run : list Message) :
  run <> [] ->
  (forall m, In m run -> exists c, _get_content_for_message P m = Ok c) ->
  exists t, encode_run P run = Ok t.
Proof.
  intros Hne Hall. destruct run as [|m others]; [congruence|].
  rewrite encode_run_cons.
  assert (Hunits : exists c, content_units P (m :: others) = Ok c).
  { unfold content_units.
    destruct (mapM_all_ok (_get_content_for_message P) (m :: others) Hall)
      as [cl ->].
    cbn. eauto. }
  unfold run_content. destruct others as [|x others].
  - destruct (is_text m); [cbn; eauto|].
    destruct Hunits as [c ->]. cbn. eauto.
  - destruct Hunits as [c ->]. cbn. eauto.
Qed.

(** X4. A conversation of plain-text messages always encodes: the
    grouping encoder returns turns in both modes, and the request encoder
    returns a request whenever no structured output is asked for. *)
Theorem text_only_conversations_always_encode :
  forall (P : Platform) (self : RemoteInferenceEngine) (conv : Conversation)
         (g : GenerationParams) (grouping : bool),
    text_only (messages conv) ->
    (exists turns,
        _get_list_of_message_json_dicts P (messages conv) grouping
        = Some (Ok turns))
    /\ (guided_decoding g = None ->
        exists api_input,
          _convert_conversation_to_api_input P self conv g = Ok api_input
          /\ exists turns,
              dict_lookup "messages" api_input = Some (PyList turns)
              /\ List.length turns = List.length (messages conv)).
Proof.
  intros P self conv g grouping Htext.
  assert (Hunit : forall m, In m (messages conv) ->
                            exists c, _get_content_for_message P m = Ok c).
  { intros m Hm. unfold text_only in Htext.
    rewrite Forall_forall in Htext.
    rewrite (text_unit_ok P m (Htext m Hm)). eauto. }
  split.
  - destruct grouping.
    + rewrite grouped_encoding_returns. unfold grouped_turns.
      destruct (mapM_all_ok (encode_run P) (runs (messages conv)))
        as [turns ->]; eauto.
      intros run Hrun.
      destruct (runs_are_maximal (messages conv)) as (Hc & Hu & _).
      rewrite Forall_forall in Hu. destruct (Hu run Hrun) as [Hne _].
      apply encode_run_all_ok; auto.
      intros m Hm. apply Hunit. rewrite <- Hc. apply in_concat. eauto.
    + rewrite ungrouped_encoding_returns.
      destruct (mapM_all_ok (fun m => encode_run P [m]) (messages conv))
        as [turns ->]; eauto.
      intros m Hm. apply encode_run_all_ok; [discriminate|].
      intros m' [<-|[]]. auto.
  - intros Hg.
    destruct (mapM_all_ok (single_turn P) (messages conv)) as [turns Hturns].
    { intros m Hm. unfold single_turn. destruct (Hunit m Hm) as [c ->].
      cbn. eauto. }
    rewrite (convert_unfold P self conv g turns Hturns), Hg.
    eexists. split; [reflexivity|]. exists turns.
    split; [apply plain_input_messages|].
    eapply mapM_length; eauto.
Qed.

Lemma text_only_conversations_always_encode_witness :
  exists api_input,
    _convert_conversation_to_api_input (Stub.platform [] Stub.offline)
      Stub.engine two_user_turns Stub.generation_defaults = Ok api_input.
Proof.
  destruct (proj2 (text_only_conversations_always_encode
                     (Stub.platform [] Stub.offline) Stub.engine
                     two_user_turns Stub.generation_defaults true
                     ltac:(repeat constructor)) eq_refl)
    as (api_input & H & _).
  exists api_input. exact H.
Defined.

(** X5. One message of an unsupported content type makes the whole
    request encoding raise, whatever the generation parameters: no request
    body is produced for the conversation, and batch preparation built on
    it raises as well. *)
Theorem unsupported_message_fails_the_request :
  forall (P : Platform) (self : RemoteInferenceEngine) (conv : Conversation)
         (cfg : InferenceConfig) (m : Message)
         (before after : list Conversation),
    In m (messages conv) ->
    is_text m = false -> is_image m = false ->
    (exists e,
        _convert_conversation_to_api_input P self conv (generation cfg)
        = Raise e)
    /\ (exists e,
           prepare_batch_requests P self (before ++ conv :: after) cfg
           = Raise e).
Proof.
  intros P self conv cfg m before after Hin Ht Hi.
  assert (Hconv : exists e,
             _convert_conversation_to_api_input P self conv (generation cfg)
             = Raise e).
  { destruct (mapM_some_raise (single_turn P) (messages conv) m Hin)
      as [e He].
    - unfold single_turn.
      destruct (unsupported_type_raises P m Ht Hi) as [msg ->].
      cbn. eauto.
    - exists e. now apply convert_raises_with_turns. }
  split; [exact Hconv|].
  unfold prepare_batch_requests, enumerate.
  match goal with
  | |- context [for_loop ?b _ _] => set (body := b)
  end.
  assert (Hloop : forall cs k acc,
             exists e,
               for_loop body
                 (combine (seq k (List.length (cs ++ conv :: after)))
                    (cs ++ conv :: after)) acc = Raise e).
  { induction cs as [|c cs IH]; intros k acc;
      cbn [app List.length seq combine for_loop]; unfold body at 1.
    - destruct Hconv as [e ->]. cbn. eauto.
    - destruct (_convert_conversation_to_api_input P self c
                  (generation cfg)); cbn [bind]; [apply IH|eauto]. }
  apply Hloop.
Qed.

Lemma unsupported_message_fails_the_request_witness :
  exists e,
    _convert_conversation_to_api_input (Stub.platform [] Stub.offline)
      Stub.engine
      (mkConversation [mkMessage (Some "x") None USER (OTHER "audio")]
         [] None)
      Stub.generation_defaults = Raise e.
Proof.
  exact (proj1 (unsupported_message_fails_the_request
                  (Stub.platform [] Stub.offline) Stub.engine
                  (mkConversation
                     [mkMessage (Some "x") None USER (OTHER "audio")]
                     [] None)
                  stub_config
                  (mkMessage (Some "x") None USER (OTHER "audio")) [] []
                  (or_introl eq_refl) eq_refl eq_refl)).
Defined.

(** X6. In an encoded request without structured output the completion
    count is fixed to 1, the model is the engine's, there is no
    [response_format] entry, and the [stop] entry is present exactly when
    the stop strings are a non-empty list (an empty list, like none, leaves
    it out). *)
Theorem request_fields_without_structured_output :
  forall (P : Platform) (self : RemoteInferenceEngine) (conv : Conversation)
         (g : GenerationParams) (turns : list pyval),
    mapM (single_turn P) (messages conv) = Ok turns ->
    guided_decoding g = None ->
    exists api_input,
      _convert_conversation_to_api_input P self conv g = Ok api_input
      /\ dict_lookup "n" api_input = Some (PyInt 1)
      /\ dict_lookup "model" api_input = Some (PyStr (_model self))
      /\ dict_lookup "response_format" api_input = None
      /\ dict_lookup "stop" api_input
         = match stop_strings g with
           | Some (s :: ss) => Some (PyList (map PyStr (s :: ss)))
           | Some [] | None => None
           end.
Proof.
  intros P self conv g turns Hturns Hg.
  rewrite (convert_unfold P self conv g turns Hturns), Hg.
  eexists. split; [reflexivity|]. unfold plain_input.
  destruct (stop_strings g) as [[|s ss]|]; repeat split; reflexivity.
Qed.

Lemma request_fields_without_structured_output_witness :
  exists api_input,
    _convert_conversation_to_api_input (Stub.platform [] Stub.offline)
      Stub.engine (ask "q")
      (mkGeneration 16 1 1 0 0 None [] (Some []) None) = Ok api_input
    /\ dict_lookup "stop" api_input = None.
Proof.
  destruct (request_fields_without_structured_output
              (Stub.platform [] Stub.offline) Stub.engine (ask "q")
              (mkGeneration 16 1 1 0 0 None [] (Some []) None)
              [reply_turn USER "q"] eq_refl eq_refl)
    as (api_input & H & _ & _ & _ & Hstop).
  exists api_input. split; [exact H|exact Hstop].
Defined.

Lemma decode_inv (response : pyval) (conv conv' : Conversation) :
  _convert_api_output_to_conversation response conv = Ok conv' ->
  exists r c, conv' = with_reply conv r c.
Proof.
  unfold _convert_api_output_to_conversation. intros H.
  repeat match type of H with
         | bind ?x _ = Ok _ =>
             destruct x eqn:?; cbn [bind] in H; [|discriminate]
         end.
  match goal with
  | Hm : Message_text ?c ?r = Ok _ |- _ =>
      unfold Message_text in Hm; destruct c; try discriminate;
      inversion Hm; subst
  end.
  inversion H; subst. do 2 eexists. reflexivity.
Qed.

(** X7. Decoding and encoding compose: when a conversation encodes to
    [turns] and a response decodes against it, the decoded conversation is
    the original with one text reply, and it encodes to [turns] followed
    by the reply's turn; the earlier turns are unchanged. *)
Theorem decoded_conversation_encodes_with_reply_last :
  forall (P : Platform) (self : RemoteInferenceEngine)
         (conv conv' : Conversation) (g : GenerationParams)
         (turns : list pyval) (response : pyval),
    mapM (single_turn P) (messages conv) = Ok turns ->
    _convert_api_output_to_conversation response conv = Ok conv' ->
    exists r c,
      conv' = with_reply conv r c
      /\ mapM (single_turn P) (messages conv')
         = Ok (turns ++ [reply_turn r c])
      /\ _convert_conversation_to_api_input P self conv' g
         = match guided_decoding g with
           | Some gd =>
               resolve_guided_decoding P gd
                 (plain_input self (turns ++ [reply_turn r c]) g)
           | None => Ok (plain_input self (turns ++ [reply_turn r c]) g)
           end.
Proof.
  intros P self conv conv' g turns response Hturns Hdec.
  destruct (decode_inv response conv conv' Hdec) as (r & c & ->).
  exists r, c.
  assert (H : mapM (single_turn P) (messages (with_reply conv r c))
              = Ok (turns ++ [reply_turn r c])).
  { cbn [with_reply messages]. rewrite mapM_app, Hturns. reflexivity. }
  repeat split; [exact H|].
  now apply convert_unfold.
Qed.

Lemma decoded_conversation_encodes_with_reply_last_witness :
  exists r c,
    mapM (single_turn (Stub.platform [] Stub.offline))
      (messages (with_reply (ask "q") ASSISTANT "zero"))
    = Ok ([reply_turn USER "q"] ++ [reply_turn r c]).
Proof.
  destruct (decoded_conversation_encodes_with_reply_last
              (Stub.platform [] Stub.offline) Stub.engine (ask "q")
              (with_reply (ask "q") ASSISTANT "zero")
              Stub.generation_defaults [reply_turn USER "q"]
              (PyDict [("choices",
                         PyList [PyDict [("message",
                                           PyDict [("role", PyStr "assistant");
                                                   ("content", PyStr "zero")])]])])
              eq_refl eq_refl)
    as (r & c & _ & H & _).
  exists r, c. exact H.
Defined.

(* ================================================================== *)
(** ** More on online dispatch *)
(* ================================================================== *)

(** X8. The authorization header: with remote parameters there is exactly
    one header, [Authorization: Bearer <key>]; a non-empty literal key is
    used without looking at the environment; otherwise the named
    environment variable is read; with neither the header reads
    [Bearer None]. Without remote parameters no header is sent. *)
Theorem authorization_header_resolution :
  forall (P : Platform) (rp : RemoteParams),
    (forall key,
        api_key rp = Some key -> key <> "" ->
        _get_request_headers P (Some rp)
        = [("Authorization", ("Bearer " ++ key)%string)])
    /\ (forall name,
           opt_truthy (api_key rp) = false ->
           api_key_env_varname rp = Some name -> name <> "" ->
           _get_request_headers P (Some rp)
           = [("Authorization",
                ("Bearer " ++ fmt_opt_str (environ_get P name))%string)])
    /\ (opt_truthy (api_key rp) = false ->
        opt_truthy (api_key_env_varname rp) = false ->
        _get_request_headers P (Some rp)
        = [("Authorization", "Bearer None")])
    /\ _get_request_headers P None = [].
Proof.
  intros P rp. unfold _get_request_headers, _get_api_key. repeat split.
  - intros key Hk Hne. rewrite Hk. cbn [opt_truthy].
    apply String.eqb_neq in Hne. rewrite Hne. reflexivity.
  - intros name Hk Hn Hne. rewrite Hk, Hn.
    apply String.eqb_neq in Hne. rewrite Hne. reflexivity.
  - intros Hk Hn. rewrite Hk.
    destruct (api_key_env_varname rp) as [name|]; [|reflexivity].
    cbn [opt_truthy] in Hn. rewrite Hn. reflexivity.
Qed.

Lemma authorization_header_resolution_witness :
  _get_request_headers (Stub.platform [] Stub.offline) (Some one_retry)
  = [("Authorization", "Bearer k")].
Proof.
  apply (proj1 (authorization_header_resolution
                  (Stub.platform [] Stub.offline) one_retry) "k" eq_refl).
  discriminate.
Defined.

Section Attempts.

Variable P : Platform.
Variable conv : Conversation.
Variable cfg : InferenceConfig.
Variable rp : RemoteParams.
Variable url : string.
Variable api : dict.
Variable headers : list (string * string).

Let req : http_request :=
  POST_json url (PyDict api) headers (Some (connection_timeout rp)).

Lemma attempt_fails n tr resp body :
  transport P tr req = Ok resp ->
  resp_status resp <> 200%Z ->
  resp_json resp = Ok body ->
  query_loop P (S n) conv cfg rp url api headers tr
  = query_loop P n conv cfg rp url api headers
      (tr ++ failed_attempt req (politeness_policy rp) body).
Proof.
  intros Hresp Hstatus Hjson. cbn [query_loop].
  unfold io_bind at 1. unfold http at 1. fold req. rewrite Hresp.
  unfold io_bind at 1. unfold lift at 1. rewrite Hjson.
  apply Z.eqb_neq in Hstatus. rewrite Hstatus.
  unfold io_bind at 1. unfold print, emit at 1.
  unfold io_bind at 1. unfold sleep, emit at 1.
  unfold failed_attempt. now rewrite <- !app_assoc.
Qed.

Lemma attempt_succeeds n tr resp body r :
  transport P tr req = Ok resp ->
  resp_status resp = 200%Z ->
  resp_json resp = Ok body ->
  _convert_api_output_to_conversation body conv = Ok r ->
  query_loop P (S n) conv cfg rp url api headers tr
  = (Ok r,
     tr ++ [EvHttp req]
        ++ (if opt_truthy (output_path cfg)
            then [EvSaveScratch r (or_empty (output_path cfg))]
            else [])
        ++ [EvSleep (politeness_policy rp)]).
Proof.
  intros Hresp Hstatus Hjson Hdec. cbn [query_loop].
  unfold io_bind at 1. unfold http at 1. fold req. rewrite Hresp.
  unfold io_bind at 1. unfold lift at 1. rewrite Hjson, Hstatus.
  cbn [Z.eqb Pos.eqb].
  unfold io_bind at 1. unfold lift at 1. rewrite Hdec.
  destruct (opt_truthy (output_path cfg));
    cbv beta iota delta [io_bind sleep emit io_ret]; cbn [app];
    now rewrite <- ?app_assoc.
Qed.

Lemma attempt_raises n tr e :
  transport P tr req = Raise e
  \/ (exists resp, transport P tr req = Ok resp /\ resp_json resp = Raise e)
  \/ (exists resp body,
         transport P tr req = Ok resp /\ resp_status resp = 200%Z
         /\ resp_json resp = Ok body
         /\ _convert_api_output_to_conversation body conv = Raise e) ->
  query_loop P (S n) conv cfg rp url api headers tr
  = (Raise e, tr ++ [EvHttp req]).
Proof.
  intros H. cbn [query_loop].
  unfold io_bind at 1. unfold http at 1. fold req.
  destruct H as [H|[(resp & H & Hj)|(resp & body & H & Hs & Hj & Hd)]];
    rewrite H; [reflexivity| |].
  - unfold io_bind at 1. unfold lift at 1. now rewrite Hj.
  - unfold io_bind at 1. unfold lift at 1. rewrite Hj, Hs.
    cbn [Z.eqb Pos.eqb]. unfold io_bind at 1. unfold lift at 1.
    now rewrite Hd.
Qed.

Lemma query_loop_retried (r : Conversation) (body : pyval) :
  forall (bodies : list pyval) (n : nat) (tr : list event),
    List.length bodies < n ->
    (forall i b,
        nth_error bodies i = Some b ->
        exists resp,
          transport P
            (tr ++ flat_map (failed_attempt req (politeness_policy rp))
                     (firstn i bodies)) req = Ok resp
          /\ resp_status resp <> 200%Z
          /\ resp_json resp = Ok b) ->
    (exists resp,
        transport P
          (tr ++ flat_map (failed_attempt req (politeness_policy rp)) bodies)
          req = Ok resp
        /\ resp_status resp = 200%Z
        /\ resp_json resp = Ok body) ->
    _convert_api_output_to_conversation body conv = Ok r ->
    query_loop P n conv cfg rp url api headers tr
    = (Ok r,
       tr ++ flat_map (failed_attempt req (politeness_policy rp)) bodies
          ++ successful_attempt req cfg (politeness_policy rp) r).
Proof.
  induction bodies as [|b bs IH]; intros n tr Hn Hfail Hok Hdec;
    destruct n as [|n]; try (cbn in Hn; lia).
  - destruct Hok as (resp & Hresp & Hs & Hj).
    cbn [flat_map] in Hresp. rewrite app_nil_r in Hresp.
    rewrite (attempt_succeeds n tr resp body r Hresp Hs Hj Hdec).
    reflexivity.
  - destruct (Hfail 0 b eq_refl) as (resp & Hresp & Hs & Hj).
    cbn [firstn flat_map] in Hresp. rewrite app_nil_r in Hresp.
    rewrite (attempt_fails n tr resp b Hresp Hs Hj).
    rewrite (IH n (tr ++ failed_attempt req (politeness_policy rp) b)).
    + cbn [flat_map]. now rewrite <- !app_assoc.
    + cbn in Hn. lia.
    + intros i b' Hi. destruct (Hfail (S i) b' Hi) as (resp' & H' & Hs' & Hj').
      exists resp'. cbn [firstn flat_map] in H'.
      rewrite app_assoc in H'. auto.
    + destruct Hok as (resp' & H' & Hs' & Hj'). exists resp'.
      cbn [flat_map] in H'. rewrite app_assoc in H'. auto.
    + exact Hdec.
Qed.

End Attempts.

Lemma query_api_runs_loop (P : Platform) (self : RemoteInferenceEngine)
    (conv : Conversation) (cfg : InferenceConfig) (rp : RemoteParams)
    (url : string) (api : dict) (tr : list event) :
  api_url rp = Some url -> url <> "" ->
  _convert_conversation_to_api_input P self conv (generation cfg) = Ok api ->
  _query_api P self conv cfg rp tr
  = query_loop P (Z.to_nat (max_retries rp + 1)) conv cfg rp url api
      (_get_request_headers P (remote_params cfg)) tr.
Proof.
  intros Hurl Hne Hapi. unfold _query_api. rewrite Hurl.
  cbn [opt_truthy or_empty].
  apply String.eqb_neq in Hne. rewrite Hne. cbn [negb].
  now rewrite Hapi, bind_lift_ok.
Qed.

(** X9. A conversation whose first [k] attempts are answered with a
    non-success status and whose next attempt is answered with 200 is
    retried [k] times, as long as [k <= max_retries]: the unit makes
    exactly [k + 1] requests, prints and sleeps after each failure, and
    returns the decoding of the last answer (saving it to scratch when an
    output path is set, then sleeping once more). *)
Theorem retried_request_returns_last_answer :
  forall (P : Platform) (self : RemoteInferenceEngine) (conv r : Conversation)
         (cfg : InferenceConfig) (rp : RemoteParams) (url : string)
         (api : dict) (tr : list event) (bodies : list pyval)
         (body : pyval),
    api_url rp = Some url -> url <> "" ->
    _convert_conversation_to_api_input P self conv (generation cfg) = Ok api ->
    (Z.of_nat (List.length bodies) <= max_retries rp)%Z ->
    let req := online_request P cfg rp url api in
    let failures :=
      flat_map (failed_attempt req (politeness_policy rp)) in
    (forall i b,
        nth_error bodies i = Some b ->
        exists resp,
          transport P (tr ++ failures (firstn i bodies)) req = Ok resp
          /\ resp_status resp <> 200%Z
          /\ resp_json resp = Ok b) ->
    (exists resp,
        transport P (tr ++ failures bodies) req = Ok resp
        /\ resp_status resp = 200%Z
        /\ resp_json resp = Ok body) ->
    _convert_api_output_to_conversation body conv = Ok r ->
    _query_api P self conv cfg rp tr
    = (Ok r,
       tr ++ failures bodies
          ++ successful_attempt req cfg (politeness_policy rp) r)
    /\ http_count (failures bodies
                     ++ successful_attempt req cfg (politeness_policy rp) r)
       = S (List.length bodies).
Proof.
  intros P self conv r cfg rp url api tr bodies body Hurl Hne Hapi Hk
         req failures Hfail Hok Hdec.
  split.
  - rewrite (query_api_runs_loop P self conv cfg rp url api tr Hurl Hne Hapi).
    apply (query_loop_retried P conv cfg rp url api
             (_get_request_headers P (remote_params cfg)) r body bodies);
      auto.
    lia.
  - unfold http_count. rewrite filter_app, length_app.
    assert (Hf : forall bs,
               List.length (filter is_http (failures bs)) = List.length bs).
    { induction bs as [|b bs IHb]; [reflexivity|].
      subst failures. cbn. now rewrite IHb. }
    rewrite Hf. unfold successful_attempt.
    destruct (opt_truthy (output_path cfg)); cbn; lia.
Qed.

Lemma retried_request_returns_last_answer_witness :
  exists tr,
    _query_api (Stub.platform [] fails_once) Stub.engine (ask "q")
      (mkInference Stub.generation_defaults (Some one_retry) None)
      one_retry []
    = (Ok (with_reply (ask "q") ASSISTANT "zero"), tr)
    /\ http_count tr = 2.
Proof.
  edestruct (retried_request_returns_last_answer
               (Stub.platform [] fails_once) Stub.engine (ask "q")
               (with_reply (ask "q") ASSISTANT "zero")
               (mkInference Stub.generation_defaults (Some one_retry) None)
               one_retry "http://host/v1"
               (plain_input Stub.engine [reply_turn USER "q"]
                  Stub.generation_defaults)
               [] [PyStr "busy"]) as [Hrun Hcount].
  - reflexivity.
  - discriminate.
  - reflexivity.
  - cbn. lia.
  - intros [|[|i]] b Hb; cbn in Hb; inversion Hb; subst.
    eexists. repeat split. discriminate.
  - eexists. repeat split.
  - reflexivity.
  - eexists. split; [exact Hrun|]. cbn [app]. exact Hcount.
Defined.

(** X10. Only a decoded answer with a non-success status is retried.  When
    the exchange of an attempt raises, or the body of the answer does not
    decode as JSON (whatever the status, 500 included), or a 200 answer
    does not decode into a conversation, the exception leaves the unit at
    once: one request has been made, nothing is printed, there is no
    sleep and no further attempt. *)
Theorem exception_in_first_attempt_is_not_retried :
  forall (P : Platform) (self : RemoteInferenceEngine) (conv : Conversation)
         (cfg : InferenceConfig) (rp : RemoteParams) (url : string)
         (api : dict) (tr : list event) (e : exn),
    api_url rp = Some url -> url <> "" ->
    _convert_conversation_to_api_input P self conv (generation cfg) = Ok api ->
    (0 <= max_retries rp)%Z ->
    let req := online_request P cfg rp url api in
    transport P tr req = Raise e
    \/ (exists resp,
           transport P tr req = Ok resp /\ resp_json resp = Raise e)
    \/ (exists resp body,
           transport P tr req = Ok resp /\ resp_status resp = 200%Z
           /\ resp_json resp = Ok body
           /\ _convert_api_output_to_conversation body conv = Raise e) ->
    _query_api P self conv cfg rp tr = (Raise e, tr ++ [EvHttp req]).
Proof.
  intros P self conv cfg rp url api tr e Hurl Hne Hapi Hretries req H.
  rewrite (query_api_runs_loop P self conv cfg rp url api tr Hurl Hne Hapi).
  replace (Z.to_nat (max_retries rp + 1))
    with (S (Z.to_nat (max_retries rp))) by lia.
  now apply attempt_raises.
Qed.

Lemma exception_in_first_attempt_is_not_retried_witness :
  exists tr,
    _query_api (Stub.platform [] html_502) Stub.engine (ask "q")
      (mkInference Stub.generation_defaults (Some one_retry) None)
      one_retry []
    = (Raise JSONDecodeError, tr)
    /\ http_count tr = 1.
Proof.
  eexists. split.
  - apply (exception_in_first_attempt_is_not_retried
             (Stub.platform [] html_502) Stub.engine (ask "q")
             (mkInference Stub.generation_defaults (Some one_retry) None)
             one_retry "http://host/v1"
             (plain_input Stub.engine [reply_turn USER "q"]
                Stub.generation_defaults)
             [] JSONDecodeError).
    + reflexivity.
    + discriminate.
    + reflexivity.
    + cbn. lia.
    + right. left. eexists. split; reflexivity.
  - reflexivity.
Defined.

(** X11. A unit that cannot start makes no request: without a base URL
    (none, or an empty one) it raises an assertion error; when the
    conversation does not encode it raises the encoder's error; and with a
    retry count below zero it raises the retries-exhausted error without a
    single attempt.  In all three cases the trace is left as it was. *)
Theorem unit_that_cannot_start_makes_no_request :
  forall (P : Platform) (self : RemoteInferenceEngine) (conv : Conversation)
         (cfg : InferenceConfig) (rp : RemoteParams) (tr : list event),
    (opt_truthy (api_url rp) = false ->
       _query_api P self conv cfg rp tr = (Raise (AssertionError ""), tr))
    /\ (forall e,
           opt_truthy (api_url rp) = true ->
           _convert_conversation_to_api_input P self conv (generation cfg)
           = Raise e ->
           _query_api P self conv cfg rp tr = (Raise e, tr))
    /\ (forall api,
           opt_truthy (api_url rp) = true ->
           _convert_conversation_to_api_input P self conv (generation cfg)
           = Ok api ->
           (max_retries rp < 0)%Z ->
           _query_api P self conv cfg rp tr
           = (Raise (RuntimeError
                       ("Failed to query API after "
                          ++ str_of_Z (max_retries rp) ++ " retries.")%string),
              tr)).
Proof.
  intros P self conv cfg rp tr. unfold _query_api. repeat split.
  - intros ->. reflexivity.
  - intros e -> He. cbn [negb]. unfold io_bind, lift. now rewrite He.
  - intros api -> Hapi Hneg. cbn [negb]. rewrite Hapi, bind_lift_ok.
    replace (Z.to_nat (max_retries rp + 1)) with 0 by lia. reflexivity.
Qed.

Lemma unit_that_cannot_start_makes_no_request_witness :
  _query_api (Stub.platform [] always_500) Stub.engine (ask "q")
    (mkInference Stub.generation_defaults None None)
    (mkRemote None None None 2 20 1 0 "24h") []
  = (Raise (AssertionError ""), []).
Proof.
  apply (proj1 (unit_that_cannot_start_makes_no_request
                  (Stub.platform [] always_500) Stub.engine (ask "q")
                  (mkInference Stub.generation_defaults None None)
                  (mkRemote None None None 2 20 1 0 "24h") [])).
  reflexivity.
Defined.

(* ================================================================== *)
(** ** More on batch jobs and the file store *)
(* ================================================================== *)

Lemma http_then {A} (P : Platform) (req : http_request)
    (k : http_response -> io A) (tr : list event) :
  io_bind (http P req) k tr
  = match transport P tr req with
    | Ok resp => k resp (tr ++ [EvHttp req])
    | Raise e => (Raise e, tr ++ [EvHttp req])
    end.
Proof. unfold io_bind, http. destruct (transport P tr req); reflexivity. Qed.

Lemma not_200 (z : Z) : z <> 200%Z -> negb (z =? 200)%Z = true.
Proof. intros H. apply Z.eqb_neq in H. now rewrite H. Qed.

Lemma is_200 (z : Z) : z = 200%Z -> negb (z =? 200)%Z = false.
Proof. intros ->. reflexivity. Qed.

(** X12. No batch or file-store operation retries: when its request is
    answered with a status other than 200, each of status fetch,
    download, listing of batches, listing of files, file lookup and file
    deletion raises at once an error that carries the text of the answer,
    after exactly that one request. *)
Theorem non_success_is_fatal_for_batch_and_file_calls :
  forall (P : Platform) (rp : RemoteParams) (tr : list event)
         (resp : http_response),
    resp_status resp <> 200%Z ->
    (forall batch_id_,
        transport P tr (status_request P batch_id_ rp) = Ok resp ->
        _get_batch_status P batch_id_ rp tr
        = (Raise (RuntimeError
                    ("Failed to get batch status: " ++ resp_text resp)%string),
           tr ++ [EvHttp (status_request P batch_id_ rp)]))
    /\ (forall file_id,
           transport P tr (download_request P file_id rp) = Ok resp ->
           _download_file P file_id rp tr
           = (Raise (RuntimeError
                       ("Failed to download file: " ++ resp_text resp)%string),
              tr ++ [EvHttp (download_request P file_id rp)]))
    /\ (forall after limit,
           transport P tr (list_batches_request P rp after limit) = Ok resp ->
           _list_batches P rp after limit tr
           = (Raise (RuntimeError
                       ("Failed to list batches: " ++ resp_text resp)%string),
              tr ++ [EvHttp (list_batches_request P rp after limit)]))
    /\ (forall purpose limit order after,
           transport P tr (list_files_request P rp purpose limit order after)
           = Ok resp ->
           _list_files P rp purpose limit order after tr
           = (Raise (RuntimeError
                       ("Failed to list files: " ++ resp_text resp)%string),
              tr ++ [EvHttp (list_files_request P rp purpose limit order
                               after)]))
    /\ (forall file_id,
           transport P tr (get_file_request P file_id rp) = Ok resp ->
           _get_file P file_id rp tr
           = (Raise (RuntimeError
                       ("Failed to get file: " ++ resp_text resp)%string),
              tr ++ [EvHttp (get_file_request P file_id rp)]))
    /\ (forall file_id,
           transport P tr (delete_file_request P file_id rp) = Ok resp ->
           _delete_file P file_id rp tr
           = (Raise (RuntimeError
                       ("Failed to delete file: " ++ resp_text resp)%string),
              tr ++ [EvHttp (delete_file_request P file_id rp)])).
Proof.
  intros P rp tr resp Hne. apply not_200 in Hne.
  repeat split; intros.
  - unfold _get_batch_status. rewrite http_then.
    fold (status_request P batch_id_ rp). now rewrite H, Hne.
  - unfold _download_file. rewrite http_then.
    fold (download_request P file_id rp). now rewrite H, Hne.
  - unfold _list_batches. rewrite http_then.
    fold (list_batches_request P rp after limit). now rewrite H, Hne.
  - unfold _list_files. rewrite http_then.
    fold (list_files_request P rp purpose limit order after).
    now rewrite H, Hne.
  - unfold _get_file. rewrite http_then.
    fold (get_file_request P file_id rp). now rewrite H, Hne.
  - unfold _delete_file. rewrite http_then.
    fold (delete_file_request P file_id rp). now rewrite H, Hne.
Qed.

Lemma non_success_is_fatal_for_batch_and_file_calls_witness :
  _download_file (Stub.platform [] gone) (PyStr "file-1") one_retry []
  = (Raise (RuntimeError "Failed to download file: no such file"),
     [EvHttp (download_request (Stub.platform [] gone) (PyStr "file-1")
                one_retry)]).
Proof.
  apply (proj1 (proj2 (non_success_is_fatal_for_batch_and_file_calls
                         (Stub.platform [] gone) one_retry []
                         (mkResponse 404 "no such file"
                            (Raise JSONDecodeError))
                         ltac:(discriminate)))).
  reflexivity.
Defined.

(** A download returns the text of a 200 answer as it is, without
    parsing it (the answer need not be JSON), after exactly one request
    to [<base>/files/<id>/content]; an exception of the exchange is passed
    on. *)
Theorem download_returns_text_verbatim :
  forall (P : Platform) (file_id : pyval) (rp : RemoteParams)
         (tr : list event),
    (forall resp,
        transport P tr (download_request P file_id rp) = Ok resp ->
        resp_status resp = 200%Z ->
        _download_file P file_id rp tr
        = (Ok (resp_text resp),
           tr ++ [EvHttp (download_request P file_id rp)]))
    /\ (forall e,
           transport P tr (download_request P file_id rp) = Raise e ->
           _download_file P file_id rp tr
           = (Raise e, tr ++ [EvHttp (download_request P file_id rp)])).
Proof.
  intros P file_id rp tr. split.
  - intros resp H Hs. unfold _download_file. rewrite http_then.
    fold (download_request P file_id rp). rewrite H, (is_200 _ Hs).
    reflexivity.
  - intros e H. unfold _download_file. rewrite http_then.
    fold (download_request P file_id rp). now rewrite H.
Qed.

Lemma download_returns_text_verbatim_witness :
  _download_file
    (Stub.platform output_table (completed_remote 0 three_lines))
    (PyStr "file-out") one_retry []
  = (Ok three_lines,
     [EvHttp (download_request
                (Stub.platform output_table (completed_remote 0 three_lines))
                (PyStr "file-out") one_retry)]).
Proof.
  apply (proj1 (download_returns_text_verbatim
                  (Stub.platform output_table
                     (completed_remote 0 three_lines))
                  (PyStr "file-out") one_retry [])
           (mkResponse 200 three_lines (Raise JSONDecodeError)));
    reflexivity.
Defined.

Lemma upload_outcome (P : Platform) (reqs : list pyval) (rp : RemoteParams)
    (tr : list event) :
  forallb json_serializable reqs = true ->
  _upload_batch_file P reqs rp tr
  = (match transport P (tr ++ [EvTempFile reqs])
             (upload_request P reqs rp) with
     | Ok resp =>
         if negb (resp_status resp =? 200)%Z
         then Raise (RuntimeError
                       ("Failed to upload batch file: "
                          ++ resp_text resp)%string)
         else data <- resp_json resp ;; py_getitem data "id"
     | Raise e => Raise e
     end,
     tr ++ [EvTempFile reqs; EvHttp (upload_request P reqs rp); EvUnlink]).
Proof.
  intros Hser. unfold upload_request, _BATCH_PURPOSE.
  unfold _upload_batch_file, _BATCH_PURPOSE.
  unfold io_bind at 1. unfold emit at 1. rewrite Hser.
  unfold io_finally. rewrite http_then. unfold emit.
  destruct (transport P (tr ++ [EvTempFile reqs]) _) as [resp|e].
  - destruct (negb (resp_status resp =? 200)%Z).
    + unfold io_raise. now rewrite <- !app_assoc.
    + unfold io_bind, lift.
      destruct (resp_json resp); cbn [bind]; now rewrite <- !app_assoc.
  - now rewrite <- !app_assoc.
Qed.

Lemma upload_unserialisable (P : Platform) (reqs : list pyval)
    (rp : RemoteParams) (tr : list event) :
  forallb json_serializable reqs = false ->
  _upload_batch_file P reqs rp tr
  = (Raise TypeError, tr ++ [EvTempFile reqs]).
Proof.
  intros Hser. unfold _upload_batch_file.
  unfold io_bind at 1. unfold emit at 1. now rewrite Hser.
Qed.

(** X13. Uploading a batch file removes the temporary file once the
    document has been written: for a document that JSON can represent,
    whatever the remote service answers and also when the exchange
    raises, the upload writes the document, makes one request and unlinks
    the file; a 200 answer gives the [id] of its JSON body, any other
    status a fatal error with the answer's text.  A document holding a
    request that JSON cannot represent makes the write itself raise a type
    error: no request is made and the file is left behind. *)
Theorem upload_removes_temp_file_once_written :
  forall (P : Platform) (batch_requests : list pyval) (rp : RemoteParams)
         (tr : list event),
    let req := upload_request P batch_requests rp in
    let tr' := tr ++ [EvTempFile batch_requests; EvHttp req; EvUnlink] in
    (forallb json_serializable batch_requests = true ->
       (exists r, _upload_batch_file P batch_requests rp tr = (r, tr'))
       /\ (forall resp,
              transport P (tr ++ [EvTempFile batch_requests]) req = Ok resp ->
              resp_status resp <> 200%Z ->
              _upload_batch_file P batch_requests rp tr
              = (Raise (RuntimeError
                          ("Failed to upload batch file: "
                             ++ resp_text resp)%string), tr'))
       /\ (forall resp data,
              transport P (tr ++ [EvTempFile batch_requests]) req = Ok resp ->
              resp_status resp = 200%Z ->
              resp_json resp = Ok data ->
              _upload_batch_file P batch_requests rp tr
              = (py_getitem data "id", tr'))
       /\ (forall e,
              transport P (tr ++ [EvTempFile batch_requests]) req = Raise e ->
              _upload_batch_file P batch_requests rp tr = (Raise e, tr')))
    /\ (forallb json_serializable batch_requests = false ->
        _upload_batch_file P batch_requests rp tr
        = (Raise TypeError, tr ++ [EvTempFile batch_requests])).
Proof.
  intros P reqs rp tr req tr'. split.
  - intros Hser.
    pose proof (upload_outcome P reqs rp tr Hser) as Hgen.
    fold req in Hgen. fold tr' in Hgen.
    repeat split.
    + eexists. exact Hgen.
    + intros resp H Hs. rewrite Hgen, H, (not_200 _ Hs). reflexivity.
    + intros resp data H Hs Hj. rewrite Hgen, H, (is_200 _ Hs), Hj.
      reflexivity.
    + intros e H. rewrite Hgen, H. reflexivity.
  - apply upload_unserialisable.
Qed.

Lemma upload_removes_temp_file_once_written_witness :
  _upload_batch_file (Stub.platform [] gone) [PyStr "line"] one_retry []
  = (Raise (RuntimeError "Failed to upload batch file: no such file"),
     [EvTempFile [PyStr "line"];
      EvHttp (upload_request (Stub.platform [] gone) [PyStr "line"]
                one_retry);
      EvUnlink])
  /\ _upload_batch_file (Stub.platform [] accepting_remote)
       [PyDict [("image_url", PySet [PyStr "u"])]] one_retry []
     = (Raise TypeError,
        [EvTempFile [PyDict [("image_url", PySet [PyStr "u"])]]]).
Proof.
  split.
  - apply (proj1 (proj2 (proj1 (upload_removes_temp_file_once_written
                                  (Stub.platform [] gone) [PyStr "line"]
                                  one_retry []) eq_refl))
             (mkResponse 404 "no such file" (Raise JSONDecodeError))).
    + reflexivity.
    + discriminate.
  - apply (proj2 (upload_removes_temp_file_once_written
                    (Stub.platform [] accepting_remote)
                    [PyDict [("image_url", PySet [PyStr "u"])]]
                    one_retry [])).
    reflexivity.
Defined.

(** X14. Batch creation stops at the first thing that fails.  When a
    conversation does not encode, nothing is written or sent.  When the
    prepared document holds a request that JSON cannot represent, the
    write raises a type error: no request is made (and the file stays).
    When the document is written and the upload fails (a non-200 answer
    or an exception), the temporary file is removed and no job-creation
    request is made. *)
Theorem batch_creation_stops_at_first_failure :
  forall (P : Platform) (self : RemoteInferenceEngine)
         (conversations : list Conversation) (cfg : InferenceConfig)
         (rp : RemoteParams) (tr : list event),
    (forall e,
        prepare_batch_requests P self conversations cfg = Raise e ->
        _create_batch P self conversations cfg rp tr = (Raise e, tr))
    /\ (forall reqs,
           prepare_batch_requests P self conversations cfg = Ok reqs ->
           forallb json_serializable reqs = false ->
           _create_batch P self conversations cfg rp tr
           = (Raise TypeError, tr ++ [EvTempFile reqs]))
    /\ (forall reqs e,
           prepare_batch_requests P self conversations cfg = Ok reqs ->
           forallb json_serializable reqs = true ->
           fst (_upload_batch_file P reqs rp tr) = Raise e ->
           _create_batch P self conversations cfg rp tr
           = (Raise e,
              tr ++ [EvTempFile reqs; EvHttp (upload_request P reqs rp);
                     EvUnlink])).
Proof.
  intros P self conversations cfg rp tr. split; [|split].
  - intros e H. unfold _create_batch, io_bind, lift. now rewrite H.
  - intros reqs H Hser. unfold _create_batch.
    rewrite H, bind_lift_ok. unfold io_bind at 1.
    now rewrite (upload_unserialisable P reqs rp tr Hser).
  - intros reqs e H Hser Hup. unfold _create_batch.
    rewrite H, bind_lift_ok. unfold io_bind at 1.
    rewrite (upload_outcome P reqs rp tr Hser) in Hup |- *.
    cbn [fst] in Hup. now rewrite Hup.
Qed.

Lemma batch_creation_stops_at_first_failure_witness :
  _create_batch (Stub.platform [] gone) Stub.engine [ask "q"] stub_config
    one_retry []
  = (Raise (RuntimeError "Failed to upload batch file: no such file"),
     [EvTempFile [batch_request 0
                    (plain_input Stub.engine [reply_turn USER "q"]
                       Stub.generation_defaults)];
      EvHttp (upload_request (Stub.platform [] gone)
                [batch_request 0
                   (plain_input Stub.engine [reply_turn USER "q"]
                      Stub.generation_defaults)] one_retry);
      EvUnlink])
  /\ exists reqs,
      _create_batch (Stub.platform [] accepting_remote) Stub.engine
        [image_by_url] stub_config one_retry []
      = (Raise TypeError, [EvTempFile reqs]).
Proof.
  split.
  - apply (proj2 (proj2 (batch_creation_stops_at_first_failure
                           (Stub.platform [] gone) Stub.engine [ask "q"]
                           stub_config one_retry []))); reflexivity.
  - eexists.
    apply (proj1 (proj2 (batch_creation_stops_at_first_failure
                           (Stub.platform [] accepting_remote) Stub.engine
                           [image_by_url] stub_config one_retry [])));
      reflexivity.
Defined.

(** X15. When the conversations encode into a document that JSON can
    represent and the upload is answered with 200 and a file id, batch creation makes exactly one further request:
    a job creation that names the uploaded file id, the completion
    endpoint and the configured completion window.  A 200 answer gives
    the [id] of its body as the job id; any other status is fatal and
    carries the answer's text. *)
Theorem batch_creation_submits_uploaded_file :
  forall (P : Platform) (self : RemoteInferenceEngine)
         (conversations : list Conversation) (cfg : InferenceConfig)
         (rp : RemoteParams) (tr : list event) (reqs : list pyval)
         (uploaded : http_response) (data file_id : pyval),
    prepare_batch_requests P self conversations cfg = Ok reqs ->
    forallb json_serializable reqs = true ->
    transport P (tr ++ [EvTempFile reqs]) (upload_request P reqs rp)
    = Ok uploaded ->
    resp_status uploaded = 200%Z ->
    resp_json uploaded = Ok data ->
    py_getitem data "id" = Ok file_id ->
    let tr1 := tr ++ [EvTempFile reqs; EvHttp (upload_request P reqs rp);
                      EvUnlink] in
    let tr2 := tr1 ++ [EvHttp (create_request P file_id rp)] in
    (forall created answer,
        transport P tr1 (create_request P file_id rp) = Ok created ->
        resp_status created = 200%Z ->
        resp_json created = Ok answer ->
        _create_batch P self conversations cfg rp tr
        = (py_getitem answer "id", tr2))
    /\ (forall created,
           transport P tr1 (create_request P file_id rp) = Ok created ->
           resp_status created <> 200%Z ->
           _create_batch P self conversations cfg rp tr
           = (Raise (RuntimeError
                       ("Failed to create batch: "
                          ++ resp_text created)%string), tr2)).
Proof.
  intros P self conversations cfg rp tr reqs uploaded data file_id
         Hprep Hser Hup Hs Hj Hid tr1 tr2.
  assert (Hrun :
    _create_batch P self conversations cfg rp tr
    = (response <~ http P (create_request P file_id rp) ;;
       if negb (resp_status response =? 200)%Z then
         io_raise (RuntimeError
                     ("Failed to create batch: "
                        ++ resp_text response)%string)
       else
         answer <~ lift (resp_json response) ;;
         lift (py_getitem answer "id")) tr1).
  { unfold _create_batch. rewrite Hprep, bind_lift_ok.
    unfold io_bind at 1.
    rewrite (upload_outcome P reqs rp tr Hser), Hup, (is_200 _ Hs), Hj.
    cbn [bind]. rewrite Hid. reflexivity. }
  rewrite Hrun, http_then. split.
  - intros created answer Hc Hcs Hcj.
    rewrite Hc, (is_200 _ Hcs). unfold io_bind, lift. now rewrite Hcj.
  - intros created Hc Hcs. rewrite Hc, (not_200 _ Hcs). reflexivity.
Qed.

Lemma batch_creation_submits_uploaded_file_witness :
  exists tr,
    _create_batch (Stub.platform [] accepting_remote) Stub.engine
      [ask "q"] stub_config one_retry []
    = (Ok (PyStr "batch-1"), tr)
    /\ http_count tr = 2.
Proof.
  eexists. split.
  - apply (proj1 (batch_creation_submits_uploaded_file
                    (Stub.platform [] accepting_remote) Stub.engine
                    [ask "q"] stub_config one_retry []
                    [batch_request 0
                       (plain_input Stub.engine [reply_turn USER "q"]
                          Stub.generation_defaults)]
                    (mkResponse 200 "file"
                       (Ok (PyDict [("id", PyStr "file-1")])))
                    (PyDict [("id", PyStr "file-1")]) (PyStr "file-1")
                    eq_refl eq_refl eq_refl eq_refl eq_refl eq_refl)
             (mkResponse 200 "batch"
                (Ok (PyDict [("id", PyStr "batch-1")])))
             (PyDict [("id", PyStr "batch-1")]));
      reflexivity.
  - reflexivity.
Defined.

(** X16. A status fetch answered with 200 builds the status record from
    the payload: the status string must name a lifecycle state (any other
    string raises a value error), the three request counts are read from
    [request_counts] (whose absence raises a key error), and the error,
    output-file and error-file references are those of the payload or
    [None] when absent. *)
Theorem status_fetch_reads_payload :
  forall (P : Platform) (batch_id_ : string) (rp : RemoteParams)
         (tr : list event) (resp : http_response) (d : dict),
    transport P tr (status_request P batch_id_ rp) = Ok resp ->
    resp_status resp = 200%Z ->
    resp_json resp = Ok (PyDict d) ->
    let tr' := tr ++ [EvHttp (status_request P batch_id_ rp)] in
    (forall s st counts total completed failed,
        dict_lookup "status" d = Some (PyStr s) ->
        BatchStatus_of (PyStr s) = Ok st ->
        dict_lookup "request_counts" d = Some (PyDict counts) ->
        dict_lookup "total" counts = Some total ->
        dict_lookup "completed" counts = Some completed ->
        dict_lookup "failed" counts = Some failed ->
        _get_batch_status P batch_id_ rp tr
        = (Ok (mkBatchStatus batch_id_ st total completed failed
                 (lookup_or_none "error" d)
                 (lookup_or_none "output_file_id" d)
                 (lookup_or_none "error_file_id" d)), tr'))
    /\ (forall s msg,
           dict_lookup "status" d = Some (PyStr s) ->
           BatchStatus_of (PyStr s) = Raise (ValueError msg) ->
           _get_batch_status P batch_id_ rp tr
           = (Raise (ValueError msg), tr'))
    /\ (forall s st,
           dict_lookup "status" d = Some (PyStr s) ->
           BatchStatus_of (PyStr s) = Ok st ->
           dict_lookup "request_counts" d = None ->
           _get_batch_status P batch_id_ rp tr
           = (Raise (KeyError "request_counts"), tr')).
Proof.
  intros P bid rp tr resp d Hresp Hs Hj tr'.
  assert (Hrun : forall r,
    (s <- py_getitem (PyDict d) "status" ;;
     status_ <- BatchStatus_of s ;;
     counts <- py_getitem (PyDict d) "request_counts" ;;
     total <- py_getitem counts "total" ;;
     counts <- py_getitem (PyDict d) "request_counts" ;;
     completed <- py_getitem counts "completed" ;;
     counts <- py_getitem (PyDict d) "request_counts" ;;
     failed <- py_getitem counts "failed" ;;
     error_ <- py_get (PyDict d) "error" ;;
     output_file_id_ <- py_get (PyDict d) "output_file_id" ;;
     error_file_id_ <- py_get (PyDict d) "error_file_id" ;;
     Ok (mkBatchStatus bid status_ total completed failed
           error_ output_file_id_ error_file_id_)) = r ->
    _get_batch_status P bid rp tr = (r, tr')).
  { intros r <-. unfold _get_batch_status. rewrite http_then.
    fold (status_request P bid rp). rewrite Hresp, (is_200 _ Hs).
    unfold io_bind, lift. rewrite Hj. reflexivity. }
  repeat split.
  - intros s st counts total completed failed H1 H2 H3 H4 H5 H6.
    apply Hrun. cbn [py_getitem py_get]. rewrite H1. cbn [bind].
    rewrite H2. cbn [bind]. rewrite H3. cbn [bind py_getitem].
    rewrite H4, H5, H6. cbn [bind]. unfold lookup_or_none.
    destruct (dict_lookup "error" d), (dict_lookup "output_file_id" d),
      (dict_lookup "error_file_id" d); reflexivity.
  - intros s msg H1 H2. apply Hrun. cbn [py_getitem]. rewrite H1.
    cbn [bind]. now rewrite H2.
  - intros s st H1 H2 H3. apply Hrun. cbn [py_getitem]. rewrite H1.
    cbn [bind]. rewrite H2. cbn [bind]. now rewrite H3.
Qed.

Lemma status_fetch_reads_payload_witness :
  _get_batch_status (Stub.platform [] failed_batch_remote) "b1" one_retry []
  = (Ok (mkBatchStatus "b1" COMPLETED (PyInt 3) (PyInt 3) (PyInt 1) PyNone
           PyNone (PyStr "file-err")),
     [EvHttp (status_request (Stub.platform [] failed_batch_remote) "b1"
                one_retry)]).
Proof.
  apply (proj1 (status_fetch_reads_payload
                  (Stub.platform [] failed_batch_remote) "b1" one_retry []
                  (status_payload "completed" 1 PyNone (PyStr "file-err"))
                  [("status", PyStr "completed");
                   ("request_counts",
                     PyDict [("total", PyInt 3); ("completed", PyInt 3);
                             ("failed", PyInt 1)]);
                   ("output_file_id", PyNone);
                   ("error_file_id", PyStr "file-err")]
                  eq_refl eq_refl eq_refl)
           "completed" COMPLETED
           [("total", PyInt 3); ("completed", PyInt 3); ("failed", PyInt 1)]
           (PyInt 3) (PyInt 3) (PyInt 1));
    reflexivity.
Defined.

(** X17. Deleting a file answered with 200 returns the [deleted] flag of
    the answer, and [False] when the answer has no such field. *)
Theorem delete_returns_deleted_flag :
  forall (P : Platform) (file_id : string) (rp : RemoteParams)
         (tr : list event) (resp : http_response) (d : dict),
    transport P tr (delete_file_request P file_id rp) = Ok resp ->
    resp_status resp = 200%Z ->
    resp_json resp = Ok (PyDict d) ->
    _delete_file P file_id rp tr
    = (Ok (match dict_lookup "deleted" d with
           | Some flag => flag
           | None => PyBool false
           end),
       tr ++ [EvHttp (delete_file_request P file_id rp)]).
Proof.
  intros P file_id rp tr resp d H Hs Hj. unfold _delete_file.
  rewrite http_then. fold (delete_file_request P file_id rp).
  rewrite H, (is_200 _ Hs). unfold io_bind, lift. rewrite Hj.
  cbn [py_get_default]. destruct (dict_lookup "deleted" d); reflexivity.
Qed.

Lemma delete_returns_deleted_flag_witness :
  _delete_file (Stub.platform [] deleting_remote) "file-1" one_retry []
  = (Ok (PyBool false),
     [EvHttp (delete_file_request (Stub.platform [] deleting_remote)
                "file-1" one_retry)]).
Proof.
  apply (delete_returns_deleted_flag (Stub.platform [] deleting_remote)
           "file-1" one_retry [] (mkResponse 200 "{}" (Ok (PyDict []))) []);
    reflexivity.
Defined.

(** X18. A file listing answered with 200 returns one record per entry of
    [data], in order.  Its [has_more] flag is a guess: it is set exactly
    when a non-zero limit was asked for and as many files came back.  A
    limit of 0 behaves in every respect like no limit. *)
Theorem file_listing_and_has_more :
  forall (P : Platform) (rp : RemoteParams) (purpose : option string)
         (limit : option Z) (order : string) (after : option string)
         (tr : list event) (resp : http_response) (d : dict)
         (entries : list pyval) (infos : list FileInfo.t),
    transport P tr (list_files_request P rp purpose limit order after)
    = Ok resp ->
    resp_status resp = 200%Z ->
    resp_json resp = Ok (PyDict d) ->
    dict_lookup "data" d = Some (PyList entries) ->
    mapM file_info_of entries = Ok infos ->
    _list_files P rp purpose limit order after tr
    = (Ok (FileListResponse.mk infos
             (has_more_heuristic limit (List.length entries))),
       tr ++ [EvHttp (list_files_request P rp purpose limit order after)])
    /\ List.length infos = List.length entries
    /\ (has_more_heuristic limit (List.length entries) = true
        <-> exists l, limit = Some l /\ l <> 0%Z
                      /\ Z.of_nat (List.length entries) = l)
    /\ (forall tr0,
           _list_files P rp purpose (Some 0%Z) order after tr0
           = _list_files P rp purpose None order after tr0).
Proof.
  intros P rp purpose limit order after tr resp d entries infos
         H Hs Hj Hd Hm.
  pose proof (mapM_length _ _ _ Hm) as Hlen.
  repeat split.
  - unfold _list_files. rewrite http_then.
    fold (list_files_request P rp purpose limit order after).
    rewrite H, (is_200 _ Hs). unfold io_bind, lift. rewrite Hj.
    cbn [py_getitem]. rewrite Hd. cbn [bind py_iter]. rewrite Hm.
    cbn [bind]. unfold has_more_heuristic. now rewrite Hlen.
  - exact Hlen.
  - unfold has_more_heuristic. destruct limit as [l|]; [|discriminate].
    destruct (Z.eqb_spec l 0); cbn [negb]; [discriminate|].
    intros Heq. apply Z.eqb_eq in Heq. eauto.
  - intros (l & -> & Hne & Heq). unfold has_more_heuristic.
    destruct (Z.eqb_spec l 0); [contradiction|]. cbn [negb].
    now apply Z.eqb_eq.
Qed.

Lemma file_listing_and_has_more_witness :
  has_more_heuristic (Some 2%Z) 2 = true
  /\ exists r tr,
      _list_files (Stub.platform [] two_files_remote) one_retry None
        (Some 2%Z) "desc" None [] = (Ok r, tr)
      /\ FileListResponse.has_more r = true.
Proof.
  edestruct (file_listing_and_has_more
               (Stub.platform [] two_files_remote) one_retry None
               (Some 2%Z) "desc" None [])
    as (Hrun & _ & Hiff & _).
  - reflexivity.
  - reflexivity.
  - reflexivity.
  - reflexivity.
  - reflexivity.
  - split.
    + apply Hiff. exists 2%Z. repeat split. discriminate.
    + do 2 eexists. split; [exact Hrun|]. reflexivity.
Defined.

Lemma for_loop_append {A B} (f : A -> result B) (xs : list A)
    (acc : list B) :
  for_loop (fun acc x => y <- f x ;; Ok (acc ++ [y])) xs acc
  = (ys <- mapM f xs ;; Ok (acc ++ ys)).
Proof.
  revert acc. induction xs as [|x xs IH]; intros acc; cbn.
  - now rewrite app_nil_r.
  - destruct (f x) as [y|e]; cbn [bind]; auto. rewrite IH.
    destruct (mapM f xs); cbn [bind]; auto. now rewrite <- app_assoc.
Qed.

(** X19. A batch listing answered with 200 returns one record per entry
    of [data], in order, with the cursor fields of the payload ([None]
    when absent) and [has_more] defaulting to [False].  An entry without
    [request_counts] gets zero for its three counts; an entry without an
    [id] raises a key error. *)
Theorem batch_listing_defaults :
  forall (P : Platform) (rp : RemoteParams) (after : option string)
         (limit : option Z) (tr : list event) (resp : http_response)
         (d : dict) (entries : list pyval) (infos : list BatchInfo.t),
    transport P tr (list_batches_request P rp after limit) = Ok resp ->
    resp_status resp = 200%Z ->
    resp_json resp = Ok (PyDict d) ->
    dict_lookup "data" d = Some (PyList entries) ->
    mapM batch_info_of entries = Ok infos ->
    _list_batches P rp after limit tr
    = (Ok (BatchListResponse.mk infos
             (lookup_or_none "first_id" d) (lookup_or_none "last_id" d)
             (match dict_lookup "has_more" d with
              | Some flag => flag
              | None => PyBool false
              end)),
       tr ++ [EvHttp (list_batches_request P rp after limit)])
    /\ List.length infos = List.length entries
    /\ (forall e info,
           batch_info_of (PyDict e) = Ok info ->
           dict_lookup "request_counts" e = None ->
           BatchInfo.total_requests info = PyInt 0
           /\ BatchInfo.completed_requests info = PyInt 0
           /\ BatchInfo.failed_requests info = PyInt 0)
    /\ (forall e,
           dict_lookup "id" e = None ->
           batch_info_of (PyDict e) = Raise (KeyError "id")).
Proof.
  intros P rp after limit tr resp d entries infos H Hs Hj Hd Hm.
  split; [|split; [|split]].
  - unfold _list_batches. rewrite http_then.
    fold (list_batches_request P rp after limit).
    rewrite H, (is_200 _ Hs). unfold io_bind, lift. rewrite Hj.
    cbn [py_getitem]. rewrite Hd. cbn [bind py_iter].
    rewrite (for_loop_append batch_info_of entries []), Hm.
    cbn [bind app py_get py_get_default]. unfold lookup_or_none.
    destruct (dict_lookup "first_id" d), (dict_lookup "last_id" d),
      (dict_lookup "has_more" d); reflexivity.
  - eapply mapM_length; eauto.
  - intros e info Hinfo Hnone.
    unfold batch_info_of in Hinfo. cbn [py_get_default] in Hinfo.
    rewrite Hnone in Hinfo. cbn [bind] in Hinfo.
    cbn [py_get_default dict_lookup] in Hinfo.
    repeat match type of Hinfo with
           | bind ?x _ = Ok _ =>
               destruct x eqn:?; cbn [bind] in Hinfo; [|discriminate]
           end.
    repeat match goal with
           | Hz : Ok (PyInt 0) = Ok _ |- _ => inversion Hz; clear Hz; subst
           end.
    inversion Hinfo; subst. cbn. auto.
  - intros e Hid. unfold batch_info_of. cbn [py_get_default].
    destruct (dict_lookup "request_counts" e) as [v|]; cbn [bind py_getitem];
      now rewrite Hid.
Qed.

Lemma batch_listing_defaults_witness :
  exists r tr,
    _list_batches (Stub.platform [] one_batch_remote) one_retry None None []
    = (Ok r, tr)
    /\ map BatchInfo.total_requests (BatchListResponse.batches r)
       = [PyInt 0]
    /\ BatchListResponse.has_more r = PyBool false.
Proof.
  edestruct (batch_listing_defaults
               (Stub.platform [] one_batch_remote) one_retry None None [])
    as (Hrun & _ & _ & _).
  - reflexivity.
  - reflexivity.
  - reflexivity.
  - reflexivity.
  - reflexivity.
  - do 2 eexists. split; [exact Hrun|]. split; reflexivity.
Defined.

Section LineFailures.

Variable P : Platform.

Lemma process_line_error (acc : list Conversation) (line : string)
    (conv : Conversation) (obj : dict) (err : pyval) :
  json_loads P line = Ok (PyDict obj) ->
  dict_lookup "error" obj = Some err ->
  truthy err = true ->
  process_line P acc (line, conv)
  = Raise (RuntimeError ("Batch request failed: " ++ fmt_value P err)%string).
Proof.
  intros Hload Herr Ht. unfold process_line. rewrite Hload.
  cbn [bind py_get py_getitem]. rewrite Herr. cbn [bind]. now rewrite Ht.
Qed.

Lemma process_line_unparsed (acc : list Conversation) (line : string)
    (conv : Conversation) (e : exn) :
  json_loads P line = Raise e -> process_line P acc (line, conv) = Raise e.
Proof. intros H. unfold process_line. now rewrite H. Qed.

(** The loop stops at the first position whose line fails. *)
Lemma parse_stops_at_failure (e : exn) (line : string) (conv : Conversation) :
  (forall acc, process_line P acc (line, conv) = Raise e) ->
  forall (k : nat) (lines : list string) (convs acc : list Conversation),
    nth_error lines k = Some line ->
    nth_error convs k = Some conv ->
    (forall i l c,
        i < k -> nth_error lines i = Some l -> nth_error convs i = Some c ->
        exists r, line_decodes_to P l c r) ->
    for_loop (process_line P) (combine lines convs) acc = Raise e.
Proof.
  intros Hfail. induction k as [|k IH]; intros lines convs acc Hl Hc Hgood;
    destruct lines as [|l ls]; destruct convs as [|c cs]; try discriminate;
    cbn in Hl, Hc; cbn [combine for_loop].
  - inversion Hl; inversion Hc; subst. now rewrite Hfail.
  - destruct (Hgood 0 l c ltac:(lia) eq_refl eq_refl) as [r Hr].
    rewrite (process_line_ok P acc l c r Hr). cbn [bind].
    apply IH; auto.
    intros i l' c' Hi Hl' Hc'. apply (Hgood (S i) l' c'); auto. lia.
Qed.

(** What a successful pass over one line appends. *)
Lemma process_line_inv (acc out : list Conversation) (line : string)
    (conv : Conversation) :
  process_line P acc (line, conv) = Ok out ->
  exists r c, out = acc ++ [with_reply conv r c].
Proof.
  unfold process_line. intros H.
  destruct (json_loads P line) as [v|]; cbn [bind] in H; [|discriminate].
  destruct (py_get v "error") as [err|]; cbn [bind] in H; [|discriminate].
  destruct (truthy err).
  - destruct (py_getitem v "error"); discriminate.
  - repeat match type of H with
           | bind ?x _ = Ok _ =>
               destruct x eqn:?; cbn [bind] in H; [|discriminate]
           end.
    inversion H; subst.
    match goal with
    | Hd : _convert_api_output_to_conversation _ _ = Ok _ |- _ =>
        destruct (decode_inv _ _ _ Hd) as (r & c & ->)
    end.
    eauto.
Qed.

Lemma parse_zip_inv :
  forall (lines : list string) (convs acc out : list Conversation),
    for_loop (process_line P) (combine lines convs) acc = Ok out ->
    exists rs,
      out = acc ++ rs
      /\ List.length rs = Nat.min (List.length lines) (List.length convs)
      /\ forall i res,
          nth_error rs i = Some res ->
          exists conv r c,
            nth_error convs i = Some conv /\ res = with_reply conv r c.
Proof.
  induction lines as [|l ls IH]; intros convs acc out H.
  - cbn in H. inversion H; subst. exists []. rewrite app_nil_r.
    repeat split; auto. intros [|i] res Hr; discriminate.
  - destruct convs as [|c cs].
    + cbn in H. inversion H; subst. exists []. rewrite app_nil_r.
      repeat split; auto. intros [|i] res Hr; discriminate.
    + cbn [combine for_loop] in H.
      destruct (process_line P acc (l, c)) as [acc'|] eqn:E;
        cbn [bind] in H; [|discriminate].
      destruct (process_line_inv acc acc' l c E) as (r & cc & ->).
      destruct (IH cs _ out H) as (rs & -> & Hlen & Hnth).
      exists (with_reply c r cc :: rs). rewrite <- app_assoc.
      repeat split; auto.
      * cbn. now rewrite Hlen.
      * intros [|i] res Hr; cbn in Hr |- *.
        -- inversion Hr; subst. eauto.
        -- apply Hnth. exact Hr.
Qed.

(** A successful retrieval has parsed some downloaded document. *)
Lemma results_ok_inv (batch_id_ : string) (convs rs : list Conversation)
    (rp : RemoteParams) (tr tr' : list event) :
  _get_batch_results_with_mapping P batch_id_ convs rp tr = (Ok rs, tr') ->
  exists content, parse_results P content convs = Ok rs.
Proof.
  unfold _get_batch_results_with_mapping, io_bind at 1.
  destruct (_get_batch_status P batch_id_ rp tr) as [[st|e] tr1];
    [|discriminate].
  unfold results_for_status.
  destruct (negb (BatchStatus_eqb (status st) COMPLETED)); [discriminate|].
  unfold io_bind at 1. unfold lift at 1.
  destruct (py_gt_zero (failed_requests st)) as [failed|e]; [|discriminate].
  destruct (failed && truthy (error_file_id st)).
  - unfold io_bind.
    destruct (_download_file P (error_file_id st) rp tr1) as [[c|e] tr2];
      discriminate.
  - destruct (negb (truthy (output_file_id st))); [discriminate|].
    unfold io_bind, lift.
    destruct (_download_file P (output_file_id st) rp tr1) as [[c|e] tr2];
      [|discriminate].
    intros H. inversion H. eauto.
Qed.

End LineFailures.

(** X20. One bad line spoils the whole retrieval: when the lines before
    position [k] decode and the line at [k] carries a non-empty [error]
    field, retrieval raises a batch-request-failed error with that error,
    and when the line at [k] does not parse, it raises the parser's
    error; the conversations decoded before it are not returned. *)
Theorem failing_line_aborts_retrieval :
  forall (P : Platform) (batch_id_ : string)
         (conversations : list Conversation) (rp : RemoteParams)
         (tr tr1 tr2 : list event) (st : BatchStatusResponse)
         (failed : bool) (results_content : string)
         (k : nat) (line : string) (conv : Conversation),
    _get_batch_status P batch_id_ rp tr = (Ok st, tr1) ->
    status st = COMPLETED ->
    py_gt_zero (failed_requests st) = Ok failed ->
    failed && truthy (error_file_id st) = false ->
    truthy (output_file_id st) = true ->
    _download_file P (output_file_id st) rp tr1 = (Ok results_content, tr2) ->
    nth_error (splitlines P results_content) k = Some line ->
    nth_error conversations k = Some conv ->
    (forall i l c,
        i < k ->
        nth_error (splitlines P results_content) i = Some l ->
        nth_error conversations i = Some c ->
        exists r, line_decodes_to P l c r) ->
    let run :=
      _get_batch_results_with_mapping P batch_id_ conversations rp tr in
    (forall obj err,
        json_loads P line = Ok (PyDict obj) ->
        dict_lookup "error" obj = Some err ->
        truthy err = true ->
        run = (Raise (RuntimeError
                        ("Batch request failed: "
                           ++ fmt_value P err)%string), tr2))
    /\ (forall e, json_loads P line = Raise e -> run = (Raise e, tr2)).
Proof.
  intros P bid convs rp tr tr1 tr2 st failed content k line conv
         Hst Hc Hf Hgate Hout Hd Hl Hconv Hgood run.
  subst run.
  rewrite (results_after_download P bid convs rp tr tr1 tr2 st failed
             content Hst Hc Hf Hgate Hout Hd).
  unfold parse_results. split.
  - intros obj err Hload Herr Ht.
    rewrite (parse_stops_at_failure P _ line conv
               (fun acc => process_line_error P acc line conv obj err
                             Hload Herr Ht)
               k _ _ [] Hl Hconv Hgood).
    reflexivity.
  - intros e Hload.
    rewrite (parse_stops_at_failure P e line conv
               (fun acc => process_line_unparsed P acc line conv e Hload)
               k _ _ [] Hl Hconv Hgood).
    reflexivity.
Qed.

Lemma failing_line_aborts_retrieval_witness :
  exists tr,
    _get_batch_results_with_mapping
      (Stub.platform output_table (completed_remote 0 two_lines_and_noise))
      "b1" [ask "q0"; ask "q1"; ask "q2"] one_retry []
    = (Raise JSONDecodeError, tr).
Proof.
  eexists.
  eapply (proj2 (failing_line_aborts_retrieval
            (Stub.platform output_table
               (completed_remote 0 two_lines_and_noise))
            "b1" [ask "q0"; ask "q1"; ask "q2"] one_retry [] _ _ _ false
            two_lines_and_noise 2 "not json" (ask "q2")
            eq_refl eq_refl eq_refl eq_refl eq_refl eq_refl eq_refl eq_refl
            _)).
  reflexivity.
  Unshelve.
  intros [|[|i]] l c Hi Hl Hc; try lia; vm_compute in Hl; cbn in Hc;
    inversion Hl; inversion Hc; subst; decode_line.
Defined.

(** X21. Every conversation that retrieval returns is the original at the
    same position with exactly one text message appended; its earlier
    messages, metadata and identifier are those of the original.  There
    are never more results than original conversations. *)
Theorem results_extend_their_originals :
  forall (P : Platform) (batch_id_ : string)
         (conversations rs : list Conversation) (rp : RemoteParams)
         (tr tr' : list event),
    _get_batch_results_with_mapping P batch_id_ conversations rp tr
    = (Ok rs, tr') ->
    List.length rs <= List.length conversations
    /\ forall i res,
        nth_error rs i = Some res ->
        exists conv r c,
          nth_error conversations i = Some conv
          /\ res = with_reply conv r c
          /\ metadata res = metadata conv
          /\ conversation_id res = conversation_id conv
          /\ firstn (List.length (messages conv)) (messages res)
             = messages conv.
Proof.
  intros P bid convs rs rp tr tr' Hrun.
  destruct (results_ok_inv P bid convs rs rp tr tr' Hrun) as [content Hp].
  unfold parse_results in Hp.
  destruct (parse_zip_inv P _ convs [] rs Hp) as (rs' & Heq & Hlen & Hnth).
  cbn [app] in Heq. subst rs'. split; [lia|].
  intros i res Hres.
  destruct (Hnth i res Hres) as (conv & r & c & Hconv & ->).
  exists conv, r, c. repeat split; auto.
  cbn [with_reply messages]. rewrite firstn_app, Nat.sub_diag, firstn_all.
  cbn. now rewrite app_nil_r.
Qed.

Lemma results_extend_their_originals_witness :
  List.length
    [with_reply (ask "q0") ASSISTANT "zero";
     with_reply (ask "q1") ASSISTANT "one"]
  <= List.length [ask "q0"; ask "q1"].
Proof.
  refine (proj1 (results_extend_their_originals
                   (Stub.platform output_table
                      (completed_remote 0 two_lines_and_noise))
                   "b1" [ask "q0"; ask "q1"] _ one_retry [] _ eq_refl)).
Defined.

(** X22. Empty inputs: retrieval for an empty list of conversations
    returns the empty list without reading a single line of the
    downloaded document; and batch creation for an empty list does not
    stop but writes and uploads an empty document. *)
Theorem empty_conversation_lists :
  forall (P : Platform) (self : RemoteInferenceEngine)
         (cfg : InferenceConfig) (rp : RemoteParams) (tr : list event),
    (forall results_content, parse_results P results_content [] = Ok [])
    /\ (forall batch_id_ tr1 tr2 st failed results_content,
           _get_batch_status P batch_id_ rp tr = (Ok st, tr1) ->
           status st = COMPLETED ->
           py_gt_zero (failed_requests st) = Ok failed ->
           failed && truthy (error_file_id st) = false ->
           truthy (output_file_id st) = true ->
           _download_file P (output_file_id st) rp tr1
           = (Ok results_content, tr2) ->
           _get_batch_results_with_mapping P batch_id_ [] rp tr
           = (Ok [], tr2))
    /\ prepare_batch_requests P self [] cfg = Ok []
    /\ exists r rest,
        _create_batch P self [] cfg rp tr
        = (r, tr ++ EvTempFile [] :: EvHttp (upload_request P [] rp)
                 :: EvUnlink :: rest).
Proof.
  intros P self cfg rp tr.
  assert (Hparse : forall content, parse_results P content [] = Ok []).
  { intros content. unfold parse_results.
    now rewrite combine_nil. }
  split; [exact Hparse|]. split; [|split; [reflexivity|]].
  - intros bid tr1 tr2 st failed content Hst Hc Hf Hgate Hout Hd.
    rewrite (results_after_download P bid [] rp tr tr1 tr2 st failed
               content Hst Hc Hf Hgate Hout Hd).
    now rewrite Hparse.
  - unfold _create_batch.
    change (prepare_batch_requests P self [] cfg) with (@Ok (list pyval) []).
    rewrite bind_lift_ok.
    apply (bind_after_prefix
             [EvTempFile []; EvHttp (upload_request P [] rp); EvUnlink]).
    + rewrite (upload_outcome P [] rp tr eq_refl). do 2 eexists.
      rewrite app_nil_r. reflexivity.
    + intros file_id. auto 10 with io_ext.
Qed.

Lemma empty_conversation_lists_witness :
  exists tr,
    _get_batch_results_with_mapping
      (Stub.platform [] (completed_remote 0 two_lines_and_noise))
      "b1" [] one_retry []
    = (Ok [], tr).
Proof.
  eexists.
  eapply (proj1 (proj2 (empty_conversation_lists
                          (Stub.platform []
                             (completed_remote 0 two_lines_and_noise))
                          Stub.engine stub_config one_retry []))
            "b1" _ _ _ false two_lines_and_noise);
    reflexivity.
Defined.
